(** * ClutterSettings: the settings store of clutter/clutter-settings.c

    A shallow embedding of [clutter-settings.c]: the translation of the
    platform's font enumerations ([get_font_gsettings]), the settings
    object with its property setter and getter, the derived resolution
    and font options, the coalesced "settings-changed" notification and
    the pointer-accessibility synchronisation.

    Conventions.
    - [gint] and [guint] values are integers of [Z]; the conversion of a
      [gint] to a [guint] is written out ([guint_of_gint]).
    - [gdouble] is IEEE binary64, the kernel's primitive [float]; the
      operations are the ones the C code performs, in the same order.
    - A [gchar *] is an [option string], [None] being [NULL].
    - The object is mutated in place in C; here every function of the
      source that takes [self] is a computation of the monad [M], which
      threads the object and collects, in order, what the function sends
      to the outside (signals, calls into the backend and the seat,
      warnings).  Debug notes ([CLUTTER_NOTE]) have no effect and are
      left out. *)

From Stdlib Require Import ZArith List String Ascii Bool Lia.
From Stdlib Require Import Floats Uint63.
Import ListNotations.

Local Open Scope Z_scope.

(* ------------------------------------------------------------------ *)
(** ** Cairo's font option types (the members the source names)       *)
(* ------------------------------------------------------------------ *)

Module Cairo.

Inductive cairo_antialias_t :=
| CAIRO_ANTIALIAS_DEFAULT
| CAIRO_ANTIALIAS_NONE
| CAIRO_ANTIALIAS_GRAY
| CAIRO_ANTIALIAS_SUBPIXEL.

Inductive cairo_hint_style_t :=
| CAIRO_HINT_STYLE_DEFAULT
| CAIRO_HINT_STYLE_NONE
| CAIRO_HINT_STYLE_SLIGHT
| CAIRO_HINT_STYLE_MEDIUM
| CAIRO_HINT_STYLE_FULL.

Inductive cairo_subpixel_order_t :=
| CAIRO_SUBPIXEL_ORDER_DEFAULT
| CAIRO_SUBPIXEL_ORDER_RGB
| CAIRO_SUBPIXEL_ORDER_BGR
| CAIRO_SUBPIXEL_ORDER_VRGB
| CAIRO_SUBPIXEL_ORDER_VBGR.

Inductive cairo_hint_metrics_t :=
| CAIRO_HINT_METRICS_DEFAULT
| CAIRO_HINT_METRICS_OFF
| CAIRO_HINT_METRICS_ON.

Definition cairo_antialias_eqb (a b : cairo_antialias_t) : bool :=
  match a, b with
  | CAIRO_ANTIALIAS_DEFAULT, CAIRO_ANTIALIAS_DEFAULT
  | CAIRO_ANTIALIAS_NONE, CAIRO_ANTIALIAS_NONE
  | CAIRO_ANTIALIAS_GRAY, CAIRO_ANTIALIAS_GRAY
  | CAIRO_ANTIALIAS_SUBPIXEL, CAIRO_ANTIALIAS_SUBPIXEL => true
  | _, _ => false
  end.

Definition cairo_hint_style_eqb (a b : cairo_hint_style_t) : bool :=
  match a, b with
  | CAIRO_HINT_STYLE_DEFAULT, CAIRO_HINT_STYLE_DEFAULT
  | CAIRO_HINT_STYLE_NONE, CAIRO_HINT_STYLE_NONE
  | CAIRO_HINT_STYLE_SLIGHT, CAIRO_HINT_STYLE_SLIGHT
  | CAIRO_HINT_STYLE_MEDIUM, CAIRO_HINT_STYLE_MEDIUM
  | CAIRO_HINT_STYLE_FULL, CAIRO_HINT_STYLE_FULL => true
  | _, _ => false
  end.

Definition cairo_subpixel_order_eqb (a b : cairo_subpixel_order_t) : bool :=
  match a, b with
  | CAIRO_SUBPIXEL_ORDER_DEFAULT, CAIRO_SUBPIXEL_ORDER_DEFAULT
  | CAIRO_SUBPIXEL_ORDER_RGB, CAIRO_SUBPIXEL_ORDER_RGB
  | CAIRO_SUBPIXEL_ORDER_BGR, CAIRO_SUBPIXEL_ORDER_BGR
  | CAIRO_SUBPIXEL_ORDER_VRGB, CAIRO_SUBPIXEL_ORDER_VRGB
  | CAIRO_SUBPIXEL_ORDER_VBGR, CAIRO_SUBPIXEL_ORDER_VBGR => true
  | _, _ => false
  end.

(** A [cairo_font_options_t] object: the four options the source sets. *)
Record cairo_font_options_t := {
  hint_metrics : cairo_hint_metrics_t;
  hint_style : cairo_hint_style_t;
  subpixel_order : cairo_subpixel_order_t;
  antialias : cairo_antialias_t
}.

(** [cairo_font_options_create]: every option at its default. *)
Definition cairo_font_options_create : cairo_font_options_t :=
  {| hint_metrics := CAIRO_HINT_METRICS_DEFAULT;
     hint_style := CAIRO_HINT_STYLE_DEFAULT;
     subpixel_order := CAIRO_SUBPIXEL_ORDER_DEFAULT;
     antialias := CAIRO_ANTIALIAS_DEFAULT |}.

Definition cairo_font_options_set_hint_metrics
    (o : cairo_font_options_t) (v : cairo_hint_metrics_t) :=
  {| hint_metrics := v; hint_style := hint_style o;
     subpixel_order := subpixel_order o; antialias := antialias o |}.

Definition cairo_font_options_set_hint_style
    (o : cairo_font_options_t) (v : cairo_hint_style_t) :=
  {| hint_metrics := hint_metrics o; hint_style := v;
     subpixel_order := subpixel_order o; antialias := antialias o |}.

Definition cairo_font_options_set_subpixel_order
    (o : cairo_font_options_t) (v : cairo_subpixel_order_t) :=
  {| hint_metrics := hint_metrics o; hint_style := hint_style o;
     subpixel_order := v; antialias := antialias o |}.

Definition cairo_font_options_set_antialias
    (o : cairo_font_options_t) (v : cairo_antialias_t) :=
  {| hint_metrics := hint_metrics o; hint_style := hint_style o;
     subpixel_order := subpixel_order o; antialias := v |}.

End Cairo.
Export Cairo.

(* ------------------------------------------------------------------ *)
(** ** C scalars                                                      *)
(* ------------------------------------------------------------------ *)

Definition G_MAXINT : Z := 2147483647.
Definition G_MININT : Z := -2147483648.
Definition G_MAXUINT : Z := 4294967295.

(** The conversion of a [gint] to a [guint] ([guint i = <gint>]). *)
Definition guint_of_gint (z : Z) : Z := z mod 2 ^ 32.

(** [(gdouble) i] for a [gint]: exact, every 32-bit integer is a double. *)
Definition double_of_int (z : Z) : float :=
  if z <? 0 then PrimFloat.opp (PrimFloat.of_uint63 (Uint63.of_Z (- z)))
  else PrimFloat.of_uint63 (Uint63.of_Z z).

(** The integer part of a double, rounded toward zero; [None] for a NaN
    or an infinity.  A finite double is [(-1)^s * m * 2^e]. *)
Definition SF_trunc (f : spec_float) : option Z :=
  match f with
  | S754_zero _ => Some 0
  | S754_finite s m (Zpos p) => Some (cond_Zopp s (Z.shiftl (Zpos m) (Zpos p)))
  | S754_finite s m Z0 => Some (cond_Zopp s (Zpos m))
  | S754_finite s m (Zneg p) => Some (cond_Zopp s (Z.shiftr (Zpos m) (Zpos p)))
  | S754_infinity _ | S754_nan => None
  end.

Definition double_trunc (f : float) : option Z := SF_trunc (Prim2SF f).

(** [(int) f]: truncation toward zero.  C leaves the conversion undefined
    when the truncated value is not an [int] (and for NaN); the model
    gives what x86-64's [cvttsd2si] gives there, [G_MININT]. *)
Definition int_of_double (f : float) : Z :=
  match double_trunc f with
  | Some z => if (G_MININT <=? z) && (z <=? G_MAXINT) then z else G_MININT
  | None => G_MININT
  end.

(** [strcmp (a, b) == 0]. *)
Definition streq (a b : string) : bool := String.eqb a b.

(* ------------------------------------------------------------------ *)
(** ** GSettings: a platform preference store, as the source reads it *)
(* ------------------------------------------------------------------ *)

Module GLib.

(** An open store: what each typed getter answers for a key. *)
Record GSettings := {
  get_enum : string -> Z;
  get_int : string -> Z;
  get_boolean : string -> bool;
  get_double : string -> float
}.

(** The getters take a [GSettings *].  On [NULL] GLib's argument checks
    ([g_return_val_if_fail]) log a critical and the call gives the
    fallback value written here. *)
Definition g_settings_get_enum (settings : option GSettings) (key : string) : Z :=
  match settings with Some g => get_enum g key | None => -1 end.

Definition g_settings_get_int (settings : option GSettings) (key : string) : Z :=
  match settings with Some g => get_int g key | None => 0 end.

Definition g_settings_get_boolean (settings : option GSettings) (key : string) : bool :=
  match settings with Some g => get_boolean g key | None => false end.

Definition g_settings_get_double (settings : option GSettings) (key : string) : float :=
  match settings with Some g => get_double g key | None => 0%float end.

(** A [GValue] of the three types the properties have. *)
Inductive GValue :=
| G_INT (v : Z)
| G_UINT (v : Z)
| G_STRING (v : option string).

(** [g_value_get_int] and friends; a value of another type gives the
    getter's fallback (0, [NULL]). *)
Definition g_value_get_int (value : GValue) : Z :=
  match value with G_INT v => v | _ => 0 end.

Definition g_value_get_uint (value : GValue) : Z :=
  match value with G_UINT v => v | _ => 0 end.

Definition g_value_dup_string (value : GValue) : option string :=
  match value with G_STRING v => v | _ => None end.

End GLib.
Export GLib.

(* ------------------------------------------------------------------ *)
(** ** The enum translator: [get_font_gsettings]                      *)
(* ------------------------------------------------------------------ *)

Record FontSettings := {
  cairo_antialias : cairo_antialias_t;
  clutter_font_antialias : Z;
  cairo_hint_style : cairo_hint_style_t;
  clutter_font_hint_style : option string;
  cairo_subpixel_order : cairo_subpixel_order_t;
  clutter_font_subpixel_order : option string
}.

(** org.gnome.desktop.GDesktopFontAntialiasingMode *)
Definition antialiasings : list (cairo_antialias_t * Z) :=
  [ (* none=0      *) (CAIRO_ANTIALIAS_NONE, 0);
    (* grayscale=1 *) (CAIRO_ANTIALIAS_GRAY, 1);
    (* rgba=2      *) (CAIRO_ANTIALIAS_SUBPIXEL, 1) ].

(** org.gnome.desktop.GDesktopFontHinting *)
Definition hintings : list (cairo_hint_style_t * option string) :=
  [ (* none=0   *) (CAIRO_HINT_STYLE_NONE, Some "hintnone"%string);
    (* slight=1 *) (CAIRO_HINT_STYLE_SLIGHT, Some "hintslight"%string);
    (* medium=2 *) (CAIRO_HINT_STYLE_MEDIUM, Some "hintmedium"%string);
    (* full=3   *) (CAIRO_HINT_STYLE_FULL, Some "hintfull"%string) ].

(** org.gnome.desktop.GDesktopFontRgbaOrder *)
Definition rgba_orders : list (cairo_subpixel_order_t * option string) :=
  [ (* rgba=0 *) (CAIRO_SUBPIXEL_ORDER_RGB, Some "rgb"%string);
    (* rgb=1  *) (CAIRO_SUBPIXEL_ORDER_RGB, Some "rgb"%string);
    (* bgr=2  *) (CAIRO_SUBPIXEL_ORDER_BGR, Some "bgr"%string);
    (* vrgb=3 *) (CAIRO_SUBPIXEL_ORDER_VRGB, Some "vrgb"%string);
    (* vbgr=4 *) (CAIRO_SUBPIXEL_ORDER_VBGR, Some "vbgr"%string) ].

Definition G_N_ELEMENTS {A : Type} (table : list A) : Z := Z.of_nat (List.length table).

(** [i < G_N_ELEMENTS (table) ? table[i] : fallback], for a [guint i]. *)
Definition table_entry {A : Type} (table : list A) (i : Z) (fallback : A) : A :=
  if i <? G_N_ELEMENTS table then nth (Z.to_nat i) table fallback else fallback.

Definition get_font_gsettings (settings : option GSettings) : FontSettings :=
  let i := guint_of_gint (g_settings_get_enum settings "font-hinting") in
  let hinting := table_entry hintings i (CAIRO_HINT_STYLE_DEFAULT, None) in
  let i := guint_of_gint (g_settings_get_enum settings "font-antialiasing") in
  let antialiasing := table_entry antialiasings i (CAIRO_ANTIALIAS_DEFAULT, -1) in
  let i := guint_of_gint (g_settings_get_enum settings "font-rgba-order") in
  let rgba_order := table_entry rgba_orders i (CAIRO_SUBPIXEL_ORDER_DEFAULT, None) in
  {| cairo_antialias := fst antialiasing;
     clutter_font_antialias := snd antialiasing;
     cairo_hint_style := fst hinting;
     clutter_font_hint_style := snd hinting;
     cairo_subpixel_order := fst rgba_order;
     clutter_font_subpixel_order :=
       if cairo_antialias_eqb (fst antialiasing) CAIRO_ANTIALIAS_GRAY
       then Some "none"%string
       else snd rgba_order |}.


(* ------------------------------------------------------------------ *)
(** ** Pointer accessibility settings of a seat                       *)
(* ------------------------------------------------------------------ *)

Inductive ClutterPointerA11yDwellDirection :=
| CLUTTER_A11Y_DWELL_DIRECTION_NONE
| CLUTTER_A11Y_DWELL_DIRECTION_LEFT
| CLUTTER_A11Y_DWELL_DIRECTION_RIGHT
| CLUTTER_A11Y_DWELL_DIRECTION_UP
| CLUTTER_A11Y_DWELL_DIRECTION_DOWN.

Inductive ClutterPointerA11yDwellMode :=
| CLUTTER_A11Y_DWELL_MODE_WINDOW
| CLUTTER_A11Y_DWELL_MODE_GESTURE.

(** Modelled from the spec: the two flags of the control bitset
    (secondary-click-enabled, dwell-enabled).  Their declaration,
    [ClutterPointerA11yFlags] of clutter-enums.h, is not among the
    sources; they are two distinct bits, the first two. *)
Definition CLUTTER_A11Y_SECONDARY_CLICK_ENABLED : Z := Z.shiftl 1 0.
Definition CLUTTER_A11Y_DWELL_ENABLED : Z := Z.shiftl 1 1.

(** Modelled from the spec: the platform's dwell mode (window, gesture)
    and dwell direction (left, right, up, down).  Their declaration,
    gdesktop-enums.h of gsettings-desktop-schemas, is not among the
    sources; the members of a C enumeration count from 0. *)
Definition G_DESKTOP_MOUSE_DWELL_MODE_WINDOW : Z := 0.
Definition G_DESKTOP_MOUSE_DWELL_MODE_GESTURE : Z := 1.
Definition G_DESKTOP_MOUSE_DWELL_DIRECTION_LEFT : Z := 0.
Definition G_DESKTOP_MOUSE_DWELL_DIRECTION_RIGHT : Z := 1.
Definition G_DESKTOP_MOUSE_DWELL_DIRECTION_UP : Z := 2.
Definition G_DESKTOP_MOUSE_DWELL_DIRECTION_DOWN : Z := 3.

(** [ClutterPointerA11ySettings]: the fields the source writes, and
    [dwell_click_type].
    Modelled from the spec: the seat's settings hold fields this file
    does not manage, which the sync reads from the seat and hands back
    as they are.  The struct's declaration is not among the sources;
    the record keeps what is not managed here in the one field
    [dwell_click_type], an enumeration seen as an integer. *)
Record ClutterPointerA11ySettings := {
  controls : Z;
  dwell_click_type : Z;
  secondary_click_delay : Z;
  dwell_delay : Z;
  dwell_threshold : Z;
  dwell_mode : ClutterPointerA11yDwellMode;
  dwell_gesture_single : ClutterPointerA11yDwellDirection;
  dwell_gesture_double : ClutterPointerA11yDwellDirection;
  dwell_gesture_drag : ClutterPointerA11yDwellDirection;
  dwell_gesture_secondary : ClutterPointerA11yDwellDirection
}.

(** An input seat: it holds the accessibility settings last given to it. *)
Record ClutterSeat := {
  pointer_a11y_settings : ClutterPointerA11ySettings
}.

Definition clutter_seat_get_pointer_a11y_settings (seat : ClutterSeat)
  : ClutterPointerA11ySettings :=
  pointer_a11y_settings seat.

(* ------------------------------------------------------------------ *)
(** ** The backend and the settings object                            *)
(* ------------------------------------------------------------------ *)

(** The rendering backend, as far as this file drives it: the font
    options it was last given ([None] until the first call of
    [clutter_backend_set_font_options]) and its default seat. *)
Record ClutterBackend := {
  font_options : option cairo_font_options_t;
  default_seat : ClutterSeat
}.

(** [struct _ClutterSettings].  The object behind the [backend] pointer
    is kept in the field: this file is the only one to reach it through
    the settings object. *)
Record ClutterSettings := {
  backend : option ClutterBackend;
  font_settings : option GSettings;
  mouse_settings : option GSettings;
  mouse_a11y_settings : option GSettings;
  double_click_time : Z;
  double_click_distance : Z;
  dnd_drag_threshold : Z;
  resolution : float;
  font_name : option string;
  font_dpi : Z;
  xft_hinting : Z;
  xft_antialias : Z;
  xft_hint_style : option string;
  xft_rgba : option string;
  long_press_duration : Z;
  last_fontconfig_timestamp : Z;
  password_hint_time : Z;
  unscaled_font_dpi : Z
}.

Inductive prop_id :=
| PROP_0
| PROP_DOUBLE_CLICK_TIME
| PROP_DOUBLE_CLICK_DISTANCE
| PROP_DND_DRAG_THRESHOLD
| PROP_FONT_NAME
| PROP_FONT_ANTIALIAS
| PROP_FONT_DPI
| PROP_FONT_HINTING
| PROP_FONT_HINT_STYLE
| PROP_FONT_RGBA
| PROP_LONG_PRESS_DURATION
| PROP_PASSWORD_HINT_TIME
| PROP_UNSCALED_FONT_DPI.

(** The three change-event handlers of the file. *)
Inductive change_handler :=
| on_font_settings_change
| on_mouse_settings_change
| on_mouse_a11y_settings_change.

(** What the code sends out, in the order it sends it. *)
Inductive event :=
| EMIT_font_changed          (* g_signal_emit_by_name (backend, "font-changed") *)
| EMIT_resolution_changed    (* g_signal_emit_by_name (backend, "resolution-changed") *)
| EMIT_settings_changed      (* g_signal_emit_by_name (backend, "settings-changed") *)
| CALL_backend_set_font_options (options : cairo_font_options_t)
| CALL_seat_set_pointer_a11y_settings (settings : ClutterPointerA11ySettings)
| EMIT_notify (pspec : prop_id)     (* GObject::notify on the settings object *)
| CONNECT_change_event (handler : change_handler)
| WARNING (message : string)       (* g_warning *)
| CRITICAL (message : string).     (* g_critical, a failed g_return_if_fail *)

(** The process environment and the GLib services the file calls.
    [glib_notify_after_refused_set] tells the two layouts of GObject's
    [object_set_property] apart: the one that queues the property's
    notification only when the value was set ([false]), and the one
    that queues it after the validation either way ([true], the later
    releases).  Which one runs is the platform's GLib; the theorems
    hold for both. *)
Record GSettingsSchema := {
  settings_new_full : option GSettings
}.

Record Platform := {
  g_getenv : string -> option string;
  g_ascii_strtod : string -> float;
  g_settings_schema_source_lookup : string -> option GSettingsSchema;
  glib_notify_after_refused_set : bool
}.

Definition g_settings_new_full (schema : GSettingsSchema) : option GSettings :=
  settings_new_full schema.

(** *** Field updates of the settings object *)

Definition set_backend (v : option ClutterBackend) (s : ClutterSettings) :=
  {| backend := v; font_settings := font_settings s;
     mouse_settings := mouse_settings s; mouse_a11y_settings := mouse_a11y_settings s;
     double_click_time := double_click_time s;
     double_click_distance := double_click_distance s;
     dnd_drag_threshold := dnd_drag_threshold s; resolution := resolution s;
     font_name := font_name s; font_dpi := font_dpi s; xft_hinting := xft_hinting s;
     xft_antialias := xft_antialias s; xft_hint_style := xft_hint_style s;
     xft_rgba := xft_rgba s; long_press_duration := long_press_duration s;
     last_fontconfig_timestamp := last_fontconfig_timestamp s;
     password_hint_time := password_hint_time s;
     unscaled_font_dpi := unscaled_font_dpi s |}.

Definition set_font_settings (v : option GSettings) (s : ClutterSettings) :=
  {| backend := backend s; font_settings := v;
     mouse_settings := mouse_settings s; mouse_a11y_settings := mouse_a11y_settings s;
     double_click_time := double_click_time s;
     double_click_distance := double_click_distance s;
     dnd_drag_threshold := dnd_drag_threshold s; resolution := resolution s;
     font_name := font_name s; font_dpi := font_dpi s; xft_hinting := xft_hinting s;
     xft_antialias := xft_antialias s; xft_hint_style := xft_hint_style s;
     xft_rgba := xft_rgba s; long_press_duration := long_press_duration s;
     last_fontconfig_timestamp := last_fontconfig_timestamp s;
     password_hint_time := password_hint_time s;
     unscaled_font_dpi := unscaled_font_dpi s |}.

Definition set_mouse_settings (v : option GSettings) (s : ClutterSettings) :=
  {| backend := backend s; font_settings := font_settings s;
     mouse_settings := v; mouse_a11y_settings := mouse_a11y_settings s;
     double_click_time := double_click_time s;
     double_click_distance := double_click_distance s;
     dnd_drag_threshold := dnd_drag_threshold s; resolution := resolution s;
     font_name := font_name s; font_dpi := font_dpi s; xft_hinting := xft_hinting s;
     xft_antialias := xft_antialias s; xft_hint_style := xft_hint_style s;
     xft_rgba := xft_rgba s; long_press_duration := long_press_duration s;
     last_fontconfig_timestamp := last_fontconfig_timestamp s;
     password_hint_time := password_hint_time s;
     unscaled_font_dpi := unscaled_font_dpi s |}.

Definition set_mouse_a11y_settings (v : option GSettings) (s : ClutterSettings) :=
  {| backend := backend s; font_settings := font_settings s;
     mouse_settings := mouse_settings s; mouse_a11y_settings := v;
     double_click_time := double_click_time s;
     double_click_distance := double_click_distance s;
     dnd_drag_threshold := dnd_drag_threshold s; resolution := resolution s;
     font_name := font_name s; font_dpi := font_dpi s; xft_hinting := xft_hinting s;
     xft_antialias := xft_antialias s; xft_hint_style := xft_hint_style s;
     xft_rgba := xft_rgba s; long_press_duration := long_press_duration s;
     last_fontconfig_timestamp := last_fontconfig_timestamp s;
     password_hint_time := password_hint_time s;
     unscaled_font_dpi := unscaled_font_dpi s |}.

Definition set_double_click_time (v : Z) (s : ClutterSettings) :=
  {| backend := backend s; font_settings := font_settings s;
     mouse_settings := mouse_settings s; mouse_a11y_settings := mouse_a11y_settings s;
     double_click_time := v;
     double_click_distance := double_click_distance s;
     dnd_drag_threshold := dnd_drag_threshold s; resolution := resolution s;
     font_name := font_name s; font_dpi := font_dpi s; xft_hinting := xft_hinting s;
     xft_antialias := xft_antialias s; xft_hint_style := xft_hint_style s;
     xft_rgba := xft_rgba s; long_press_duration := long_press_duration s;
     last_fontconfig_timestamp := last_fontconfig_timestamp s;
     password_hint_time := password_hint_time s;
     unscaled_font_dpi := unscaled_font_dpi s |}.

Definition set_double_click_distance (v : Z) (s : ClutterSettings) :=
  {| backend := backend s; font_settings := font_settings s;
     mouse_settings := mouse_settings s; mouse_a11y_settings := mouse_a11y_settings s;
     double_click_time := double_click_time s;
     double_click_distance := v;
     dnd_drag_threshold := dnd_drag_threshold s; resolution := resolution s;
     font_name := font_name s; font_dpi := font_dpi s; xft_hinting := xft_hinting s;
     xft_antialias := xft_antialias s; xft_hint_style := xft_hint_style s;
     xft_rgba := xft_rgba s; long_press_duration := long_press_duration s;
     last_fontconfig_timestamp := last_fontconfig_timestamp s;
     password_hint_time := password_hint_time s;
     unscaled_font_dpi := unscaled_font_dpi s |}.

Definition set_dnd_drag_threshold (v : Z) (s : ClutterSettings) :=
  {| backend := backend s; font_settings := font_settings s;
     mouse_settings := mouse_settings s; mouse_a11y_settings := mouse_a11y_settings s;
     double_click_time := double_click_time s;
     double_click_distance := double_click_distance s;
     dnd_drag_threshold := v; resolution := resolution s;
     font_name := font_name s; font_dpi := font_dpi s; xft_hinting := xft_hinting s;
     xft_antialias := xft_antialias s; xft_hint_style := xft_hint_style s;
     xft_rgba := xft_rgba s; long_press_duration := long_press_duration s;
     last_fontconfig_timestamp := last_fontconfig_timestamp s;
     password_hint_time := password_hint_time s;
     unscaled_font_dpi := unscaled_font_dpi s |}.

Definition set_resolution (v : float) (s : ClutterSettings) :=
  {| backend := backend s; font_settings := font_settings s;
     mouse_settings := mouse_settings s; mouse_a11y_settings := mouse_a11y_settings s;
     double_click_time := double_click_time s;
     double_click_distance := double_click_distance s;
     dnd_drag_threshold := dnd_drag_threshold s; resolution := v;
     font_name := font_name s; font_dpi := font_dpi s; xft_hinting := xft_hinting s;
     xft_antialias := xft_antialias s; xft_hint_style := xft_hint_style s;
     xft_rgba := xft_rgba s; long_press_duration := long_press_duration s;
     last_fontconfig_timestamp := last_fontconfig_timestamp s;
     password_hint_time := password_hint_time s;
     unscaled_font_dpi := unscaled_font_dpi s |}.

Definition set_font_name (v : option string) (s : ClutterSettings) :=
  {| backend := backend s; font_settings := font_settings s;
     mouse_settings := mouse_settings s; mouse_a11y_settings := mouse_a11y_settings s;
     double_click_time := double_click_time s;
     double_click_distance := double_click_distance s;
     dnd_drag_threshold := dnd_drag_threshold s; resolution := resolution s;
     font_name := v; font_dpi := font_dpi s; xft_hinting := xft_hinting s;
     xft_antialias := xft_antialias s; xft_hint_style := xft_hint_style s;
     xft_rgba := xft_rgba s; long_press_duration := long_press_duration s;
     last_fontconfig_timestamp := last_fontconfig_timestamp s;
     password_hint_time := password_hint_time s;
     unscaled_font_dpi := unscaled_font_dpi s |}.

Definition set_font_dpi (v : Z) (s : ClutterSettings) :=
  {| backend := backend s; font_settings := font_settings s;
     mouse_settings := mouse_settings s; mouse_a11y_settings := mouse_a11y_settings s;
     double_click_time := double_click_time s;
     double_click_distance := double_click_distance s;
     dnd_drag_threshold := dnd_drag_threshold s; resolution := resolution s;
     font_name := font_name s; font_dpi := v; xft_hinting := xft_hinting s;
     xft_antialias := xft_antialias s; xft_hint_style := xft_hint_style s;
     xft_rgba := xft_rgba s; long_press_duration := long_press_duration s;
     last_fontconfig_timestamp := last_fontconfig_timestamp s;
     password_hint_time := password_hint_time s;
     unscaled_font_dpi := unscaled_font_dpi s |}.

Definition set_xft_hinting (v : Z) (s : ClutterSettings) :=
  {| backend := backend s; font_settings := font_settings s;
     mouse_settings := mouse_settings s; mouse_a11y_settings := mouse_a11y_settings s;
     double_click_time := double_click_time s;
     double_click_distance := double_click_distance s;
     dnd_drag_threshold := dnd_drag_threshold s; resolution := resolution s;
     font_name := font_name s; font_dpi := font_dpi s; xft_hinting := v;
     xft_antialias := xft_antialias s; xft_hint_style := xft_hint_style s;
     xft_rgba := xft_rgba s; long_press_duration := long_press_duration s;
     last_fontconfig_timestamp := last_fontconfig_timestamp s;
     password_hint_time := password_hint_time s;
     unscaled_font_dpi := unscaled_font_dpi s |}.

Definition set_xft_antialias (v : Z) (s : ClutterSettings) :=
  {| backend := backend s; font_settings := font_settings s;
     mouse_settings := mouse_settings s; mouse_a11y_settings := mouse_a11y_settings s;
     double_click_time := double_click_time s;
     double_click_distance := double_click_distance s;
     dnd_drag_threshold := dnd_drag_threshold s; resolution := resolution s;
     font_name := font_name s; font_dpi := font_dpi s; xft_hinting := xft_hinting s;
     xft_antialias := v; xft_hint_style := xft_hint_style s;
     xft_rgba := xft_rgba s; long_press_duration := long_press_duration s;
     last_fontconfig_timestamp := last_fontconfig_timestamp s;
     password_hint_time := password_hint_time s;
     unscaled_font_dpi := unscaled_font_dpi s |}.

Definition set_xft_hint_style (v : option string) (s : ClutterSettings) :=
  {| backend := backend s; font_settings := font_settings s;
     mouse_settings := mouse_settings s; mouse_a11y_settings := mouse_a11y_settings s;
     double_click_time := double_click_time s;
     double_click_distance := double_click_distance s;
     dnd_drag_threshold := dnd_drag_threshold s; resolution := resolution s;
     font_name := font_name s; font_dpi := font_dpi s; xft_hinting := xft_hinting s;
     xft_antialias := xft_antialias s; xft_hint_style := v;
     xft_rgba := xft_rgba s; long_press_duration := long_press_duration s;
     last_fontconfig_timestamp := last_fontconfig_timestamp s;
     password_hint_time := password_hint_time s;
     unscaled_font_dpi := unscaled_font_dpi s |}.

Definition set_xft_rgba (v : option string) (s : ClutterSettings) :=
  {| backend := backend s; font_settings := font_settings s;
     mouse_settings := mouse_settings s; mouse_a11y_settings := mouse_a11y_settings s;
     double_click_time := double_click_time s;
     double_click_distance := double_click_distance s;
     dnd_drag_threshold := dnd_drag_threshold s; resolution := resolution s;
     font_name := font_name s; font_dpi := font_dpi s; xft_hinting := xft_hinting s;
     xft_antialias := xft_antialias s; xft_hint_style := xft_hint_style s;
     xft_rgba := v; long_press_duration := long_press_duration s;
     last_fontconfig_timestamp := last_fontconfig_timestamp s;
     password_hint_time := password_hint_time s;
     unscaled_font_dpi := unscaled_font_dpi s |}.

Definition set_long_press_duration (v : Z) (s : ClutterSettings) :=
  {| backend := backend s; font_settings := font_settings s;
     mouse_settings := mouse_settings s; mouse_a11y_settings := mouse_a11y_settings s;
     double_click_time := double_click_time s;
     double_click_distance := double_click_distance s;
     dnd_drag_threshold := dnd_drag_threshold s; resolution := resolution s;
     font_name := font_name s; font_dpi := font_dpi s; xft_hinting := xft_hinting s;
     xft_antialias := xft_antialias s; xft_hint_style := xft_hint_style s;
     xft_rgba := xft_rgba s; long_press_duration := v;
     last_fontconfig_timestamp := last_fontconfig_timestamp s;
     password_hint_time := password_hint_time s;
     unscaled_font_dpi := unscaled_font_dpi s |}.

Definition set_password_hint_time (v : Z) (s : ClutterSettings) :=
  {| backend := backend s; font_settings := font_settings s;
     mouse_settings := mouse_settings s; mouse_a11y_settings := mouse_a11y_settings s;
     double_click_time := double_click_time s;
     double_click_distance := double_click_distance s;
     dnd_drag_threshold := dnd_drag_threshold s; resolution := resolution s;
     font_name := font_name s; font_dpi := font_dpi s; xft_hinting := xft_hinting s;
     xft_antialias := xft_antialias s; xft_hint_style := xft_hint_style s;
     xft_rgba := xft_rgba s; long_press_duration := long_press_duration s;
     last_fontconfig_timestamp := last_fontconfig_timestamp s;
     password_hint_time := v;
     unscaled_font_dpi := unscaled_font_dpi s |}.

(** Writes into the backend object behind [self->backend]. *)
Definition backend_store_font_options (options : cairo_font_options_t)
    (b : ClutterBackend) : ClutterBackend :=
  {| font_options := Some options; default_seat := default_seat b |}.

Definition backend_store_default_seat (seat : ClutterSeat)
    (b : ClutterBackend) : ClutterBackend :=
  {| font_options := font_options b; default_seat := seat |}.

(* ------------------------------------------------------------------ *)
(** ** The monad of the object's methods                              *)
(* ------------------------------------------------------------------ *)

(** A method runs on the object and gives a result, the object as it
    leaves it, and the events it sent, oldest first. *)
Definition M (A : Type) : Type := ClutterSettings -> A * ClutterSettings * list event.

Definition ret {A : Type} (a : A) : M A := fun self => (a, self, []).

Definition bind {A B : Type} (m : M A) (k : A -> M B) : M B :=
  fun self =>
    let '(a, self1, t1) := m self in
    let '(b, self2, t2) := k a self1 in
    (b, self2, t1 ++ t2).

Definition read {A : Type} (field : ClutterSettings -> A) : M A :=
  fun self => (field self, self, []).

Definition write (update : ClutterSettings -> ClutterSettings) : M unit :=
  fun self => (tt, update self, []).

Definition send (e : event) : M unit := fun self => (tt, self, [e]).

Declare Scope settings_scope.
Delimit Scope settings_scope with settings.
Notation "x <- m ;; k" := (bind m (fun x => k))
  (at level 61, m at next level, right associativity) : settings_scope.
Notation "m ;; k" := (bind m (fun _ => k))
  (at level 61, right associativity) : settings_scope.
Local Open Scope settings_scope.

Definition result_of {A : Type} (r : A * ClutterSettings * list event) : A := fst (fst r).
Definition object_of {A : Type} (r : A * ClutterSettings * list event) : ClutterSettings :=
  snd (fst r).
Definition events_of {A : Type} (r : A * ClutterSettings * list event) : list event := snd r.

(* ------------------------------------------------------------------ *)
(** ** Calls into the backend and the seat                            *)
(* ------------------------------------------------------------------ *)

(** [clutter_backend_set_font_options (self->backend, options)]: the
    backend keeps a copy of the options.  On a [NULL] backend the call's
    argument check logs a critical and returns. *)
Definition clutter_backend_set_font_options (options : cairo_font_options_t) : M unit :=
  b <- read backend ;;
  match b with
  | Some b =>
      write (set_backend (Some (backend_store_font_options options b))) ;;
      send (CALL_backend_set_font_options options)
  | None => send (CRITICAL "clutter_backend_set_font_options: CLUTTER_IS_BACKEND (backend)")
  end.

(** [clutter_seat_set_pointer_a11y_settings (seat, &settings)]. *)
Definition clutter_seat_set_pointer_a11y_settings (seat : ClutterSeat)
    (settings : ClutterPointerA11ySettings) : M ClutterSeat :=
  send (CALL_seat_set_pointer_a11y_settings settings) ;;
  ret {| pointer_a11y_settings := settings |}.

(* ------------------------------------------------------------------ *)
(** ** Derived state: font options, font name, resolution             *)
(* ------------------------------------------------------------------ *)

Definition DEFAULT_FONT_NAME : string := "Sans 12".

Definition is_null {A : Type} (p : option A) : bool :=
  match p with None => true | Some _ => false end.

Definition settings_update_font_options : M unit :=
  self <- read (fun self => self) ;;
  let hint_style := CAIRO_HINT_STYLE_NONE in
  let antialias_mode := CAIRO_ANTIALIAS_GRAY in
  let subpixel_order := CAIRO_SUBPIXEL_ORDER_DEFAULT in
  if is_null (backend self) then ret tt
  else
    let options := cairo_font_options_create in
    let options := cairo_font_options_set_hint_metrics options CAIRO_HINT_METRICS_ON in
    let hint_style :=
      if (xft_hinting self >=? 0) && is_null (xft_hint_style self)
      then CAIRO_HINT_STYLE_NONE
      else
        match xft_hint_style self with
        | Some style =>
            if streq style "hintnone" then CAIRO_HINT_STYLE_NONE
            else if streq style "hintslight" then CAIRO_HINT_STYLE_SLIGHT
            else if streq style "hintmedium" then CAIRO_HINT_STYLE_MEDIUM
            else if streq style "hintfull" then CAIRO_HINT_STYLE_FULL
            else hint_style
        | None => hint_style
        end in
    let options := cairo_font_options_set_hint_style options hint_style in
    let subpixel_order :=
      match xft_rgba self with
      | Some rgba =>
          if streq rgba "rgb" then CAIRO_SUBPIXEL_ORDER_RGB
          else if streq rgba "bgr" then CAIRO_SUBPIXEL_ORDER_BGR
          else if streq rgba "vrgb" then CAIRO_SUBPIXEL_ORDER_VRGB
          else if streq rgba "vbgr" then CAIRO_SUBPIXEL_ORDER_VBGR
          else subpixel_order
      | None => subpixel_order
      end in
    let options := cairo_font_options_set_subpixel_order options subpixel_order in
    let antialias_mode :=
      if (xft_antialias self >=? 0) && (xft_antialias self =? 0)
      then CAIRO_ANTIALIAS_NONE
      else if negb (cairo_subpixel_order_eqb subpixel_order CAIRO_SUBPIXEL_ORDER_DEFAULT)
      then CAIRO_ANTIALIAS_SUBPIXEL
      else if xft_antialias self >=? 0
      then CAIRO_ANTIALIAS_GRAY
      else antialias_mode in
    let options := cairo_font_options_set_antialias options antialias_mode in
    clutter_backend_set_font_options options.

Definition settings_update_font_name : M unit :=
  b <- read backend ;;
  if negb (is_null b) then send EMIT_font_changed else ret tt.

Definition settings_update_resolution (env : Platform) : M unit :=
  dpi <- read font_dpi ;;
  (if dpi >? 0
   then write (set_resolution (double_of_int dpi / 1024)%float)
   else write (set_resolution 96%float)) ;;
  match g_getenv env "GDK_DPI_SCALE" with
  | Some scale_env =>
      let scale := g_ascii_strtod env scale_env in
      r <- read resolution ;;
      if negb (scale =? 0)%float && (0 <? r)%float
      then write (set_resolution (r * scale)%float)
      else ret tt
  | None => ret tt
  end ;;
  b <- read backend ;;
  if negb (is_null b) then send EMIT_resolution_changed else ret tt.

(* ------------------------------------------------------------------ *)
(** ** Properties                                                     *)
(* ------------------------------------------------------------------ *)

Definition G_OBJECT_WARN_INVALID_PROPERTY_ID : M unit :=
  send (WARNING "invalid property id").

Definition clutter_settings_set_property (env : Platform)
    (prop : prop_id) (value : GValue) : M unit :=
  match prop with
  | PROP_DOUBLE_CLICK_TIME =>
      write (set_double_click_time (g_value_get_int value))
  | PROP_DOUBLE_CLICK_DISTANCE =>
      write (set_double_click_distance (g_value_get_int value))
  | PROP_DND_DRAG_THRESHOLD =>
      write (set_dnd_drag_threshold (g_value_get_int value))
  | PROP_FONT_NAME =>
      write (set_font_name (g_value_dup_string value)) ;;
      settings_update_font_name
  | PROP_FONT_ANTIALIAS =>
      write (set_xft_antialias (g_value_get_int value)) ;;
      settings_update_font_options
  | PROP_FONT_DPI =>
      write (set_font_dpi (g_value_get_int value)) ;;
      settings_update_resolution env
  | PROP_FONT_HINTING =>
      write (set_xft_hinting (g_value_get_int value)) ;;
      settings_update_font_options
  | PROP_FONT_HINT_STYLE =>
      write (set_xft_hint_style (g_value_dup_string value)) ;;
      settings_update_font_options
  | PROP_FONT_RGBA =>
      write (set_xft_rgba (g_value_dup_string value)) ;;
      settings_update_font_options
  | PROP_LONG_PRESS_DURATION =>
      write (set_long_press_duration (g_value_get_int value))
  | PROP_PASSWORD_HINT_TIME =>
      write (set_password_hint_time (g_value_get_uint value))
  | PROP_UNSCALED_FONT_DPI =>
      write (set_font_dpi (g_value_get_int value)) ;;
      settings_update_resolution env
  | PROP_0 =>
      G_OBJECT_WARN_INVALID_PROPERTY_ID
  end.

(** The getter fills [value]; for an id it does not know it warns and
    leaves [value] as it was ([None]). *)
Definition clutter_settings_get_property (prop : prop_id) : M (option GValue) :=
  self <- read (fun self => self) ;;
  match prop with
  | PROP_DOUBLE_CLICK_TIME => ret (Some (G_INT (double_click_time self)))
  | PROP_DOUBLE_CLICK_DISTANCE => ret (Some (G_INT (double_click_distance self)))
  | PROP_DND_DRAG_THRESHOLD => ret (Some (G_INT (dnd_drag_threshold self)))
  | PROP_FONT_NAME => ret (Some (G_STRING (font_name self)))
  | PROP_FONT_ANTIALIAS => ret (Some (G_INT (xft_antialias self)))
  | PROP_FONT_DPI => ret (Some (G_INT (int_of_double (resolution self * 1024)%float)))
  | PROP_FONT_HINTING => ret (Some (G_INT (xft_hinting self)))
  | PROP_FONT_HINT_STYLE => ret (Some (G_STRING (xft_hint_style self)))
  | PROP_FONT_RGBA => ret (Some (G_STRING (xft_rgba self)))
  | PROP_LONG_PRESS_DURATION => ret (Some (G_INT (long_press_duration self)))
  | PROP_PASSWORD_HINT_TIME => ret (Some (G_UINT (password_hint_time self)))
  | PROP_0 | PROP_UNSCALED_FONT_DPI =>
      G_OBJECT_WARN_INVALID_PROPERTY_ID ;; ret None
  end.

(** The parent class's [dispatch_properties_changed]: one [notify] per
    pspec of the array, in the array's order. *)
Fixpoint g_object_dispatch_properties_changed (pspecs : list prop_id) : M unit :=
  match pspecs with
  | [] => ret tt
  | pspec :: rest =>
      send (EMIT_notify pspec) ;;
      g_object_dispatch_properties_changed rest
  end.

Definition clutter_settings_dispatch_properties_changed (pspecs : list prop_id) : M unit :=
  (* chain up to emit ::notify *)
  g_object_dispatch_properties_changed pspecs ;;
  (* emit settings-changed just once for multiple properties *)
  b <- read backend ;;
  if negb (is_null b) then send EMIT_settings_changed else ret tt.

(** [clutter_settings_init]: the object as [g_object_new] returns it (the
    fields [init] does not assign are zero). *)
Definition clutter_settings_init : ClutterSettings :=
  {| backend := None;
     font_settings := None;
     mouse_settings := None;
     mouse_a11y_settings := None;
     double_click_time := 250;
     double_click_distance := 5;
     dnd_drag_threshold := 8;
     resolution := (-1)%float;
     font_name := Some DEFAULT_FONT_NAME;
     font_dpi := -1;
     xft_hinting := -1;
     xft_antialias := -1;
     xft_hint_style := None;
     xft_rgba := None;
     long_press_duration := 500;
     last_fontconfig_timestamp := 0;
     password_hint_time := 0;
     unscaled_font_dpi := -1 |}.

(** *** The property table of [clutter_settings_class_init] *)

Inductive GParamFlags :=
| G_PARAM_READWRITE
| G_PARAM_WRITABLE.

Inductive GParamSpec :=
| g_param_spec_int (name : string) (minimum maximum default_value : Z) (flags : GParamFlags)
| g_param_spec_uint (name : string) (minimum maximum default_value : Z) (flags : GParamFlags)
| g_param_spec_string (name : string) (default_value : option string) (flags : GParamFlags).

Definition obj_props : list (prop_id * GParamSpec) :=
  [ (PROP_DOUBLE_CLICK_TIME,
     g_param_spec_int "double-click-time" 0 G_MAXINT 250 G_PARAM_READWRITE);
    (PROP_DOUBLE_CLICK_DISTANCE,
     g_param_spec_int "double-click-distance" 0 G_MAXINT 5 G_PARAM_READWRITE);
    (PROP_DND_DRAG_THRESHOLD,
     g_param_spec_int "dnd-drag-threshold" 1 G_MAXINT 8 G_PARAM_READWRITE);
    (PROP_FONT_NAME,
     g_param_spec_string "font-name" None G_PARAM_READWRITE);
    (PROP_FONT_ANTIALIAS,
     g_param_spec_int "font-antialias" (-1) 1 (-1) G_PARAM_READWRITE);
    (PROP_FONT_DPI,
     g_param_spec_int "font-dpi" (-1) (1024 * 1024) (-1) G_PARAM_READWRITE);
    (PROP_UNSCALED_FONT_DPI,
     g_param_spec_int "unscaled-font-dpi" (-1) (1024 * 1024) (-1) G_PARAM_WRITABLE);
    (PROP_FONT_HINTING,
     g_param_spec_int "font-hinting" (-1) 1 (-1) G_PARAM_READWRITE);
    (PROP_FONT_HINT_STYLE,
     g_param_spec_string "font-hint-style" None G_PARAM_READWRITE);
    (PROP_FONT_RGBA,
     g_param_spec_string "font-subpixel-order" None G_PARAM_READWRITE);
    (PROP_LONG_PRESS_DURATION,
     g_param_spec_int "long-press-duration" 0 G_MAXINT 500 G_PARAM_READWRITE);
    (PROP_PASSWORD_HINT_TIME,
     g_param_spec_uint "password-hint-time" 0 G_MAXUINT 0 G_PARAM_READWRITE) ].

(* ------------------------------------------------------------------ *)
(** ** GObject's [g_object_set]                                       *)
(* ------------------------------------------------------------------ *)

(** The file sets its properties with [g_object_set (self, name, value,
    ..., NULL)].  GObject (not part of this file) does the following,
    which is what the model writes out: it freezes the notify queue;
    for each pair in turn it looks the name up in the class's property
    table, checks the value against the pspec (a value outside the
    pspec's range is reported and not set), calls the class's
    [set_property] and queues the pspec, once, if the property is
    readable (after a refused value it is queued or not, by the
    release of GLib: [glib_notify_after_refused_set]); at the end it
    thaws the queue, which calls the class's
    [dispatch_properties_changed] once, with all the queued pspecs, when
    there is any.  The queue is handed over last-queued first, as
    [g_object_thaw_notify]'s documentation has it. *)

Definition pspec_name (pspec : GParamSpec) : string :=
  match pspec with
  | g_param_spec_int name _ _ _ _ => name
  | g_param_spec_uint name _ _ _ _ => name
  | g_param_spec_string name _ _ => name
  end.

Definition pspec_flags (pspec : GParamSpec) : GParamFlags :=
  match pspec with
  | g_param_spec_int _ _ _ _ flags => flags
  | g_param_spec_uint _ _ _ _ flags => flags
  | g_param_spec_string _ _ flags => flags
  end.

Definition pspec_readable (pspec : GParamSpec) : bool :=
  match pspec_flags pspec with
  | G_PARAM_READWRITE => true
  | G_PARAM_WRITABLE => false
  end.

(** The value has the pspec's type and lies in its range. *)
Definition value_conforms (pspec : GParamSpec) (value : GValue) : bool :=
  match pspec, value with
  | g_param_spec_int _ minimum maximum _ _, G_INT v => (minimum <=? v) && (v <=? maximum)
  | g_param_spec_uint _ minimum maximum _ _, G_UINT v => (minimum <=? v) && (v <=? maximum)
  | g_param_spec_string _ _ _, G_STRING _ => true
  | _, _ => false
  end.

Definition find_pspec (name : string) : option (prop_id * GParamSpec) :=
  find (fun entry => streq (pspec_name (snd entry)) name) obj_props.

Definition prop_id_eqb (a b : prop_id) : bool :=
  match a, b with
  | PROP_0, PROP_0
  | PROP_DOUBLE_CLICK_TIME, PROP_DOUBLE_CLICK_TIME
  | PROP_DOUBLE_CLICK_DISTANCE, PROP_DOUBLE_CLICK_DISTANCE
  | PROP_DND_DRAG_THRESHOLD, PROP_DND_DRAG_THRESHOLD
  | PROP_FONT_NAME, PROP_FONT_NAME
  | PROP_FONT_ANTIALIAS, PROP_FONT_ANTIALIAS
  | PROP_FONT_DPI, PROP_FONT_DPI
  | PROP_FONT_HINTING, PROP_FONT_HINTING
  | PROP_FONT_HINT_STYLE, PROP_FONT_HINT_STYLE
  | PROP_FONT_RGBA, PROP_FONT_RGBA
  | PROP_LONG_PRESS_DURATION, PROP_LONG_PRESS_DURATION
  | PROP_PASSWORD_HINT_TIME, PROP_PASSWORD_HINT_TIME
  | PROP_UNSCALED_FONT_DPI, PROP_UNSCALED_FONT_DPI => true
  | _, _ => false
  end.

Definition g_object_notify_queue_add (nqueue : list prop_id) (pspec : prop_id)
  : list prop_id :=
  if existsb (prop_id_eqb pspec) nqueue then nqueue else pspec :: nqueue.

Definition object_set_property (env : Platform) (prop : prop_id) (pspec : GParamSpec)
    (value : GValue) (nqueue : list prop_id) : M (list prop_id) :=
  let queued :=
    if pspec_readable pspec then g_object_notify_queue_add nqueue prop else nqueue in
  if negb (value_conforms pspec value)
  then
    send (CRITICAL "value is invalid or out of range for property") ;;
    ret (if glib_notify_after_refused_set env then queued else nqueue)
  else
    clutter_settings_set_property env prop value ;;
    ret queued.

Fixpoint g_object_set_valist (env : Platform) (args : list (string * GValue))
    (nqueue : list prop_id) : M (list prop_id) :=
  match args with
  | [] => ret nqueue
  | (name, value) :: rest =>
      match find_pspec name with
      | None => send (CRITICAL "object class has no property of that name") ;; ret nqueue
      | Some (prop, pspec) =>
          nqueue <- object_set_property env prop pspec value nqueue ;;
          g_object_set_valist env rest nqueue
      end
  end.

Definition g_object_notify_queue_thaw (nqueue : list prop_id) : M unit :=
  match nqueue with
  | [] => ret tt
  | _ :: _ => clutter_settings_dispatch_properties_changed nqueue
  end.

Definition g_object_set (env : Platform) (args : list (string * GValue)) : M unit :=
  nqueue <- g_object_set_valist env args [] ;;
  g_object_notify_queue_thaw nqueue.

(* ------------------------------------------------------------------ *)
(** ** The watchers                                                   *)
(* ------------------------------------------------------------------ *)

Definition init_font_options : M unit :=
  settings <- read font_settings ;;
  let options := cairo_font_options_create in
  let fs := get_font_gsettings settings in
  let options := cairo_font_options_set_hint_style options (cairo_hint_style fs) in
  let options := cairo_font_options_set_antialias options (cairo_antialias fs) in
  let options := cairo_font_options_set_subpixel_order options (cairo_subpixel_order fs) in
  clutter_backend_set_font_options options.

Definition sync_mouse_options (env : Platform) : M unit :=
  settings <- read mouse_settings ;;
  let double_click := g_settings_get_int settings "double-click" in
  let drag_threshold := g_settings_get_int settings "drag-threshold" in
  g_object_set env
    [ ("double-click-time"%string, G_INT double_click);
      ("dnd-drag-threshold"%string, G_INT drag_threshold) ].

Definition on_font_settings_change_event (env : Platform)
    (settings : option GSettings) : M bool :=
  let fs := get_font_gsettings settings in
  let hinting :=
    if cairo_hint_style_eqb (cairo_hint_style fs) CAIRO_HINT_STYLE_NONE then 0 else 1 in
  g_object_set env
    [ ("font-hinting"%string, G_INT hinting);
      ("font-hint-style"%string, G_STRING (clutter_font_hint_style fs));
      ("font-antialias"%string, G_INT (clutter_font_antialias fs));
      ("font-subpixel-order"%string, G_STRING (clutter_font_subpixel_order fs)) ] ;;
  ret false.

Definition on_mouse_settings_change_event (env : Platform)
    (settings : option GSettings) : M bool :=
  sync_mouse_options env ;;
  ret false.

Definition pointer_a11y_settings_flags_pair : list (string * Z) :=
  [ ("secondary-click-enabled"%string, CLUTTER_A11Y_SECONDARY_CLICK_ENABLED);
    ("dwell-click-enabled"%string, CLUTTER_A11Y_DWELL_ENABLED) ].

Definition pointer_a11y_dwell_direction_from_setting (self : ClutterSettings)
    (key : string) : ClutterPointerA11yDwellDirection :=
  let dwell_gesture_direction := g_settings_get_enum (mouse_a11y_settings self) key in
  if dwell_gesture_direction =? G_DESKTOP_MOUSE_DWELL_DIRECTION_LEFT
  then CLUTTER_A11Y_DWELL_DIRECTION_LEFT
  else if dwell_gesture_direction =? G_DESKTOP_MOUSE_DWELL_DIRECTION_RIGHT
  then CLUTTER_A11Y_DWELL_DIRECTION_RIGHT
  else if dwell_gesture_direction =? G_DESKTOP_MOUSE_DWELL_DIRECTION_UP
  then CLUTTER_A11Y_DWELL_DIRECTION_UP
  else if dwell_gesture_direction =? G_DESKTOP_MOUSE_DWELL_DIRECTION_DOWN
  then CLUTTER_A11Y_DWELL_DIRECTION_DOWN
  else CLUTTER_A11Y_DWELL_DIRECTION_NONE.

(** The source reads the seat's current settings into a local struct,
    assigns each of the fields below but [dwell_click_type], which
    stays as read from the seat, and hands the struct back. *)
Definition sync_pointer_a11y_settings (seat : ClutterSeat) : M ClutterSeat :=
  self <- read (fun self => self) ;;
  let current := clutter_seat_get_pointer_a11y_settings seat in
  let flags :=
    fold_left
      (fun acc pair =>
         if negb (g_settings_get_boolean (mouse_a11y_settings self) (fst pair))
         then acc
         else Z.lor acc (snd pair))
      pointer_a11y_settings_flags_pair 0 in
  let dwell_mode_setting := g_settings_get_enum (mouse_a11y_settings self) "dwell-mode" in
  clutter_seat_set_pointer_a11y_settings seat
    {| controls := flags;
       dwell_click_type := dwell_click_type current;
       (* "secondary-click-time" is expressed in seconds *)
       secondary_click_delay :=
         int_of_double
           (1000 * g_settings_get_double (mouse_a11y_settings self) "secondary-click-time")%float;
       (* "dwell-time" is expressed in seconds *)
       dwell_delay :=
         int_of_double
           (1000 * g_settings_get_double (mouse_a11y_settings self) "dwell-time")%float;
       dwell_threshold := g_settings_get_int (mouse_a11y_settings self) "dwell-threshold";
       dwell_mode :=
         if dwell_mode_setting =? G_DESKTOP_MOUSE_DWELL_MODE_WINDOW
         then CLUTTER_A11Y_DWELL_MODE_WINDOW
         else CLUTTER_A11Y_DWELL_MODE_GESTURE;
       dwell_gesture_single :=
         pointer_a11y_dwell_direction_from_setting self "dwell-gesture-single";
       dwell_gesture_double :=
         pointer_a11y_dwell_direction_from_setting self "dwell-gesture-double";
       dwell_gesture_drag :=
         pointer_a11y_dwell_direction_from_setting self "dwell-gesture-drag";
       dwell_gesture_secondary :=
         pointer_a11y_dwell_direction_from_setting self "dwell-gesture-secondary" |}.

(** The handler syncs the backend's default seat.  It is connected by
    [load_initial_settings], after the backend is set.  Without a
    backend [clutter_backend_get_default_seat] fails its argument check
    and returns [NULL], and the sync runs on the [NULL] seat: the two
    calls of the seat fail their argument checks, the struct filled in
    between goes nowhere and nothing is changed. *)
Definition on_mouse_a11y_settings_change_event (env : Platform)
    (settings : option GSettings) : M bool :=
  b <- read backend ;;
  match b with
  | Some b =>
      seat <- sync_pointer_a11y_settings (default_seat b) ;;
      write (set_backend (Some (backend_store_default_seat seat b))) ;;
      ret false
  | None =>
      send (CRITICAL "clutter_backend_get_default_seat: CLUTTER_IS_BACKEND (backend)") ;;
      send (CRITICAL "clutter_seat_get_pointer_a11y_settings: CLUTTER_IS_SEAT (seat)") ;;
      send (CRITICAL "clutter_seat_set_pointer_a11y_settings: CLUTTER_IS_SEAT (seat)") ;;
      ret false
  end.

Definition font_settings_path : string := "org.gnome.desktop.interface".
Definition mouse_settings_path : string := "org.gnome.desktop.peripherals.mouse".
Definition mouse_a11y_settings_path : string := "org.gnome.desktop.a11y.mouse".

Definition load_initial_settings (env : Platform) : M unit :=
  match g_settings_schema_source_lookup env font_settings_path with
  | None => send (WARNING ("Failed to find schema: " ++ font_settings_path))
  | Some schema =>
      write (set_font_settings (g_settings_new_full schema)) ;;
      settings <- read font_settings ;;
      if negb (is_null settings)
      then init_font_options ;; send (CONNECT_change_event on_font_settings_change)
      else ret tt
  end ;;
  match g_settings_schema_source_lookup env mouse_settings_path with
  | None => send (WARNING ("Failed to find schema: " ++ mouse_settings_path))
  | Some schema =>
      write (set_mouse_settings (g_settings_new_full schema)) ;;
      settings <- read mouse_settings ;;
      if negb (is_null settings)
      then sync_mouse_options env ;; send (CONNECT_change_event on_mouse_settings_change)
      else ret tt
  end ;;
  match g_settings_schema_source_lookup env mouse_a11y_settings_path with
  | None => send (WARNING ("Failed to find schema: " ++ mouse_settings_path))
  | Some schema =>
      write (set_mouse_a11y_settings (g_settings_new_full schema)) ;;
      send (CONNECT_change_event on_mouse_a11y_settings_change)
  end.

Definition _clutter_settings_set_backend (env : Platform) (b : ClutterBackend) : M unit :=
  write (set_backend (Some b)) ;;
  load_initial_settings env.

Definition clutter_settings_ensure_pointer_a11y_settings (seat : ClutterSeat)
  : M ClutterSeat :=
  sync_pointer_a11y_settings seat.

(* ------------------------------------------------------------------ *)
(** ** Concrete platforms for the worked examples                     *)
(* ------------------------------------------------------------------ *)

(** [g_ascii_strtod] belongs to GLib and is a field of [Platform]; the
    theorems hold for any such function.  The examples use this reading
    of it on plain decimal numerals (an optional sign, digits, an
    optional fraction): the digits are read as an integer and divided by
    the power of ten of the fraction, one correctly rounded division;
    text that does not start with a numeral converts nothing and gives
    0, as [strtod] does.  It reads no exponent and no numeral of more
    than eighteen digits; the examples use neither. *)
Definition digit_of_ascii (c : ascii) : option Z :=
  let n := Z.of_nat (nat_of_ascii c) in
  if (48 <=? n) && (n <=? 57) then Some (n - 48) else None.

Fixpoint read_digits (s : string) (acc : Z) (count : Z) : Z * Z * string :=
  match s with
  | EmptyString => (acc, count, s)
  | String c rest =>
      match digit_of_ascii c with
      | Some d => read_digits rest (10 * acc + d) (count + 1)
      | None => (acc, count, s)
      end
  end.

Definition decimal_strtod (s : string) : float :=
  let '(negative, s) :=
    match s with
    | String "-"%char rest => (true, rest)
    | String "+"%char rest => (false, rest)
    | _ => (false, s)
    end in
  let '(int_part, int_digits, rest) := read_digits s 0 0 in
  let '(mantissa, frac_digits) :=
    match rest with
    | String "."%char rest =>
        let '(m, n, _) := read_digits rest int_part 0 in (m, n)
    | _ => (int_part, 0)
    end in
  if int_digits + frac_digits =? 0 then 0%float
  else
    let magnitude := (double_of_int mantissa / double_of_int (10 ^ frac_digits))%float in
    if negative then PrimFloat.opp magnitude else magnitude.

(** A platform with the given [GDK_DPI_SCALE] and no schema installed. *)
Definition bare_platform (scale : option string) : Platform :=
  {| g_getenv := fun name => if streq name "GDK_DPI_SCALE" then scale else None;
     g_ascii_strtod := decimal_strtod;
     g_settings_schema_source_lookup := fun _ => None;
     glib_notify_after_refused_set := true |}.

(** A store that answers every enum key with the same values. *)
Definition font_store (hinting antialiasing rgba_order : Z) : GSettings :=
  {| get_enum := fun key =>
       if streq key "font-hinting" then hinting
       else if streq key "font-antialiasing" then antialiasing
       else if streq key "font-rgba-order" then rgba_order
       else 0;
     get_int := fun _ => 0;
     get_boolean := fun _ => false;
     get_double := fun _ => 0%float |}.

(** What the sync makes of a seat's settings when every read of the
    store gives its fallback: all it manages is off, zero or none, and
    [dwell_click_type] is the seat's. *)
Definition fallback_a11y_settings (current : ClutterPointerA11ySettings)
  : ClutterPointerA11ySettings :=
  {| controls := 0;
     dwell_click_type := dwell_click_type current;
     secondary_click_delay := 0; dwell_delay := 0; dwell_threshold := 0;
     dwell_mode := CLUTTER_A11Y_DWELL_MODE_GESTURE;
     dwell_gesture_single := CLUTTER_A11Y_DWELL_DIRECTION_NONE;
     dwell_gesture_double := CLUTTER_A11Y_DWELL_DIRECTION_NONE;
     dwell_gesture_drag := CLUTTER_A11Y_DWELL_DIRECTION_NONE;
     dwell_gesture_secondary := CLUTTER_A11Y_DWELL_DIRECTION_NONE |}.

Definition blank_a11y_settings : ClutterPointerA11ySettings :=
  {| controls := 0; dwell_click_type := 0;
     secondary_click_delay := 0; dwell_delay := 0; dwell_threshold := 0;
     dwell_mode := CLUTTER_A11Y_DWELL_MODE_GESTURE;
     dwell_gesture_single := CLUTTER_A11Y_DWELL_DIRECTION_NONE;
     dwell_gesture_double := CLUTTER_A11Y_DWELL_DIRECTION_NONE;
     dwell_gesture_drag := CLUTTER_A11Y_DWELL_DIRECTION_NONE;
     dwell_gesture_secondary := CLUTTER_A11Y_DWELL_DIRECTION_NONE |}.

(** A backend that was given no font options yet. *)
Definition fresh_backend : ClutterBackend :=
  {| font_options := None;
     default_seat := {| pointer_a11y_settings := blank_a11y_settings |} |}.

(** A seat with both accessibility features on. *)
Definition busy_seat : ClutterSeat :=
  {| pointer_a11y_settings :=
       {| controls := Z.lor CLUTTER_A11Y_SECONDARY_CLICK_ENABLED CLUTTER_A11Y_DWELL_ENABLED;
          dwell_click_type := 2;
          secondary_click_delay := 1200;
          dwell_delay := 1200;
          dwell_threshold := 10;
          dwell_mode := CLUTTER_A11Y_DWELL_MODE_WINDOW;
          dwell_gesture_single := CLUTTER_A11Y_DWELL_DIRECTION_LEFT;
          dwell_gesture_double := CLUTTER_A11Y_DWELL_DIRECTION_UP;
          dwell_gesture_drag := CLUTTER_A11Y_DWELL_DIRECTION_RIGHT;
          dwell_gesture_secondary := CLUTTER_A11Y_DWELL_DIRECTION_DOWN |} |}.

(** The settings object right after creation, with a backend attached
    by hand (no schema was looked up). *)
Definition attached_settings : ClutterSettings :=
  set_backend (Some fresh_backend) clutter_settings_init.

(* ------------------------------------------------------------------ *)
(** ** Reading the object after a call                                *)
(* ------------------------------------------------------------------ *)

(** The value a property read returns ([g_object_get]): the getter's
    value, the object being left as it is. *)
Definition property_value (prop : prop_id) (self : ClutterSettings) : option GValue :=
  result_of (clutter_settings_get_property prop self).

(** The backend's notifications by kind: the three signals and the
    hand-over of a font-options bundle. *)
Inductive backend_notice :=
| NOTICE_font_changed
| NOTICE_resolution_changed
| NOTICE_font_options
| NOTICE_settings_changed.

Definition notice_of_event (e : event) : list backend_notice :=
  match e with
  | EMIT_font_changed => [NOTICE_font_changed]
  | EMIT_resolution_changed => [NOTICE_resolution_changed]
  | EMIT_settings_changed => [NOTICE_settings_changed]
  | CALL_backend_set_font_options _ => [NOTICE_font_options]
  | _ => []
  end.

(** What the backend is notified of during a run, in order. *)
Definition notices (trace : list event) : list backend_notice :=
  flat_map notice_of_event trace.



(** A write GObject lets through to [set_property]: the name is a
    property of the class and the value conforms to its pspec. *)
Definition accepted_write (arg : string * GValue) : bool :=
  match find_pspec (fst arg) with
  | Some (_, pspec) => value_conforms pspec (snd arg)
  | None => false
  end.


Definition is_settings_changed (e : event) : bool :=
  match e with EMIT_settings_changed => true | _ => false end.

(* ------------------------------------------------------------------ *)
(** ** The font-options rule, in the specification's words            *)
(* ------------------------------------------------------------------ *)

(** The reverse of a translation table: the cairo value of the first
    entry with the given label, [fallback] when no entry has it. *)
Definition reverse_lookup {A : Type} (table : list (A * option string))
    (label : string) (fallback : A) : A :=
  match find (fun entry =>
                match snd entry with
                | Some l => streq label l
                | None => false
                end) table with
  | Some entry => fst entry
  | None => fallback
  end.

(** Hint metrics always on.  Hint style: none when hinting is given (>= 0)
    and no hint-style string is; otherwise the string mapped through the
    reverse of the hinting table (none when there is nothing to map).
    Subpixel order: the order string through the reverse of the order
    table.  Antialias: none when antialias is 0; else subpixel when the
    subpixel order is not the default; else grayscale. *)
Definition font_options_rule (self : ClutterSettings) : cairo_font_options_t :=
  let order :=
    match xft_rgba self with
    | Some label => reverse_lookup rgba_orders label CAIRO_SUBPIXEL_ORDER_DEFAULT
    | None => CAIRO_SUBPIXEL_ORDER_DEFAULT
    end in
  {| hint_metrics := CAIRO_HINT_METRICS_ON;
     hint_style :=
       if (0 <=? xft_hinting self) && is_null (xft_hint_style self)
       then CAIRO_HINT_STYLE_NONE
       else
         match xft_hint_style self with
         | Some label => reverse_lookup hintings label CAIRO_HINT_STYLE_NONE
         | None => CAIRO_HINT_STYLE_NONE
         end;
     subpixel_order := order;
     antialias :=
       if xft_antialias self =? 0 then CAIRO_ANTIALIAS_NONE
       else if negb (cairo_subpixel_order_eqb order CAIRO_SUBPIXEL_ORDER_DEFAULT)
       then CAIRO_ANTIALIAS_SUBPIXEL
       else CAIRO_ANTIALIAS_GRAY |}.

(** The font options the attached backend holds. *)
Definition backend_font_options (self : ClutterSettings) : option cairo_font_options_t :=
  match backend self with
  | Some b => font_options b
  | None => None
  end.

(** The field assignment with which a branch of
    [clutter_settings_set_property] starts. *)
Definition written_field (prop : prop_id) (value : GValue) (self : ClutterSettings)
  : ClutterSettings :=
  match prop with
  | PROP_0 => self
  | PROP_DOUBLE_CLICK_TIME => set_double_click_time (g_value_get_int value) self
  | PROP_DOUBLE_CLICK_DISTANCE => set_double_click_distance (g_value_get_int value) self
  | PROP_DND_DRAG_THRESHOLD => set_dnd_drag_threshold (g_value_get_int value) self
  | PROP_FONT_NAME => set_font_name (g_value_dup_string value) self
  | PROP_FONT_ANTIALIAS => set_xft_antialias (g_value_get_int value) self
  | PROP_FONT_DPI => set_font_dpi (g_value_get_int value) self
  | PROP_FONT_HINTING => set_xft_hinting (g_value_get_int value) self
  | PROP_FONT_HINT_STYLE => set_xft_hint_style (g_value_dup_string value) self
  | PROP_FONT_RGBA => set_xft_rgba (g_value_dup_string value) self
  | PROP_LONG_PRESS_DURATION => set_long_press_duration (g_value_get_int value) self
  | PROP_PASSWORD_HINT_TIME => set_password_hint_time (g_value_get_uint value) self
  | PROP_UNSCALED_FONT_DPI => set_font_dpi (g_value_get_int value) self
  end.

(** The states the object goes through: created by
    [clutter_settings_init], then changed by property writes. *)
Inductive reachable (env : Platform) : ClutterSettings -> Prop :=
| reachable_init : reachable env clutter_settings_init
| reachable_set (self : ClutterSettings) (args : list (string * GValue)) :
    reachable env self ->
    reachable env (object_of (g_object_set env args self)).

(* ------------------------------------------------------------------ *)
(** ** Binary64 rounding, taken apart                                 *)
(* ------------------------------------------------------------------ *)

(** The two halves of the specification's [binary_round_aux]: the
    mantissa and exponent it rounds to, with its shifts written as
    iterations, and the float it makes of them. *)
Definition round_core (mx ex : Z) (lx : location) : Z * Z :=
  let k := fexp prec emax (Zdigits2 mx + ex) - ex in
  let mrs := Nat.iter (Z.to_nat k) shr_1 (shr_record_of_loc mx lx) in
  let e1 := ex + Z.max k 0 in
  let m1 := round_nearest_even (shr_m mrs) (loc_of_shr_record mrs) in
  let k1 := fexp prec emax (Zdigits2 m1 + e1) - e1 in
  (shr_m (Nat.iter (Z.to_nat k1) shr_1 (shr_record_of_loc m1 loc_Exact)),
   e1 + Z.max k1 0).

Definition round_finish (s : bool) (mz e : Z) : spec_float :=
  match mz with
  | Z0 => S754_zero s
  | Zpos m => if e <=? emax - prec then S754_finite s m e else S754_infinity s
  | Zneg _ => S754_nan
  end.

(* ------------------------------------------------------------------ *)
(** ** Invariants of a run                                            *)
(* ------------------------------------------------------------------ *)

(** The run of [m] from a state of [I] ends in a state of [I] and logs
    only events of [P]. *)
Definition maintains {A : Type} (I : ClutterSettings -> Prop) (P : event -> Prop)
    (m : M A) : Prop :=
  forall self, I self -> I (object_of (m self)) /\ Forall P (events_of (m self)).

Definition any_event (e : event) : Prop := True.

Definition is_seat_call (e : event) : bool :=
  match e with CALL_seat_set_pointer_a11y_settings _ => true | _ => false end.

Definition is_font_signal (e : event) : bool :=
  match e with
  | EMIT_font_changed | EMIT_resolution_changed => true
  | _ => false
  end.

Definition is_warning (e : event) : bool :=
  match e with WARNING _ => true | _ => false end.


(** The run left the backend attached with the seat [seat] and did not
    call the seat. *)
Definition leaves_seat {A : Type} (seat : ClutterSeat)
    (run : A * ClutterSettings * list event) : Prop :=
  option_map default_seat (backend (object_of run)) = Some seat /\
  existsb is_seat_call (events_of run) = false.

(** The backend holds the font options [options] ([None]: it was given
    none, or there is no backend). *)
Definition holds_font_options (options : option cairo_font_options_t)
    (self : ClutterSettings) : Prop :=
  backend_font_options self = options.

(** What the start-up leaves as it finds it: the font fields, the
    resolution and the properties no platform store is read for. *)
Definition font_state_kept (before after : ClutterSettings) : Prop :=
  xft_hinting after = xft_hinting before /\
  xft_hint_style after = xft_hint_style before /\
  xft_antialias after = xft_antialias before /\
  xft_rgba after = xft_rgba before /\
  font_name after = font_name before /\
  font_dpi after = font_dpi before /\
  resolution after = resolution before /\
  double_click_distance after = double_click_distance before /\
  long_press_duration after = long_press_duration before /\
  password_hint_time after = password_hint_time before.

(** The ranges [clutter_settings_class_init] declares, on the fields. *)
Definition in_property_ranges (self : ClutterSettings) : Prop :=
  0 <= double_click_time self <= G_MAXINT /\
  0 <= double_click_distance self <= G_MAXINT /\
  1 <= dnd_drag_threshold self <= G_MAXINT /\
  -1 <= xft_antialias self <= 1 /\
  -1 <= font_dpi self <= 1024 * 1024 /\
  -1 <= xft_hinting self <= 1 /\
  0 <= long_press_duration self <= G_MAXINT /\
  0 <= password_hint_time self <= G_MAXUINT.

(** The states of the object over its life: created, given a backend,
    written through [g_object_set], and run through the three change
    handlers and the accessibility sync. *)
Inductive lifecycle (env : Platform) : ClutterSettings -> Prop :=
| lifecycle_init : lifecycle env clutter_settings_init
| lifecycle_set_backend (self : ClutterSettings) (b : ClutterBackend) :
    lifecycle env self ->
    lifecycle env (object_of (_clutter_settings_set_backend env b self))
| lifecycle_set (self : ClutterSettings) (args : list (string * GValue)) :
    lifecycle env self ->
    lifecycle env (object_of (g_object_set env args self))
| lifecycle_font_change (self : ClutterSettings) (settings : option GSettings) :
    lifecycle env self ->
    lifecycle env (object_of (on_font_settings_change_event env settings self))
| lifecycle_mouse_change (self : ClutterSettings) (settings : option GSettings) :
    lifecycle env self ->
    lifecycle env (object_of (on_mouse_settings_change_event env settings self))
| lifecycle_mouse_a11y_change (self : ClutterSettings) (settings : option GSettings) :
    lifecycle env self ->
    lifecycle env (object_of (on_mouse_a11y_settings_change_event env settings self))
| lifecycle_ensure_pointer_a11y (self : ClutterSettings) (seat : ClutterSeat) :
    lifecycle env self ->
    lifecycle env (object_of (clutter_settings_ensure_pointer_a11y_settings seat self)).

(** The three parts of [load_initial_settings], one per schema. *)
Definition load_font_settings (env : Platform) : M unit :=
  match g_settings_schema_source_lookup env font_settings_path with
  | None => send (WARNING ("Failed to find schema: " ++ font_settings_path))
  | Some schema =>
      write (set_font_settings (g_settings_new_full schema)) ;;
      settings <- read font_settings ;;
      if negb (is_null settings)
      then init_font_options ;; send (CONNECT_change_event on_font_settings_change)
      else ret tt
  end.

Definition load_mouse_settings (env : Platform) : M unit :=
  match g_settings_schema_source_lookup env mouse_settings_path with
  | None => send (WARNING ("Failed to find schema: " ++ mouse_settings_path))
  | Some schema =>
      write (set_mouse_settings (g_settings_new_full schema)) ;;
      settings <- read mouse_settings ;;
      if negb (is_null settings)
      then sync_mouse_options env ;; send (CONNECT_change_event on_mouse_settings_change)
      else ret tt
  end.

Definition load_mouse_a11y_settings (env : Platform) : M unit :=
  match g_settings_schema_source_lookup env mouse_a11y_settings_path with
  | None => send (WARNING ("Failed to find schema: " ++ mouse_settings_path))
  | Some schema =>
      write (set_mouse_a11y_settings (g_settings_new_full schema)) ;;
      send (CONNECT_change_event on_mouse_a11y_settings_change)
  end.

(** ** Reading the property table *)

(** Two ids that write the same field: an id and itself, and the two
    DPI properties. *)
Definition same_field (p q : prop_id) : bool :=
  match p, q with
  | PROP_FONT_DPI, PROP_UNSCALED_FONT_DPI
  | PROP_UNSCALED_FONT_DPI, PROP_FONT_DPI => true
  | _, _ => prop_id_eqb p q
  end.

(** The default a pspec declares. *)
Definition pspec_default (pspec : GParamSpec) : GValue :=
  match pspec with
  | g_param_spec_int _ _ _ default_value _ => G_INT default_value
  | g_param_spec_uint _ _ _ default_value _ => G_UINT default_value
  | g_param_spec_string _ default_value _ => G_STRING default_value
  end.

(** One write of a batch that GObject accepts. *)
Definition write_in_turn (env : Platform) (self : ClutterSettings)
    (arg : string * GValue) : ClutterSettings :=
  match find_pspec (fst arg) with
  | Some (prop, _) => object_of (clutter_settings_set_property env prop (snd arg) self)
  | None => self
  end.

(** A platform where only the font schema is installed; its store
    answers as [font_store] does. *)
Definition font_platform (hinting antialiasing rgba_order : Z) : Platform :=
  {| g_getenv := fun _ => None;
     g_ascii_strtod := decimal_strtod;
     g_settings_schema_source_lookup := fun path =>
       if streq path font_settings_path
       then Some {| settings_new_full := Some (font_store hinting antialiasing rgba_order) |}
       else None;
     glib_notify_after_refused_set := true |}.

(* ================================================================== *)
(** * Properties                                                      *)
(* ================================================================== *)

(** ** The translator *)

Lemma guint_of_gint_range (z : Z) : 0 <= guint_of_gint z < 2 ^ 32.
Proof. unfold guint_of_gint. apply Z.mod_pos_bound. reflexivity. Qed.

Lemma table_entry_out_of_range {A : Type} (table : list A) (i : Z) (fallback : A) :
  G_N_ELEMENTS table <= i -> table_entry table i fallback = fallback.
Proof.
  intros H. unfold table_entry.
  destruct (Z.ltb_spec i (G_N_ELEMENTS table)); [lia | reflexivity].
Qed.

Lemma small_index_cases (i n : Z) :
  0 <= i < n -> n <= 5 -> i = 0 \/ i = 1 \/ i = 2 \/ i = 3 \/ i = 4.
Proof. lia. Qed.

Example decimal_strtod_examples :
  decimal_strtod "2.0" = 2%float /\
  decimal_strtod "1.5" = 1.5%float /\
  decimal_strtod "0" = 0%float /\
  decimal_strtod "two" = 0%float /\
  decimal_strtod "" = 0%float.
Proof. repeat split; reflexivity. Qed.

(** C5.  Hinting: the indices 0, 1, 2, 3 of the platform enumeration
    give the hint-style strings "hintnone", "hintslight", "hintmedium",
    "hintfull" with the cairo styles none, slight, medium, full; every
    index from 4 on gives no string and cairo's default style. *)
Theorem get_font_gsettings_hinting (settings : option GSettings) :
  let i := guint_of_gint (g_settings_get_enum settings "font-hinting") in
  let fs := get_font_gsettings settings in
  (cairo_hint_style fs, clutter_font_hint_style fs) =
    match i with
    | 0 => (CAIRO_HINT_STYLE_NONE, Some "hintnone"%string)
    | 1 => (CAIRO_HINT_STYLE_SLIGHT, Some "hintslight"%string)
    | 2 => (CAIRO_HINT_STYLE_MEDIUM, Some "hintmedium"%string)
    | 3 => (CAIRO_HINT_STYLE_FULL, Some "hintfull"%string)
    | _ => (CAIRO_HINT_STYLE_DEFAULT, None)
    end
  /\ (4 <= i ->
      cairo_hint_style fs = CAIRO_HINT_STYLE_DEFAULT /\ clutter_font_hint_style fs = None).
Proof.
  intros i fs.
  assert (Hfs : (cairo_hint_style fs, clutter_font_hint_style fs)
                = table_entry hintings i (CAIRO_HINT_STYLE_DEFAULT, None)).
  { subst fs i. unfold get_font_gsettings. cbn [cairo_hint_style clutter_font_hint_style].
    symmetry. apply surjective_pairing. }
  assert (Hi := guint_of_gint_range (g_settings_get_enum settings "font-hinting")).
  fold i in Hi. clearbody i. clearbody fs.
  destruct (Z.lt_ge_cases i 4) as [Hlt | Hge].
  - split; [| lia].
    rewrite Hfs.
    destruct (small_index_cases i 4) as [-> | [-> | [-> | [-> | ->]]]];
      try lia; reflexivity.
  - rewrite table_entry_out_of_range in Hfs by (cbn; lia).
    split.
    + rewrite Hfs. destruct i as [| p | p]; try lia.
      destruct p as [[p | p |] | [p | p |] |]; try lia; reflexivity.
    + intros _. now inversion Hfs.
Qed.

(** C6.  Antialiasing: index 0 gives (none, 0), index 1 (grayscale, 1),
    index 2 (subpixel, 1) and every index from 3 on (cairo's default,
    -1); the flag is -1 exactly when the index is out of range. *)
Theorem get_font_gsettings_antialiasing (settings : option GSettings) :
  let i := guint_of_gint (g_settings_get_enum settings "font-antialiasing") in
  let fs := get_font_gsettings settings in
  (cairo_antialias fs, clutter_font_antialias fs) =
    match i with
    | 0 => (CAIRO_ANTIALIAS_NONE, 0)
    | 1 => (CAIRO_ANTIALIAS_GRAY, 1)
    | 2 => (CAIRO_ANTIALIAS_SUBPIXEL, 1)
    | _ => (CAIRO_ANTIALIAS_DEFAULT, -1)
    end
  /\ (clutter_font_antialias fs = -1 <-> 3 <= i).
Proof.
  intros i fs.
  assert (Hfs : (cairo_antialias fs, clutter_font_antialias fs)
                = table_entry antialiasings i (CAIRO_ANTIALIAS_DEFAULT, -1)).
  { subst fs i. unfold get_font_gsettings. cbn [cairo_antialias clutter_font_antialias].
    symmetry. apply surjective_pairing. }
  assert (Hi := guint_of_gint_range (g_settings_get_enum settings "font-antialiasing")).
  fold i in Hi. clearbody i. clearbody fs.
  destruct (Z.lt_ge_cases i 3) as [Hlt | Hge].
  - destruct (small_index_cases i 3) as [-> | [-> | [-> | [-> | ->]]]]; try lia;
      cbn in Hfs; inversion Hfs as [[Ha Hf]]; (split; [reflexivity | lia]).
  - rewrite table_entry_out_of_range in Hfs by (cbn; lia).
    inversion Hfs as [[Ha Hf]].
    split; [| lia].
    destruct i as [| p | p]; try lia.
    destruct p as [[p | p |] | [p | p |] |]; try lia; reflexivity.
Qed.

(** C4.  When the antialiasing read resolves to grayscale, the
    subpixel-order label of the translation is "none", whatever the
    platform's subpixel order is. *)
Theorem get_font_gsettings_grayscale_forces_none (settings : option GSettings) :
  cairo_antialias (get_font_gsettings settings) = CAIRO_ANTIALIAS_GRAY ->
  clutter_font_subpixel_order (get_font_gsettings settings) = Some "none"%string.
Proof.
  unfold get_font_gsettings. cbn [cairo_antialias clutter_font_subpixel_order].
  intros ->. reflexivity.
Qed.

(** The rule at work: antialiasing = grayscale and order = rgb.  The
    table gives the label "rgb" and the cairo order RGB; the label
    becomes "none", the cairo order stays. *)
Lemma get_font_gsettings_grayscale_over_rgb :
  table_entry rgba_orders 1 (CAIRO_SUBPIXEL_ORDER_DEFAULT, None)
    = (CAIRO_SUBPIXEL_ORDER_RGB, Some "rgb"%string) /\
  cairo_antialias (get_font_gsettings (Some (font_store 3 1 1))) = CAIRO_ANTIALIAS_GRAY /\
  cairo_subpixel_order (get_font_gsettings (Some (font_store 3 1 1)))
    = CAIRO_SUBPIXEL_ORDER_RGB /\
  clutter_font_subpixel_order (get_font_gsettings (Some (font_store 3 1 1)))
    = Some "none"%string.
Proof.
  split; [reflexivity |].
  split; [reflexivity |].
  split; [reflexivity |].
  apply (get_font_gsettings_grayscale_forces_none (Some (font_store 3 1 1))).
  reflexivity.
Defined.

(** ** Binary64 arithmetic of the resolution

    The code converts a positive [gint] to a double, divides it by
    1024.0 and, on reading, multiplies by 1024.  On binary64 both
    operations only move the exponent; the lemmas below derive this from
    the specification of the primitive operations ([Prim2SF],
    [SFdiv], [SFmul]). *)

Lemma fexp_normal (x : Z) : -1021 <= x -> fexp prec emax x = x - 53.
Proof. intros H. unfold fexp, emin, prec, emax. lia. Qed.

(** A 53-bit mantissa with an exponent in range is its own rounding. *)
Lemma binary_round_aux_canonical (s : bool) (m : positive) (e : Z) :
  digits2_pos m = 53%positive -> -1074 <= e <= 971 ->
  binary_round_aux prec emax s (Zpos m) e loc_Exact = S754_finite s m e.
Proof.
  intros Hd He.
  unfold binary_round_aux, shr_fexp. cbn [Zdigits2 shr_record_of_loc].
  rewrite Hd, fexp_normal by lia.
  replace (53 + e - 53 - e) with 0 by lia.
  cbn [shr shr_m loc_of_shr_record round_nearest_even Zdigits2 shr_record_of_loc].
  rewrite Hd, fexp_normal by lia.
  replace (53 + e - 53 - e) with 0 by lia.
  cbn [shr shr_m].
  unfold emax, prec.
  destruct (Z.leb_spec e (1024 - 53)); [reflexivity | lia].
Qed.

Lemma digits2_pos_iter_xO (p k : positive) :
  digits2_pos (Pos.iter xO p k) = (digits2_pos p + k)%positive.
Proof.
  induction k using Pos.peano_ind.
  - cbn. lia.
  - rewrite Pos.iter_succ. cbn [digits2_pos]. rewrite IHk. lia.
Qed.

Lemma Zpos_iter_xO (p k : positive) :
  Zpos (Pos.iter xO p k) = Zpos p * 2 ^ Zpos k.
Proof.
  induction k using Pos.peano_ind.
  - cbn. lia.
  - rewrite Pos.iter_succ, Pos2Z.inj_succ, Z.pow_succ_r by lia.
    rewrite Pos2Z.inj_xO, IHk. lia.
Qed.

Lemma digits2_pos_bound (p : positive) (n : Z) :
  Zpos p < 2 ^ n -> 0 <= n -> Zpos (digits2_pos p) <= n.
Proof.
  revert n. induction p as [p IH | p IH |]; intros n Hp Hn; cbn [digits2_pos].
  - assert (n <> 0) by (intros ->; cbn in Hp; lia).
    rewrite Pos2Z.inj_succ. specialize (IH (n - 1)).
    replace n with (Z.succ (n - 1)) in Hp by lia. rewrite Z.pow_succ_r in Hp by lia.
    lia.
  - assert (n <> 0) by (intros ->; cbn in Hp; lia).
    rewrite Pos2Z.inj_succ. specialize (IH (n - 1)).
    replace n with (Z.succ (n - 1)) in Hp by lia. rewrite Z.pow_succ_r in Hp by lia.
    lia.
  - assert (n <> 0) by (intros ->; cbn in Hp; lia). lia.
Qed.

(** The double of an integer below 2^53: the integer itself, its
    mantissa moved up to 53 bits. *)
Lemma of_uint63_normal (z : Z) :
  0 < z < 2 ^ 53 ->
  exists m e,
    Prim2SF (of_uint63 (of_Z z)) = S754_finite false m e /\
    digits2_pos m = 53%positive /\ -52 <= e <= 0 /\ Zpos m = z * 2 ^ (- e).
Proof.
  intros Hz.
  rewrite of_uint63_spec, of_Z_spec.
  rewrite Z.mod_small by (change wB with (2 ^ 63); lia).
  destruct z as [| p | p]; try lia.
  cbn [binary_normalize]. unfold binary_round.
  assert (Hd := digits2_pos_bound p 53 (proj2 Hz) ltac:(lia)).
  rewrite fexp_normal by lia.
  unfold shl_align.
  destruct (Zpos (digits2_pos p) + 0 - 53 - 0) as [| k | k] eqn:Hk; try lia.
  - exists p, 0. rewrite binary_round_aux_canonical by lia.
    repeat split; lia.
  - exists (Pos.iter xO p k), (Zpos (digits2_pos p) + 0 - 53).
    rewrite binary_round_aux_canonical.
    + repeat split; try lia.
      * rewrite digits2_pos_iter_xO. lia.
      * rewrite Zpos_iter_xO. f_equal. f_equal. lia.
    + rewrite digits2_pos_iter_xO. lia.
    + lia.
Qed.

Lemma Prim2SF_1024 : Prim2SF 1024 = S754_finite false 4503599627370496 (-42).
Proof. reflexivity. Qed.

(** Dividing a normal double by 1024.0 lowers its exponent by 10. *)
Lemma div_1024_exact (x : float) (m : positive) (e : Z) :
  Prim2SF x = S754_finite false m e -> digits2_pos m = 53%positive ->
  -1063 <= e <= 971 ->
  Prim2SF (x / 1024) = S754_finite false m (e - 10).
Proof.
  intros Hx Hd He.
  rewrite FloatAxioms.div_spec, Hx, Prim2SF_1024.
  unfold SF64div, SFdiv, SFdiv_core_binary.
  cbn [Zdigits2]. rewrite Hd.
  change (Zpos (digits2_pos 4503599627370496)) with 53.
  rewrite fexp_normal by lia.
  replace (Z.min (53 + e - (53 + -42) - 53) (e - -42)) with (e - 11) by lia.
  replace (e - -42 - (e - 11)) with 53 by lia.
  assert (Hq : Z.div_eucl (Z.shiftl (Zpos m) 53) 4503599627370496 = (Zpos m~0, 0)).
  { rewrite Z.shiftl_mul_pow2 by lia.
    pose proof (Z_div_mod (Zpos m * 2 ^ 53) 4503599627370496 eq_refl) as H.
    destruct (Z.div_eucl (Zpos m * 2 ^ 53) 4503599627370496) as [q r].
    f_equal; change (2 ^ 53) with (2 * 4503599627370496) in H; nia. }
  rewrite Hq.
  cbn [xorb new_location Z.even new_location_even Z.eqb].
  unfold binary_round_aux, shr_fexp. cbn [Zdigits2 digits2_pos shr_record_of_loc].
  rewrite Hd, fexp_normal by lia.
  replace (Zpos (Pos.succ 53) + (e - 11) - 53 - (e - 11)) with 1 by lia.
  cbn [shr iter_pos shr_1 shr_m loc_of_shr_record round_nearest_even Zdigits2 orb].
  rewrite Hd, fexp_normal by lia.
  replace (53 + (e - 11 + 1) - 53 - (e - 11 + 1)) with 0 by lia.
  cbn [shr shr_m]. unfold emax, prec.
  destruct (Z.leb_spec (e - 11 + 1) (1024 - 53)); [| lia].
  f_equal. lia.
Qed.

(** Multiplying a normal double by 1024 raises its exponent by 10. *)
Lemma mul_1024_exact (x : float) (s : bool) (m : positive) (e : Z) :
  Prim2SF x = S754_finite s m e -> digits2_pos m = 53%positive ->
  -1084 <= e <= 961 ->
  Prim2SF (x * 1024) = S754_finite s m (e + 10).
Proof.
  intros Hx Hd He.
  rewrite FloatAxioms.mul_spec, Hx, Prim2SF_1024.
  unfold SF64mul, SFmul.
  rewrite Pos.mul_comm.
  cbn [Pos.mul].
  unfold binary_round_aux, shr_fexp.
  cbn [Zdigits2 digits2_pos shr_record_of_loc]. rewrite Hd.
  cbn [Pos.succ].
  rewrite fexp_normal by lia.
  replace (105 + (e + -42) - 53 - (e + -42)) with 52 by lia.
  cbn [shr iter_pos shr_1 shr_m loc_of_shr_record round_nearest_even Zdigits2 orb].
  rewrite Hd, fexp_normal by lia.
  replace (53 + (e + -42 + 52) - 53 - (e + -42 + 52)) with 0 by lia.
  cbn [shr shr_m]. unfold emax, prec.
  destruct (Z.leb_spec (e + -42 + 52) (1024 - 53)); [| lia].
  rewrite xorb_false_r. f_equal. lia.
Qed.

Lemma double_of_int_normal (d : Z) :
  0 < d <= G_MAXINT ->
  exists m e,
    Prim2SF (double_of_int d) = S754_finite false m e /\
    digits2_pos m = 53%positive /\ -52 <= e <= 0 /\ Zpos m = d * 2 ^ (- e).
Proof.
  intros Hd. unfold double_of_int.
  destruct (Z.ltb_spec d 0); [lia |].
  apply of_uint63_normal. unfold G_MAXINT in Hd. lia.
Qed.

(** [self->resolution > 0] holds after [font_dpi / 1024.0] for every
    positive [gint]. *)
Lemma double_of_int_div_1024_positive (d : Z) :
  0 < d <= G_MAXINT -> (0 <? double_of_int d / 1024)%float = true.
Proof.
  intros Hd.
  destruct (double_of_int_normal d Hd) as (m & e & Hx & Hm & He & _).
  rewrite FloatAxioms.ltb_spec, (div_1024_exact _ m e Hx Hm) by lia.
  reflexivity.
Qed.

Lemma double_trunc_exact (x : float) (m : positive) (e d : Z) :
  Prim2SF x = S754_finite false m e -> e <= 0 -> Zpos m = d * 2 ^ (- e) ->
  double_trunc x = Some d.
Proof.
  intros Hx He Hm. unfold double_trunc. rewrite Hx.
  destruct e as [| p | p]; try lia; cbn [SF_trunc cond_Zopp]; f_equal.
  - cbn in Hm. lia.
  - rewrite Z.shiftr_div_pow2 by lia. rewrite Hm.
    change (- Zneg p) with (Zpos p). apply Z.div_mul. lia.
Qed.

(** [(int) ((dpi / 1024.0) * 1024)] is [dpi] again. *)
Lemma int_of_double_div_mul_1024 (d : Z) :
  0 < d <= G_MAXINT -> int_of_double (double_of_int d / 1024 * 1024) = d.
Proof.
  intros Hd.
  destruct (double_of_int_normal d Hd) as (m & e & Hx & Hm & He & Hv).
  pose proof (div_1024_exact _ m e Hx Hm ltac:(lia)) as Hq.
  pose proof (mul_1024_exact _ false m (e - 10) Hq Hm ltac:(lia)) as Hp.
  replace (e - 10 + 10) with e in Hp by lia.
  unfold int_of_double. rewrite (double_trunc_exact _ m e d Hp) by lia.
  unfold G_MININT, G_MAXINT in *.
  destruct (Z.leb_spec (-2147483648) d); [| lia].
  destruct (Z.leb_spec d 2147483647); [| lia].
  reflexivity.
Qed.

(** *** Scaling commutes with the product

    With a scale factor in force the code computes
    [((dpi / 1024.0) * scale) * 1024].  Its integer part is that of
    [dpi * scale]: the two products round the same mantissa, ten
    exponents apart, unless they are far below 1. *)

Lemma iter_pos_nat {A : Type} (f : A -> A) (p : positive) :
  forall x, iter_pos f p x = Nat.iter (Pos.to_nat p) f x.
Proof.
  induction p as [p IH | p IH |]; intros x; cbn [iter_pos].
  - rewrite !IH, Pos2Nat.inj_xI. 
    replace (S (2 * Pos.to_nat p))%nat with (Pos.to_nat p + (Pos.to_nat p + 1))%nat by lia.
    rewrite !Nat.iter_add. reflexivity.
  - rewrite !IH, Pos2Nat.inj_xO.
    replace (2 * Pos.to_nat p)%nat with (Pos.to_nat p + Pos.to_nat p)%nat by lia.
    rewrite Nat.iter_add. reflexivity.
  - reflexivity.
Qed.

Lemma shr_as_iter (mrs : shr_record) (e n : Z) :
  shr mrs e n = (Nat.iter (Z.to_nat n) shr_1 mrs, e + Z.max n 0).
Proof.
  destruct n as [| p | p]; cbn [shr Z.to_nat Nat.iter].
  - f_equal; try lia.
  - rewrite iter_pos_nat. f_equal; try lia.
  - f_equal; try lia.
Qed.

Lemma binary_round_aux_core (s : bool) (mx ex : Z) (lx : location) :
  binary_round_aux prec emax s mx ex lx =
    round_finish s (fst (round_core mx ex lx)) (snd (round_core mx ex lx)).
Proof.
  unfold binary_round_aux, shr_fexp, round_core, round_finish.
  rewrite shr_as_iter. cbn zeta. rewrite shr_as_iter. reflexivity.
Qed.

Lemma fexp_eq (x : Z) : fexp prec emax x = Z.max (x - 53) (-1074).
Proof. reflexivity. Qed.

(** Moving the exponent down by 10 moves the rounding down by 10, as long
    as the result stays normal. *)
Lemma round_core_shift (mx : positive) (ex : Z) :
  53 <= Zpos (digits2_pos mx) ->
  -1020 <= Zpos (digits2_pos mx) + ex - 10 ->
  fst (round_core (Zpos mx) (ex - 10) loc_Exact) = fst (round_core (Zpos mx) ex loc_Exact) /\
  snd (round_core (Zpos mx) (ex - 10) loc_Exact)
    = snd (round_core (Zpos mx) ex loc_Exact) - 10 /\
  -1073 <= snd (round_core (Zpos mx) (ex - 10) loc_Exact).
Proof.
  intros Hd Hn. unfold round_core. cbn [Zdigits2 fst snd].
  set (D := Zpos (digits2_pos mx)) in *.
  rewrite (fexp_normal (D + (ex - 10))), (fexp_normal (D + ex)) by lia.
  replace (D + (ex - 10) - 53 - (ex - 10)) with (D - 53) by lia.
  replace (D + ex - 53 - ex) with (D - 53) by lia.
  set (mrs := Nat.iter (Z.to_nat (D - 53)) shr_1 (shr_record_of_loc (Zpos mx) loc_Exact)).
  set (m1 := round_nearest_even (shr_m mrs) (loc_of_shr_record mrs)).
  set (D1 := Zdigits2 m1).
  rewrite !fexp_eq.
  assert (Hk : Z.max (Z.max (D1 + (ex - 10 + Z.max (D - 53) 0) - 53) (-1074)
                      - (ex - 10 + Z.max (D - 53) 0)) 0
             = Z.max (Z.max (D1 + (ex + Z.max (D - 53) 0) - 53) (-1074)
                      - (ex + Z.max (D - 53) 0)) 0) by lia.
  assert (Hto : forall a b, Z.max a 0 = Z.max b 0 -> Z.to_nat a = Z.to_nat b) by lia.
  rewrite (Hto _ _ Hk).
  split; [reflexivity |]. lia.
Qed.

Lemma digits2_pos_lt (p : positive) : Zpos p < 2 ^ Zpos (digits2_pos p).
Proof.
  induction p as [p IH | p IH |]; cbn [digits2_pos].
  - rewrite Pos2Z.inj_succ, Z.pow_succ_r by lia. lia.
  - rewrite Pos2Z.inj_succ, Z.pow_succ_r by lia. lia.
  - reflexivity.
Qed.

Lemma digits2_pos_ge (p : positive) : 2 ^ (Zpos (digits2_pos p) - 1) <= Zpos p.
Proof.
  induction p as [p IH | p IH |]; cbn [digits2_pos].
  - rewrite Pos2Z.inj_succ. replace (Z.succ (Zpos (digits2_pos p)) - 1)
      with (Z.succ (Zpos (digits2_pos p) - 1)) by lia.
    rewrite Z.pow_succ_r by lia. lia.
  - rewrite Pos2Z.inj_succ. replace (Z.succ (Zpos (digits2_pos p)) - 1)
      with (Z.succ (Zpos (digits2_pos p) - 1)) by lia.
    rewrite Z.pow_succ_r by lia. lia.
  - cbn. lia.
Qed.

Lemma Zdigits2_nonneg (a : Z) : 0 <= Zdigits2 a.
Proof. destruct a; cbn; lia. Qed.

Lemma Zdigits2_le (a n : Z) : 0 <= n -> 0 <= a < 2 ^ n -> Zdigits2 a <= n.
Proof.
  intros Hn Ha. destruct a as [| p | p]; cbn [Zdigits2]; try lia.
  destruct (Z_le_gt_dec (Zpos (digits2_pos p)) n) as [H | H]; [exact H | exfalso].
  pose proof (digits2_pos_ge p) as Hge.
  assert (2 ^ n <= 2 ^ (Zpos (digits2_pos p) - 1)) by (apply Z.pow_le_mono_r; lia).
  lia.
Qed.

Lemma shr_m_shr_1 (mrs : shr_record) :
  0 <= shr_m mrs -> shr_m (shr_1 mrs) = shr_m mrs / 2.
Proof.
  destruct mrs as [m r s]. cbn [shr_m]. intros Hm.
  rewrite <- Z.div2_div.
  destruct m as [| [p | p |] | p]; try lia; reflexivity.
Qed.

Lemma shr_m_iter (n : nat) (mrs : shr_record) :
  0 <= shr_m mrs ->
  shr_m (Nat.iter n shr_1 mrs) = shr_m mrs / 2 ^ Z.of_nat n.
Proof.
  intros Hm. induction n as [| n IH].
  - cbn. now rewrite Z.div_1_r.
  - change (Nat.iter (S n) shr_1 mrs) with (shr_1 (Nat.iter n shr_1 mrs)).
    rewrite shr_m_shr_1.
    + rewrite IH, Nat2Z.inj_succ, Z.pow_succ_r by lia.
      rewrite Z.div_div by lia. f_equal. lia.
    + rewrite IH. apply Z.div_pos; lia.
Qed.

Lemma div_pow2_digits (a D k : Z) :
  0 <= a < 2 ^ D -> 0 <= D -> 0 <= k ->
  0 <= a / 2 ^ k < 2 ^ Z.max (D - k) 0.
Proof.
  intros Ha HD Hk. split; [apply Z.div_pos; lia |].
  destruct (Z_le_gt_dec k D) as [Hle | Hgt].
  - replace (Z.max (D - k) 0) with (D - k) by lia.
    apply Z.div_lt_upper_bound; [lia |].
    rewrite <- Z.pow_add_r by lia. replace (k + (D - k)) with D by lia. lia.
  - replace (Z.max (D - k) 0) with 0 by lia.
    rewrite Z.div_small; [cbn; lia |].
    split; [lia |]. apply Z.lt_le_trans with (2 ^ D); [lia |].
    apply Z.pow_le_mono_r; lia.
Qed.

Lemma round_nearest_even_bounds (m : Z) (l : location) :
  m <= round_nearest_even m l <= m + 1.
Proof.
  destruct l as [| []]; cbn [round_nearest_even]; try lia.
  destruct (Z.even m); lia.
Qed.

(** The rounding of [mx * 2^ex] is not above the next power of two. *)
Lemma round_core_magnitude (mx : positive) (ex : Z) :
  0 <= fst (round_core (Zpos mx) ex loc_Exact) /\
  Zdigits2 (fst (round_core (Zpos mx) ex loc_Exact))
    + snd (round_core (Zpos mx) ex loc_Exact)
    <= Z.max (Zpos (digits2_pos mx) + ex + 1) (-1073).
Proof.
  unfold round_core. cbn [Zdigits2 fst snd shr_record_of_loc].
  set (D := Zpos (digits2_pos mx)).
  assert (HD : 1 <= D) by (subst D; lia).
  assert (HM : 0 <= Zpos mx < 2 ^ D) by (split; [lia | apply digits2_pos_lt]).
  rewrite !fexp_eq.
  set (k := Z.max (D + ex - 53) (-1074) - ex).
  set (mrs := Nat.iter (Z.to_nat k) shr_1 _).
  assert (Hmrs : shr_m mrs = Zpos mx / 2 ^ Z.max k 0).
  { subst mrs. rewrite shr_m_iter by (cbn; lia). cbn [shr_m]. f_equal. f_equal. lia. }
  pose proof (div_pow2_digits (Zpos mx) D (Z.max k 0) HM ltac:(lia) ltac:(lia)) as Hq.
  rewrite <- Hmrs in Hq.
  set (m1 := round_nearest_even (shr_m mrs) (loc_of_shr_record mrs)).
  pose proof (round_nearest_even_bounds (shr_m mrs) (loc_of_shr_record mrs)) as Hr.
  fold m1 in Hr.
  assert (Hm1 : 0 <= m1 < 2 ^ (Z.max (D - Z.max k 0) 0 + 1)).
  { rewrite Z.add_1_r, Z.pow_succ_r by lia.
    set (P := 2 ^ Z.max (D - Z.max k 0) 0) in *. clearbody P m1. lia. }
  assert (HD1 : Zdigits2 m1 <= Z.max (D - Z.max k 0) 0 + 1)
    by (apply Zdigits2_le; [lia | exact Hm1]).
  pose proof (Zdigits2_nonneg m1) as HD1'.
  set (D1 := Zdigits2 m1) in *.
  set (e1 := ex + Z.max k 0).
  set (k1 := Z.max (D1 + e1 - 53) (-1074) - e1).
  rewrite shr_m_iter by (cbn; lia). cbn [shr_m].
  assert (Hm1' : 0 <= m1 < 2 ^ D1).
  { split; [lia |]. subst D1. destruct m1 as [| p | p]; cbn [Zdigits2]; try lia.
    apply digits2_pos_lt. }
  pose proof (div_pow2_digits m1 D1 (Z.max k1 0) Hm1' ltac:(lia) ltac:(lia)) as Hq1.
  replace (Z.of_nat (Z.to_nat k1)) with (Z.max k1 0) by lia.
  split; [lia |].
  assert (HD2 : Zdigits2 (m1 / 2 ^ Z.max k1 0) <= Z.max (D1 - Z.max k1 0) 0)
    by (apply Zdigits2_le; [lia | exact Hq1]).
  subst k1 e1 k. lia.
Qed.

Lemma SF_trunc_small (s : bool) (mz ez : Z) :
  0 <= mz -> Zdigits2 mz + ez <= 0 -> SF_trunc (round_finish s mz ez) = Some 0.
Proof.
  intros Hm Hd. destruct mz as [| m | m]; try lia; [reflexivity |].
  cbn [Zdigits2] in Hd. cbn [round_finish].
  destruct ez as [| p | p]; try lia.
  change (Zneg p <=? emax - prec) with true. cbn [SF_trunc].
  rewrite Z.shiftr_div_pow2 by lia.
  rewrite Z.div_small; [destruct s; reflexivity |].
  split; [lia |].
  apply Z.lt_le_trans with (2 ^ Zpos (digits2_pos m)); [apply digits2_pos_lt |].
  apply Z.pow_le_mono_r; lia.
Qed.

Lemma digits2_pos_mul_ge (m my : positive) :
  Zpos (digits2_pos m) <= Zpos (digits2_pos (m * my)).
Proof.
  destruct (Z_le_gt_dec (Zpos (digits2_pos m)) (Zpos (digits2_pos (m * my)))) as [H | H];
    [exact H | exfalso].
  pose proof (digits2_pos_ge m) as Hge.
  pose proof (digits2_pos_lt (m * my)) as Hlt.
  assert (2 ^ Zpos (digits2_pos (m * my)) <= 2 ^ (Zpos (digits2_pos m) - 1))
    by (apply Z.pow_le_mono_r; lia).
  rewrite Pos2Z.inj_mul in Hlt. nia.
Qed.

Lemma digits2_pos_mul_pow2_le (m : positive) :
  Zpos (digits2_pos (m * 4503599627370496)) <= Zpos (digits2_pos m) + 52.
Proof.
  apply (Zdigits2_le (Zpos (m * 4503599627370496))); [lia |].
  split; [lia |].
  rewrite Pos2Z.inj_mul, Z.pow_add_r by lia.
  pose proof (digits2_pos_lt m). change (2 ^ 52) with 4503599627370496. nia.
Qed.

(** The integer part of [(r * s) * 1024] is that of [x * s] when [r] is
    [x] scaled down by 1024. *)
Lemma double_trunc_scaled (x r s : float) (m : positive) (e : Z) :
  Prim2SF x = S754_finite false m e ->
  Prim2SF r = S754_finite false m (e - 10) ->
  digits2_pos m = 53%positive ->
  double_trunc (r * s * 1024) = double_trunc (x * s).
Proof.
  intros Hx Hr Hm. unfold double_trunc.
  pose proof (Prim2SF_valid (r * s)) as Hvalid.
  rewrite (FloatAxioms.mul_spec (r * s)), (FloatAxioms.mul_spec x s), Prim2SF_1024.
  rewrite (FloatAxioms.mul_spec r s) in Hvalid |- *.
  rewrite Hx. rewrite Hr in Hvalid |- *.
  unfold SF64mul in Hvalid |- *.
  destruct (Prim2SF s) as [sy | sy | | sy my ey]; try reflexivity.
  set (M := (m * my)%positive).
  set (E := e + ey).
  assert (HX : SFmul prec emax (S754_finite false m (e - 10)) (S754_finite sy my ey)
               = round_finish sy (fst (round_core (Zpos M) (E - 10) loc_Exact))
                   (snd (round_core (Zpos M) (E - 10) loc_Exact))).
  { cbn [SFmul xorb]. rewrite binary_round_aux_core.
    subst M E. replace (e - 10 + ey) with (e + ey - 10) by lia. reflexivity. }
  assert (HY : SFmul prec emax (S754_finite false m e) (S754_finite sy my ey)
               = round_finish sy (fst (round_core (Zpos M) E loc_Exact))
                   (snd (round_core (Zpos M) E loc_Exact))).
  { cbn [SFmul xorb]. rewrite binary_round_aux_core. reflexivity. }
  rewrite HX in Hvalid |- *. rewrite HY. clear HX HY.
  assert (HD : 53 <= Zpos (digits2_pos M)).
  { pose proof (digits2_pos_mul_ge m my) as H. fold M in H. lia. }
  destruct (Z_le_gt_dec (-1020) (Zpos (digits2_pos M) + E - 10)) as [Hnormal | Htiny].
  - (* the scaled product is normal *)
    destruct (round_core_shift M E HD Hnormal) as (Hfst & Hsnd & Hlow).
    rewrite Hsnd in Hlow. rewrite Hfst, Hsnd in Hvalid |- *.
    set (mz := fst (round_core (Zpos M) E loc_Exact)) in *.
    set (e2 := snd (round_core (Zpos M) E loc_Exact)) in *.
    clearbody mz e2.
    destruct mz as [| m2 | m2]; try reflexivity.
    cbn [round_finish] in Hvalid |- *.
    destruct (Z.leb_spec e2 (emax - prec)) as [HfinY | HinfY];
      destruct (Z.leb_spec (e2 - 10) (emax - prec)) as [HfinX | HinfX];
      try reflexivity; try lia;
      cbn [valid_binary] in Hvalid; unfold bounded, canonical_mantissa in Hvalid;
      apply andb_prop in Hvalid; destruct Hvalid as [Hcanon _];
      apply Z.eqb_eq in Hcanon; rewrite fexp_eq in Hcanon;
      assert (Hd2 : digits2_pos m2 = 53%positive) by lia;
      cbn [SFmul xorb];
      rewrite Pos.mul_comm; cbn [Pos.mul];
      unfold binary_round_aux, shr_fexp;
      cbn [Zdigits2 digits2_pos shr_record_of_loc]; rewrite Hd2; cbn [Pos.succ];
      rewrite fexp_normal by lia;
      replace (105 + (e2 - 10 + -42) - 53 - (e2 - 10 + -42)) with 52 by lia;
      cbn [shr iter_pos shr_1 shr_m loc_of_shr_record round_nearest_even Zdigits2 orb];
      rewrite Hd2, fexp_normal by lia;
      replace (53 + (e2 - 10 + -42 + 52) - 53 - (e2 - 10 + -42 + 52)) with 0 by lia;
      cbn [shr shr_m];
      replace (e2 - 10 + -42 + 52) with e2 by lia; rewrite xorb_false_r.
    + destruct (Z.leb_spec e2 (emax - prec)); [reflexivity | lia].
    + destruct (Z.leb_spec e2 (emax - prec)); [lia | reflexivity].
  - (* the scaled product is far below 1: both integer parts are 0 *)
    destruct (round_core_magnitude M E) as [HposY HmagY].
    destruct (round_core_magnitude M (E - 10)) as [HposX HmagX].
    rewrite (SF_trunc_small sy _ _ HposY) by lia.
    set (mzX := fst (round_core (Zpos M) (E - 10) loc_Exact)) in *.
    set (eX := snd (round_core (Zpos M) (E - 10) loc_Exact)) in *.
    clearbody mzX eX.
    destruct mzX as [| m2 | m2]; try lia; [reflexivity |].
    cbn [round_finish Zdigits2] in HmagX |- *.
    destruct (Z.leb_spec eX (emax - prec)) as [Hfin | Hinf];
      [| unfold emax, prec in Hinf; lia].
    cbn [SFmul xorb]. rewrite binary_round_aux_core.
    destruct (round_core_magnitude (m2 * 4503599627370496) (eX + -42)) as [Hpos Hmag].
    pose proof (digits2_pos_mul_pow2_le m2).
    apply SF_trunc_small; [exact Hpos | lia].
Qed.

(** [(int) (((d / 1024.0) * s) * 1024)] is [(int) (d * s)], for every
    double [s]. *)
Lemma int_of_double_scaled (d : Z) (s : float) :
  0 < d <= G_MAXINT ->
  int_of_double (double_of_int d / 1024 * s * 1024) = int_of_double (double_of_int d * s).
Proof.
  intros Hd.
  destruct (double_of_int_normal d Hd) as (m & e & Hx & Hm & He & _).
  pose proof (div_1024_exact _ m e Hx Hm ltac:(lia)) as Hq.
  unfold int_of_double.
  rewrite (double_trunc_scaled (double_of_int d) (double_of_int d / 1024) s m e Hx Hq Hm).
  reflexivity.
Qed.

(** ** Running the methods *)

Lemma run_bind {A B : Type} (m : M A) (k : A -> M B) (self : ClutterSettings) :
  bind m k self =
    (result_of (k (result_of (m self)) (object_of (m self))),
     object_of (k (result_of (m self)) (object_of (m self))),
     events_of (m self) ++ events_of (k (result_of (m self)) (object_of (m self)))).
Proof.
  unfold bind, result_of, object_of, events_of.
  destruct (m self) as [[a self1] t1]. cbn.
  destruct (k a self1) as [[b self2] t2]. reflexivity.
Qed.

Lemma object_of_bind {A B : Type} (m : M A) (k : A -> M B) (self : ClutterSettings) :
  object_of (bind m k self) = object_of (k (result_of (m self)) (object_of (m self))).
Proof. rewrite run_bind. reflexivity. Qed.

Lemma events_of_bind {A B : Type} (m : M A) (k : A -> M B) (self : ClutterSettings) :
  events_of (bind m k self) =
    events_of (m self) ++ events_of (k (result_of (m self)) (object_of (m self))).
Proof. rewrite run_bind. reflexivity. Qed.


Lemma run_eta {A : Type} (r : A * ClutterSettings * list event) :
  r = (result_of r, object_of r, events_of r).
Proof. destruct r as [[a o] t]. reflexivity. Qed.

(** ** The resolution *)

(** What [settings_update_resolution] does, in one equation: the
    resolution is recomputed from [font_dpi], nothing else changes, and
    the backend, when there is one, hears "resolution-changed". *)
Lemma settings_update_resolution_run (env : Platform) (self : ClutterSettings) :
  settings_update_resolution env self =
    (tt,
     set_resolution
       (let base := (if font_dpi self >? 0
                     then double_of_int (font_dpi self) / 1024 else 96)%float in
        match g_getenv env "GDK_DPI_SCALE" with
        | Some scale_env =>
            let scale := g_ascii_strtod env scale_env in
            if negb (scale =? 0)%float && (0 <? base)%float
            then (base * scale)%float else base
        | None => base
        end)
       self,
     if is_null (backend self) then [] else [EMIT_resolution_changed]).
Proof.
  unfold settings_update_resolution, bind, read, write, send, ret.
  destruct (font_dpi self >? 0);
    destruct (g_getenv env "GDK_DPI_SCALE") as [scale_env |]; cbn;
    try destruct (negb (g_ascii_strtod env scale_env =? 0)%float); cbn;
    try match goal with |- context [(0 <? ?x)%float] => destruct (0 <? x)%float end;
    cbn; destruct (backend self); reflexivity.
Qed.

Lemma base_resolution_positive (dpi : Z) :
  dpi <= G_MAXINT ->
  (0 <? (if dpi >? 0 then double_of_int dpi / 1024 else 96))%float = true.
Proof.
  intros Hd. destruct (Z.gtb_spec dpi 0).
  - apply double_of_int_div_1024_positive. lia.
  - reflexivity.
Qed.

Lemma set_dpi_property_run (env : Platform) (self : ClutterSettings)
    (prop : prop_id) (dpi : Z) :
  prop = PROP_FONT_DPI \/ prop = PROP_UNSCALED_FONT_DPI ->
  clutter_settings_set_property env prop (G_INT dpi) self =
    settings_update_resolution env (set_font_dpi dpi self).
Proof.
  intros [-> | ->]; unfold clutter_settings_set_property;
    rewrite run_bind; cbn; symmetry; apply run_eta.
Qed.

(** The guard [self->resolution > 0] of the scaling never fails: the
    resolution after a DPI write, with the guard gone. *)
Lemma resolution_after_dpi_write
    (env : Platform) (self : ClutterSettings) (prop : prop_id) (dpi : Z) :
  prop = PROP_FONT_DPI \/ prop = PROP_UNSCALED_FONT_DPI ->
  dpi <= G_MAXINT ->
  resolution (object_of (clutter_settings_set_property env prop (G_INT dpi) self)) =
    match g_getenv env "GDK_DPI_SCALE" with
    | None => (if dpi >? 0 then double_of_int dpi / 1024 else 96)%float
    | Some text =>
        if (g_ascii_strtod env text =? 0)%float
        then (if dpi >? 0 then double_of_int dpi / 1024 else 96)%float
        else ((if dpi >? 0 then double_of_int dpi / 1024 else 96)
              * g_ascii_strtod env text)%float
    end.
Proof.
  intros Hprop Hdpi.
  rewrite (set_dpi_property_run env self prop dpi Hprop).
  rewrite settings_update_resolution_run.
  cbn [object_of fst snd resolution set_resolution font_dpi set_font_dpi].
  cbn zeta. rewrite (base_resolution_positive dpi Hdpi).
  destruct (g_getenv env "GDK_DPI_SCALE") as [text |]; [| reflexivity].
  rewrite andb_true_r.
  destruct (g_ascii_strtod env text =? 0)%float; reflexivity.
Qed.

(** C2.  A write of [dpi] to font-dpi or to unscaled-font-dpi leaves
    the resolution at [dpi / 1024.0] when [dpi > 0] and at 96.0
    otherwise, multiplied by the factor that [GDK_DPI_SCALE] parses to
    when the variable is set; a factor of zero (what an unparseable text
    parses to) leaves the resolution as computed. *)
Theorem font_dpi_write_recomputes_resolution
    (env : Platform) (self : ClutterSettings) (prop : prop_id) (dpi : Z) :
  prop = PROP_FONT_DPI \/ prop = PROP_UNSCALED_FONT_DPI ->
  G_MININT <= dpi <= G_MAXINT ->
  let base := (if dpi >? 0 then double_of_int dpi / 1024 else 96)%float in
  resolution (object_of (clutter_settings_set_property env prop (G_INT dpi) self)) =
    match g_getenv env "GDK_DPI_SCALE" with
    | None => base
    | Some text =>
        let scale := g_ascii_strtod env text in
        if (scale =? 0)%float then base else (base * scale)%float
    end.
Proof.
  intros Hprop Hdpi base. subst base. cbn zeta.
  apply resolution_after_dpi_write; [assumption | apply Hdpi].
Qed.

(** The worked resolutions of the specification: 98304 = 96 * 1024 with
    the factor "2.0" gives 192.0; with a text that is no number, or
    with no override, 96.0. *)
Lemma font_dpi_write_examples :
  resolution (object_of (clutter_settings_set_property (bare_platform (Some "2.0"%string))
                           PROP_FONT_DPI (G_INT 98304) attached_settings)) = 192%float /\
  resolution (object_of (clutter_settings_set_property (bare_platform (Some "two"%string))
                           PROP_FONT_DPI (G_INT 98304) attached_settings)) = 96%float /\
  resolution (object_of (clutter_settings_set_property (bare_platform None)
                           PROP_UNSCALED_FONT_DPI (G_INT (-1)) attached_settings)) = 96%float.
Proof.
  assert (Hrange : forall d, -1 <= d <= 1048576 -> G_MININT <= d <= G_MAXINT)
    by (unfold G_MININT, G_MAXINT; lia).
  split; [| split].
  - exact (eq_trans
             (font_dpi_write_recomputes_resolution
                (bare_platform (Some "2.0"%string)) attached_settings PROP_FONT_DPI 98304
                (or_introl eq_refl) (Hrange 98304 ltac:(lia)))
             eq_refl).
  - exact (eq_trans
             (font_dpi_write_recomputes_resolution
                (bare_platform (Some "two"%string)) attached_settings PROP_FONT_DPI 98304
                (or_introl eq_refl) (Hrange 98304 ltac:(lia)))
             eq_refl).
  - exact (eq_trans
             (font_dpi_write_recomputes_resolution
                (bare_platform None) attached_settings PROP_UNSCALED_FONT_DPI (-1)
                (or_intror eq_refl) (Hrange (-1) ltac:(lia)))
             eq_refl).
Defined.

(** ** Notifications *)

Lemma g_object_dispatch_properties_changed_run (pspecs : list prop_id)
    (self : ClutterSettings) :
  g_object_dispatch_properties_changed pspecs self = (tt, self, map EMIT_notify pspecs).
Proof.
  induction pspecs as [| pspec rest IH]; [reflexivity |].
  cbn [g_object_dispatch_properties_changed]. rewrite run_bind.
  cbn [send result_of object_of events_of fst snd]. rewrite IH. reflexivity.
Qed.

Lemma clutter_settings_dispatch_properties_changed_run (pspecs : list prop_id)
    (self : ClutterSettings) :
  clutter_settings_dispatch_properties_changed pspecs self =
    (tt, self,
     map EMIT_notify pspecs ++
     (if is_null (backend self) then [] else [EMIT_settings_changed])).
Proof.
  unfold clutter_settings_dispatch_properties_changed.
  rewrite run_bind, g_object_dispatch_properties_changed_run.
  cbn [result_of object_of events_of fst snd].
  rewrite run_bind. unfold read. cbn [result_of object_of events_of fst snd].
  destruct (backend self); reflexivity.
Qed.

(** ** The font options *)

Lemma settings_update_font_options_detached (self : ClutterSettings) :
  backend self = None -> settings_update_font_options self = (tt, self, []).
Proof.
  intros Hb. unfold settings_update_font_options, bind, read, ret. rewrite Hb. reflexivity.
Qed.

Lemma settings_update_font_options_run (self : ClutterSettings) (b : ClutterBackend) :
  backend self = Some b ->
  settings_update_font_options self =
    (tt,
     set_backend (Some (backend_store_font_options (font_options_rule self) b)) self,
     [CALL_backend_set_font_options (font_options_rule self)]).
Proof.
  intros Hb.
  unfold settings_update_font_options, clutter_backend_set_font_options,
    bind, read, write, send, ret.
  rewrite Hb. cbn [is_null]. rewrite Hb. cbn [app].
  match goal with
  | |- (tt, set_backend (Some (backend_store_font_options ?o b)) self, _) = _ =>
      assert (Ho : o = font_options_rule self); [| rewrite Ho; reflexivity]
  end.
  unfold font_options_rule, reverse_lookup, cairo_font_options_set_antialias,
    cairo_font_options_set_subpixel_order, cairo_font_options_set_hint_style,
    cairo_font_options_set_hint_metrics, cairo_font_options_create.
  cbn [hint_metrics hint_style subpixel_order antialias].
  rewrite Z.geb_leb.
  assert (Hstyle :
    forall style,
      (if streq style "hintnone" then CAIRO_HINT_STYLE_NONE
       else if streq style "hintslight" then CAIRO_HINT_STYLE_SLIGHT
       else if streq style "hintmedium" then CAIRO_HINT_STYLE_MEDIUM
       else if streq style "hintfull" then CAIRO_HINT_STYLE_FULL
       else CAIRO_HINT_STYLE_NONE)
      = match find (fun entry : cairo_hint_style_t * option string =>
                      match snd entry with
                      | Some l => streq style l
                      | None => false
                      end) hintings with
        | Some entry => fst entry
        | None => CAIRO_HINT_STYLE_NONE
        end).
  { intros style. cbn [find hintings snd fst].
    repeat match goal with |- context [streq style ?l] => destruct (streq style l) end;
      reflexivity. }
  assert (Horder :
    forall rgba,
      (if streq rgba "rgb" then CAIRO_SUBPIXEL_ORDER_RGB
       else if streq rgba "bgr" then CAIRO_SUBPIXEL_ORDER_BGR
       else if streq rgba "vrgb" then CAIRO_SUBPIXEL_ORDER_VRGB
       else if streq rgba "vbgr" then CAIRO_SUBPIXEL_ORDER_VBGR
       else CAIRO_SUBPIXEL_ORDER_DEFAULT)
      = match find (fun entry : cairo_subpixel_order_t * option string =>
                      match snd entry with
                      | Some l => streq rgba l
                      | None => false
                      end) rgba_orders with
        | Some entry => fst entry
        | None => CAIRO_SUBPIXEL_ORDER_DEFAULT
        end).
  { intros rgba. cbn [find rgba_orders snd fst].
    repeat match goal with |- context [streq rgba ?l] => destruct (streq rgba l) end;
      reflexivity. }
  destruct (xft_hint_style self) as [style |]; destruct (xft_rgba self) as [rgba |];
    try rewrite Hstyle; try rewrite Horder; cbn [is_null];
    (destruct (Z.eqb_spec (xft_antialias self) 0) as [Heq | Hne];
     [ rewrite Heq; cbn [Z.geb Z.compare andb] | rewrite andb_false_r ]);
    try (destruct (0 <=? xft_hinting self));
    try match goal with
        | |- context [negb ?c] => destruct (negb c)
        end;
    try (destruct (xft_antialias self >=? 0));
    reflexivity.
Qed.

Lemma settings_update_font_options_eq (self : ClutterSettings) :
  settings_update_font_options self =
    match backend self with
    | Some b =>
        (tt,
         set_backend (Some (backend_store_font_options (font_options_rule self) b)) self,
         [CALL_backend_set_font_options (font_options_rule self)])
    | None => (tt, self, [])
    end.
Proof.
  destruct (backend self) as [b |] eqn:Hb.
  - apply settings_update_font_options_run, Hb.
  - apply settings_update_font_options_detached, Hb.
Qed.

Lemma settings_update_font_name_eq (self : ClutterSettings) :
  settings_update_font_name self =
    (tt, self, if is_null (backend self) then [] else [EMIT_font_changed]).
Proof.
  unfold settings_update_font_name, bind, read, send, ret.
  destruct (backend self); reflexivity.
Qed.

(** Each branch of the setter: the field assignment, then the update
    of what derives from the field. *)
Lemma clutter_settings_set_property_run (env : Platform) (prop : prop_id)
    (value : GValue) (self : ClutterSettings) :
  clutter_settings_set_property env prop value self =
    match prop with
    | PROP_0 => (tt, self, [WARNING "invalid property id"])
    | PROP_FONT_NAME => settings_update_font_name (written_field prop value self)
    | PROP_FONT_DPI | PROP_UNSCALED_FONT_DPI =>
        settings_update_resolution env (written_field prop value self)
    | PROP_FONT_ANTIALIAS | PROP_FONT_HINTING | PROP_FONT_HINT_STYLE | PROP_FONT_RGBA =>
        settings_update_font_options (written_field prop value self)
    | _ => (tt, written_field prop value self, [])
    end.
Proof.
  destruct prop; unfold clutter_settings_set_property; try reflexivity;
    rewrite run_bind; cbn [write result_of object_of events_of fst snd app written_field];
    symmetry; apply run_eta.
Qed.

Ltac set_property_cases prop :=
  rewrite ?clutter_settings_set_property_run;
  destruct prop;
  rewrite ?settings_update_font_options_eq, ?settings_update_font_name_eq,
    ?settings_update_resolution_run;
  unfold object_of, events_of, result_of;
  cbn [written_field backend set_double_click_time set_double_click_distance
       set_dnd_drag_threshold set_font_name set_xft_antialias set_font_dpi
       set_xft_hinting set_xft_hint_style set_xft_rgba set_long_press_duration
       set_password_hint_time set_resolution fst snd].

(** C3 as stated fails twice.  A write to font-dpi recomputes the
    resolution and hands the backend no font options; and on an object
    with no backend a write to a font attribute computes no bundle at
    all. *)
Lemma font_options_not_always_recomputed :
  ~ (forall (env : Platform) (self : ClutterSettings) (prop : prop_id) (value : GValue),
       In prop [PROP_FONT_ANTIALIAS; PROP_FONT_HINTING; PROP_FONT_HINT_STYLE;
                PROP_FONT_RGBA; PROP_FONT_DPI] ->
       let self' := object_of (clutter_settings_set_property env prop value self) in
       backend_font_options self' = Some (font_options_rule self')) /\
  backend_font_options
    (object_of (clutter_settings_set_property (bare_platform None)
                  PROP_FONT_DPI (G_INT 98304) attached_settings)) = None /\
  backend_font_options
    (object_of (clutter_settings_set_property (bare_platform None)
                  PROP_FONT_ANTIALIAS (G_INT 1) clutter_settings_init)) = None.
Proof.
  assert (Hnone : backend_font_options
                    (object_of (clutter_settings_set_property (bare_platform None)
                                  PROP_FONT_DPI (G_INT 98304) attached_settings)) = None)
    by reflexivity.
  split; [| split; [exact Hnone | reflexivity]].
  intros H.
  specialize (H (bare_platform None) attached_settings PROP_FONT_DPI (G_INT 98304)).
  cbn zeta in H. rewrite Hnone in H.
  assert (Hin : In PROP_FONT_DPI
                  [PROP_FONT_ANTIALIAS; PROP_FONT_HINTING; PROP_FONT_HINT_STYLE;
                   PROP_FONT_RGBA; PROP_FONT_DPI]) by (cbn; tauto).
  specialize (H Hin). discriminate H.
Qed.

(** C3, amended.  With a backend attached, a write to font-antialias,
    font-hinting, font-hint-style or font-subpixel-order hands the
    backend the bundle of [font_options_rule], computed from the object
    as the write leaves it; with no backend nothing is computed.  A
    write to font-dpi or unscaled-font-dpi leaves the backend's font
    options as they are. *)
Theorem font_attribute_write_recomputes_font_options :
  (forall (env : Platform) (self : ClutterSettings) (prop : prop_id) (value : GValue),
     In prop [PROP_FONT_ANTIALIAS; PROP_FONT_HINTING; PROP_FONT_HINT_STYLE; PROP_FONT_RGBA] ->
     let run := clutter_settings_set_property env prop value self in
     let self' := object_of run in
     if is_null (backend self)
     then backend self' = None /\ events_of run = []
     else backend_font_options self' = Some (font_options_rule self') /\
          events_of run = [CALL_backend_set_font_options (font_options_rule self')]) /\
  (forall (env : Platform) (self : ClutterSettings) (prop : prop_id) (value : GValue),
     In prop [PROP_FONT_DPI; PROP_UNSCALED_FONT_DPI] ->
     let run := clutter_settings_set_property env prop value self in
     backend (object_of run) = backend self /\
     notices (events_of run) =
       (if is_null (backend self) then [] else [NOTICE_resolution_changed])).
Proof.
  split; intros env self prop value Hin; cbn zeta.
  - cbn [In] in Hin.
    set_property_cases prop;
      try (exfalso; clear - Hin; intuition discriminate);
      destruct (backend self) as [b |] eqn:Hb;
      unfold backend_font_options, object_of, events_of;
      cbn [is_null fst snd backend set_backend font_options backend_store_font_options
           set_xft_antialias set_xft_hinting set_xft_hint_style set_xft_rgba];
      try rewrite Hb; split; reflexivity.
  - cbn [In] in Hin.
    set_property_cases prop;
      try (exfalso; clear - Hin; intuition discriminate);
      cbn [object_of events_of fst snd backend set_resolution];
      (split; [reflexivity | destruct (backend self); reflexivity]).
Qed.

(** ** The font name *)

(** C8 as stated fails: a write of the empty string to font-name is
    stored as it is, and no default takes its place. *)
Lemma font_name_can_be_empty :
  ~ (forall (env : Platform) (self : ClutterSettings),
       reachable env self ->
       exists name, font_name self = Some name /\ name <> ""%string).
Proof.
  intros H.
  destruct (H (bare_platform None) _
              (reachable_set (bare_platform None) clutter_settings_init
                 [("font-name"%string, G_STRING (Some ""%string))]
                 (reachable_init (bare_platform None))))
    as (name & Hname & Hne).
  apply Hne.
  assert (Hrun : font_name (object_of (g_object_set (bare_platform None)
                              [("font-name"%string, G_STRING (Some ""%string))]
                              clutter_settings_init)) = Some ""%string) by reflexivity.
  rewrite Hrun in Hname. now inversion Hname.
Qed.

(** C8, amended.  The font name is the compiled-in default "Sans 12"
    when the object is created; a write to font-name stores the string
    it is given, the empty string and [NULL] included; a write to any
    other property leaves the font name as it is. *)
Theorem font_name_is_default_until_written :
  font_name clutter_settings_init = Some "Sans 12"%string /\
  (forall (env : Platform) (self : ClutterSettings) (name : option string),
     font_name (object_of (clutter_settings_set_property env PROP_FONT_NAME
                             (G_STRING name) self)) = name) /\
  (forall (env : Platform) (self : ClutterSettings) (prop : prop_id) (value : GValue),
     prop <> PROP_FONT_NAME ->
     font_name (object_of (clutter_settings_set_property env prop value self))
       = font_name self).
Proof.
  split; [reflexivity |].
  split.
  - intros env self name.
    rewrite clutter_settings_set_property_run, settings_update_font_name_eq. reflexivity.
  - intros env self prop value Hprop.
    set_property_cases prop; try congruence;
      try destruct (backend self); reflexivity.
Qed.

(** ** The DPI alias *)

Lemma object_set_property_run (env : Platform) (prop : prop_id) (pspec : GParamSpec)
    (value : GValue) (nqueue : list prop_id) (self : ClutterSettings) :
  object_set_property env prop pspec value nqueue self =
    if value_conforms pspec value
    then (if pspec_readable pspec then g_object_notify_queue_add nqueue prop else nqueue,
          object_of (clutter_settings_set_property env prop value self),
          events_of (clutter_settings_set_property env prop value self))
    else (if glib_notify_after_refused_set env
          then (if pspec_readable pspec
                then g_object_notify_queue_add nqueue prop else nqueue)
          else nqueue,
          self, [CRITICAL "value is invalid or out of range for property"]).
Proof.
  unfold object_set_property. cbv zeta.
  destruct (value_conforms pspec value); cbn [negb].
  - rewrite run_bind. cbn [ret result_of object_of events_of fst snd].
    rewrite app_nil_r. reflexivity.
  - reflexivity.
Qed.

Lemma g_object_notify_queue_thaw_run (nqueue : list prop_id) (self : ClutterSettings) :
  g_object_notify_queue_thaw nqueue self =
    (tt, self,
     match nqueue with
     | [] => []
     | _ :: _ =>
         map EMIT_notify nqueue ++
         (if is_null (backend self) then [] else [EMIT_settings_changed])
     end).
Proof.
  destruct nqueue as [| pspec rest]; [reflexivity |].
  apply clutter_settings_dispatch_properties_changed_run.
Qed.

Lemma g_object_set_object (env : Platform) (args : list (string * GValue))
    (self : ClutterSettings) :
  object_of (g_object_set env args self) =
    object_of (g_object_set_valist env args [] self).
Proof.
  unfold g_object_set. rewrite object_of_bind, g_object_notify_queue_thaw_run.
  reflexivity.
Qed.

(** C9.  A write of [v] to unscaled-font-dpi does what the same write
    to font-dpi does: the setter's two branches give the same run
    (object and signals), the field written is [font_dpi], and set
    through [g_object_set] the two properties leave the same object. *)
Theorem unscaled_font_dpi_is_font_dpi
    (env : Platform) (self : ClutterSettings) (v : Z) :
  clutter_settings_set_property env PROP_UNSCALED_FONT_DPI (G_INT v) self
    = clutter_settings_set_property env PROP_FONT_DPI (G_INT v) self /\
  font_dpi (object_of (clutter_settings_set_property env PROP_UNSCALED_FONT_DPI
                         (G_INT v) self)) = v /\
  unscaled_font_dpi (object_of (clutter_settings_set_property env PROP_UNSCALED_FONT_DPI
                                  (G_INT v) self)) = unscaled_font_dpi self /\
  object_of (g_object_set env [("unscaled-font-dpi"%string, G_INT v)] self)
    = object_of (g_object_set env [("font-dpi"%string, G_INT v)] self).
Proof.
  split; [reflexivity |].
  split; [rewrite clutter_settings_set_property_run, settings_update_resolution_run;
          reflexivity |].
  split; [rewrite clutter_settings_set_property_run, settings_update_resolution_run;
          reflexivity |].
  rewrite !g_object_set_object.
  cbn [g_object_set_valist].
  change (find_pspec "unscaled-font-dpi")
    with (Some (PROP_UNSCALED_FONT_DPI,
                g_param_spec_int "unscaled-font-dpi" (-1) (1024 * 1024) (-1)
                  G_PARAM_WRITABLE)).
  change (find_pspec "font-dpi")
    with (Some (PROP_FONT_DPI,
                g_param_spec_int "font-dpi" (-1) (1024 * 1024) (-1) G_PARAM_READWRITE)).
  cbn iota beta. rewrite !object_of_bind, !object_set_property_run.
  cbn [value_conforms].
  destruct ((-1 <=? v) && (v <=? 1024 * 1024)); reflexivity.
Qed.

(** ** Reading font-dpi back *)

Lemma font_dpi_property_value (self : ClutterSettings) :
  property_value PROP_FONT_DPI self
    = Some (G_INT (int_of_double (resolution self * 1024)%float)).
Proof. reflexivity. Qed.

(** A write to another property than the two DPI properties leaves the
    resolution as it is. *)
Lemma resolution_kept_by_other_writes (env : Platform) (self : ClutterSettings)
    (prop : prop_id) (value : GValue) :
  prop <> PROP_FONT_DPI -> prop <> PROP_UNSCALED_FONT_DPI ->
  resolution (object_of (clutter_settings_set_property env prop value self))
    = resolution self.
Proof.
  intros Hdpi Hunscaled.
  set_property_cases prop; try congruence; try destruct (backend self); reflexivity.
Qed.

(** C10.  A read of font-dpi gives the resolution times 1024, cut to an
    integer, and not the [font_dpi] field.  On the object as created it
    gives -1024 (the resolution starts at -1.0), and writes to other
    properties keep the resolution.  After a write of a positive [d] it
    gives [d] when [GDK_DPI_SCALE] is not set or parses to zero and,
    with a non-zero scale [s] in force, the integer part of the product
    [d * s] of the doubles. *)
Theorem font_dpi_read_is_scaled_resolution :
  (forall self : ClutterSettings,
     property_value PROP_FONT_DPI self
       = Some (G_INT (int_of_double (resolution self * 1024)%float))) /\
  property_value PROP_FONT_DPI clutter_settings_init = Some (G_INT (-1024)) /\
  (forall (env : Platform) (self : ClutterSettings) (prop : prop_id) (value : GValue),
     prop <> PROP_FONT_DPI -> prop <> PROP_UNSCALED_FONT_DPI ->
     property_value PROP_FONT_DPI
       (object_of (clutter_settings_set_property env prop value self))
       = property_value PROP_FONT_DPI self) /\
  (forall (env : Platform) (self : ClutterSettings) (d : Z),
     0 < d <= G_MAXINT ->
     match g_getenv env "GDK_DPI_SCALE" with
     | None =>
         property_value PROP_FONT_DPI
           (object_of (clutter_settings_set_property env PROP_FONT_DPI (G_INT d) self))
           = Some (G_INT d)
     | Some text =>
         let s := g_ascii_strtod env text in
         property_value PROP_FONT_DPI
           (object_of (clutter_settings_set_property env PROP_FONT_DPI (G_INT d) self))
           = Some (G_INT (if (s =? 0)%float then d
                          else int_of_double (double_of_int d * s)%float))
     end).
Proof.
  split; [exact font_dpi_property_value |].
  split; [reflexivity |].
  split.
  { intros env self prop value Hdpi Hunscaled.
    rewrite !font_dpi_property_value, resolution_kept_by_other_writes by assumption.
    reflexivity. }
  intros env self d Hd.
  assert (Hres :
    resolution (object_of (clutter_settings_set_property env PROP_FONT_DPI
                             (G_INT d) self))
    = match g_getenv env "GDK_DPI_SCALE" with
      | None => (double_of_int d / 1024)%float
      | Some text =>
          if (g_ascii_strtod env text =? 0)%float
          then (double_of_int d / 1024)%float
          else (double_of_int d / 1024 * g_ascii_strtod env text)%float
      end).
  { rewrite (resolution_after_dpi_write env self PROP_FONT_DPI d) by intuition.
    destruct (Z.gtb_spec d 0); [reflexivity | lia]. }
  rewrite font_dpi_property_value, Hres.
  destruct (g_getenv env "GDK_DPI_SCALE") as [text |].
  - cbn zeta. destruct (g_ascii_strtod env text =? 0)%float.
    + rewrite int_of_double_div_mul_1024 by assumption. reflexivity.
    + rewrite int_of_double_scaled by assumption. reflexivity.
  - rewrite int_of_double_div_mul_1024 by assumption. reflexivity.
Qed.

(** Reads after a write of 98304 (96 dots per inch): the value written
    without an override, twice and one and a half times the value with
    the factors "2.0" and "1.5". *)
Example font_dpi_read_examples :
  property_value PROP_FONT_DPI
    (object_of (clutter_settings_set_property (bare_platform None)
                  PROP_FONT_DPI (G_INT 98304) attached_settings)) = Some (G_INT 98304) /\
  property_value PROP_FONT_DPI
    (object_of (clutter_settings_set_property (bare_platform (Some "2.0"%string))
                  PROP_FONT_DPI (G_INT 98304) attached_settings)) = Some (G_INT 196608) /\
  property_value PROP_FONT_DPI
    (object_of (clutter_settings_set_property (bare_platform (Some "1.5"%string))
                  PROP_FONT_DPI (G_INT 98304) attached_settings)) = Some (G_INT 147456).
Proof. repeat split; reflexivity. Qed.

(** ** What a property write leaves alone *)

Ltac settle_backend self :=
  let Hb := fresh "Hb" in
  destruct (backend self) eqn:Hb;
  cbn [fst snd is_null backend set_backend set_double_click_time
       set_double_click_distance set_dnd_drag_threshold set_font_name
       set_xft_antialias set_font_dpi set_xft_hinting set_xft_hint_style
       set_xft_rgba set_long_press_duration set_password_hint_time set_resolution];
  rewrite ?Hb.


Lemma set_property_keeps_a11y_store (env : Platform) (prop : prop_id)
    (value : GValue) (self : ClutterSettings) :
  mouse_a11y_settings (object_of (clutter_settings_set_property env prop value self))
    = mouse_a11y_settings self.
Proof.
  set_property_cases prop; try destruct (backend self); reflexivity.
Qed.

Lemma g_object_set_valist_keeps_a11y_store (env : Platform)
    (args : list (string * GValue)) :
  forall (nqueue : list prop_id) (self : ClutterSettings),
    mouse_a11y_settings (object_of (g_object_set_valist env args nqueue self))
      = mouse_a11y_settings self.
Proof.
  induction args as [| [name value] rest IH]; intros nqueue self; [reflexivity |].
  cbn [g_object_set_valist].
  destruct (find_pspec name) as [[prop pspec] |]; [| reflexivity].
  rewrite object_of_bind, object_set_property_run.
  destruct (value_conforms pspec value);
    cbn [result_of object_of fst snd]; rewrite IH; [| reflexivity].
  apply set_property_keeps_a11y_store.
Qed.

Lemma g_object_set_keeps_a11y_store (env : Platform) (args : list (string * GValue))
    (self : ClutterSettings) :
  mouse_a11y_settings (object_of (g_object_set env args self)) = mouse_a11y_settings self.
Proof. rewrite g_object_set_object. apply g_object_set_valist_keeps_a11y_store. Qed.

Lemma init_font_options_keeps_a11y_store (self : ClutterSettings) :
  mouse_a11y_settings (object_of (init_font_options self)) = mouse_a11y_settings self.
Proof.
  unfold init_font_options, clutter_backend_set_font_options, bind, read, write, send, ret.
  destruct (backend self); reflexivity.
Qed.

(** ** The pointer-accessibility sync without a store *)

(** The sync does not look at the store pointer: with [NULL] in
    [mouse_a11y_settings] every read gives its fallback and the seat is
    handed the settings made of them. *)
Lemma sync_pointer_a11y_settings_without_store (seat : ClutterSeat)
    (self : ClutterSettings) :
  mouse_a11y_settings self = None ->
  sync_pointer_a11y_settings seat self =
    ({| pointer_a11y_settings := fallback_a11y_settings (pointer_a11y_settings seat) |},
     self,
     [CALL_seat_set_pointer_a11y_settings
        (fallback_a11y_settings (pointer_a11y_settings seat))]).
Proof.
  intros Hnull.
  unfold sync_pointer_a11y_settings, pointer_a11y_dwell_direction_from_setting,
    clutter_seat_set_pointer_a11y_settings.
  rewrite run_bind. cbn [read result_of object_of events_of fst snd app].
  rewrite Hnull. reflexivity.
Qed.

Lemma load_initial_settings_without_a11y_schema (env : Platform) (self : ClutterSettings) :
  g_settings_schema_source_lookup env mouse_a11y_settings_path = None ->
  mouse_a11y_settings (object_of (load_initial_settings env self))
    = mouse_a11y_settings self /\
  exists earlier,
    events_of (load_initial_settings env self)
      = earlier ++ [WARNING ("Failed to find schema: " ++ mouse_settings_path)].
Proof.
  intros Hlookup. unfold load_initial_settings. rewrite Hlookup.
  rewrite !run_bind. cbn [object_of events_of result_of fst snd send].
  split.
  - destruct (g_settings_schema_source_lookup env mouse_settings_path) as [schema |].
    + rewrite object_of_bind. cbn [write result_of object_of fst snd].
      rewrite object_of_bind. cbn [read result_of object_of fst snd mouse_settings
                                     set_mouse_settings].
      destruct (g_settings_new_full schema) as [store |]; cbn [is_null negb].
      * rewrite object_of_bind. unfold sync_mouse_options at 1.
        rewrite object_of_bind. cbn [read result_of object_of fst snd send].
        rewrite g_object_set_keeps_a11y_store. cbn [mouse_a11y_settings set_mouse_settings].
        destruct (g_settings_schema_source_lookup env font_settings_path) as [fschema |];
          [| reflexivity].
        rewrite object_of_bind. cbn [write result_of object_of fst snd].
        rewrite object_of_bind. cbn [read result_of object_of fst snd font_settings
                                       set_font_settings].
        destruct (g_settings_new_full fschema); cbn [is_null negb]; [| reflexivity].
        rewrite object_of_bind. cbn [send object_of fst snd].
        rewrite init_font_options_keeps_a11y_store. reflexivity.
      * cbn [ret object_of fst snd mouse_a11y_settings set_mouse_settings].
        destruct (g_settings_schema_source_lookup env font_settings_path) as [fschema |];
          [| reflexivity].
        rewrite object_of_bind. cbn [write result_of object_of fst snd].
        rewrite object_of_bind. cbn [read result_of object_of fst snd font_settings
                                       set_font_settings].
        destruct (g_settings_new_full fschema); cbn [is_null negb]; [| reflexivity].
        rewrite object_of_bind. cbn [send object_of fst snd].
        rewrite init_font_options_keeps_a11y_store. reflexivity.
    + cbn [send object_of fst snd].
      destruct (g_settings_schema_source_lookup env font_settings_path) as [fschema |];
        [| reflexivity].
      rewrite object_of_bind. cbn [write result_of object_of fst snd].
      rewrite object_of_bind. cbn [read result_of object_of fst snd font_settings
                                     set_font_settings].
      destruct (g_settings_new_full fschema); cbn [is_null negb]; [| reflexivity].
      rewrite object_of_bind. cbn [send object_of fst snd].
      rewrite init_font_options_keeps_a11y_store. reflexivity.
  - eexists. rewrite app_assoc. reflexivity.
Qed.

(** C7.  The first half holds: with no mouse-accessibility schema the
    store pointer stays [NULL], a warning is logged and the start-up
    goes on.  The second half does not: a later
    [clutter_settings_ensure_pointer_a11y_settings] runs the sync all
    the same, reads through the [NULL] pointer and overwrites all it
    manages of the seat's settings with the fallback values. *)
Theorem ensure_pointer_a11y_settings_without_schema
    (env : Platform) (b : ClutterBackend) (seat : ClutterSeat) :
  g_settings_schema_source_lookup env mouse_a11y_settings_path = None ->
  let startup := _clutter_settings_set_backend env b clutter_settings_init in
  let self := object_of startup in
  mouse_a11y_settings self = None /\
  (exists earlier,
     events_of startup
       = earlier ++ [WARNING ("Failed to find schema: " ++ mouse_settings_path)]) /\
  clutter_settings_ensure_pointer_a11y_settings seat self =
    ({| pointer_a11y_settings := fallback_a11y_settings (pointer_a11y_settings seat) |},
     self,
     [CALL_seat_set_pointer_a11y_settings
        (fallback_a11y_settings (pointer_a11y_settings seat))]).
Proof.
  intros Hlookup startup self.
  assert (Hstore : mouse_a11y_settings self = None).
  { subst self startup. unfold _clutter_settings_set_backend.
    rewrite object_of_bind. cbn [write result_of object_of fst snd].
    rewrite (proj1 (load_initial_settings_without_a11y_schema env _ Hlookup)).
    reflexivity. }
  split; [exact Hstore |].
  split.
  - subst startup. unfold _clutter_settings_set_backend.
    rewrite events_of_bind. cbn [write result_of object_of events_of fst snd app].
    apply (proj2 (load_initial_settings_without_a11y_schema env _ Hlookup)).
  - unfold clutter_settings_ensure_pointer_a11y_settings.
    apply sync_pointer_a11y_settings_without_store, Hstore.
Qed.

(** A seat with both features on, on a platform with no schema at all:
    the call that should do nothing switches the features off. *)
Lemma ensure_pointer_a11y_settings_clears_busy_seat :
  let self :=
    object_of (_clutter_settings_set_backend (bare_platform None) fresh_backend
                 clutter_settings_init) in
  mouse_a11y_settings self = None /\
  controls (pointer_a11y_settings busy_seat) = 3 /\
  controls (pointer_a11y_settings
              (result_of (clutter_settings_ensure_pointer_a11y_settings busy_seat self)))
    = 0 /\
  events_of (clutter_settings_ensure_pointer_a11y_settings busy_seat self)
    = [CALL_seat_set_pointer_a11y_settings
         (fallback_a11y_settings (pointer_a11y_settings busy_seat))].
Proof.
  intros self.
  destruct (ensure_pointer_a11y_settings_without_schema
              (bare_platform None) fresh_backend busy_seat eq_refl)
    as (Hstore & _ & Hrun).
  fold self in Hrun.
  split; [exact Hstore |].
  split; [reflexivity |].
  rewrite Hrun. split; reflexivity.
Defined.

(** ** The coalesced notification *)

Lemma notices_app (t1 t2 : list event) : notices (t1 ++ t2) = notices t1 ++ notices t2.
Proof. apply flat_map_app. Qed.


Lemma filter_settings_changed_notify (pspecs : list prop_id) :
  filter is_settings_changed (map EMIT_notify pspecs) = [].
Proof. induction pspecs as [| p rest IH]; [reflexivity | exact IH]. Qed.






Lemma clutter_font_antialias_range (settings : option GSettings) :
  -1 <= clutter_font_antialias (get_font_gsettings settings) <= 1.
Proof.
  unfold get_font_gsettings. cbn [clutter_font_antialias].
  set (i := guint_of_gint (g_settings_get_enum settings "font-antialiasing")).
  assert (Hi := guint_of_gint_range (g_settings_get_enum settings "font-antialiasing")).
  fold i in Hi. clearbody i.
  destruct (Z.lt_ge_cases i 3) as [Hlt | Hge].
  - destruct (small_index_cases i 3) as [-> | [-> | [-> | [-> | ->]]]]; try lia;
      vm_compute; split; discriminate.
  - rewrite table_entry_out_of_range by (cbn; lia). vm_compute; split; discriminate.
Qed.

(** The batch of the font watcher is always accepted: the hinting flag
    is 0 or 1 and the antialias flag lies between -1 and 1. *)
Lemma font_watcher_batch_accepted (settings : option GSettings) :
  let fs := get_font_gsettings settings in
  forallb accepted_write
    [ ("font-hinting"%string,
       G_INT (if cairo_hint_style_eqb (cairo_hint_style fs) CAIRO_HINT_STYLE_NONE
              then 0 else 1));
      ("font-hint-style"%string, G_STRING (clutter_font_hint_style fs));
      ("font-antialias"%string, G_INT (clutter_font_antialias fs));
      ("font-subpixel-order"%string, G_STRING (clutter_font_subpixel_order fs)) ] = true.
Proof.
  intros fs.
  assert (Hrange := clutter_font_antialias_range settings). fold fs in Hrange.
  cbn [forallb]. unfold accepted_write. cbn [fst snd].
  change (find_pspec "font-hinting")
    with (Some (PROP_FONT_HINTING,
                g_param_spec_int "font-hinting" (-1) 1 (-1) G_PARAM_READWRITE)).
  change (find_pspec "font-hint-style")
    with (Some (PROP_FONT_HINT_STYLE,
                g_param_spec_string "font-hint-style" None G_PARAM_READWRITE)).
  change (find_pspec "font-antialias")
    with (Some (PROP_FONT_ANTIALIAS,
                g_param_spec_int "font-antialias" (-1) 1 (-1) G_PARAM_READWRITE)).
  change (find_pspec "font-subpixel-order")
    with (Some (PROP_FONT_RGBA,
                g_param_spec_string "font-subpixel-order" None G_PARAM_READWRITE)).
  cbn [value_conforms].
  destruct (Z.leb_spec (-1) (clutter_font_antialias fs)); [| lia].
  destruct (Z.leb_spec (clutter_font_antialias fs) 1); [| lia].
  destruct (cairo_hint_style_eqb (cairo_hint_style fs) CAIRO_HINT_STYLE_NONE); reflexivity.
Qed.





(* ------------------------------------------------------------------ *)
(** ** More on the translator                                         *)
(* ------------------------------------------------------------------ *)

Lemma table_entry_in {A : Type} (table : list A) (i : Z) (fallback : A) :
  0 <= i -> In (table_entry table i fallback) (fallback :: table).
Proof.
  intros Hi. unfold table_entry, G_N_ELEMENTS.
  destruct (Z.ltb_spec i (Z.of_nat (List.length table))) as [Hlt | Hge].
  - right. apply nth_In. lia.
  - left. reflexivity.
Qed.

(** A negative [gint], read as a [guint], is at least 2^31. *)
Lemma guint_of_negative_gint (z : Z) : G_MININT <= z < 0 -> 2 ^ 31 <= guint_of_gint z.
Proof.
  intros Hz. unfold guint_of_gint, G_MININT in *.
  replace z with (z + 2 ^ 32 + (-1) * 2 ^ 32) by ring.
  rewrite Z.mod_add by discriminate.
  rewrite Z.mod_small; lia.
Qed.

(** X1.  Subpixel order: the indices 0 and 1 of the platform enumeration
    both give cairo's RGB order, 2 gives BGR, 3 VRGB, 4 VBGR and every
    index from 5 on cairo's default order.  The label is "rgb", "bgr",
    "vrgb", "vbgr" or no label accordingly, unless the antialiasing
    resolved to grayscale: then the label is "none" and the cairo order
    is still the table's. *)
Theorem get_font_gsettings_subpixel_order (settings : option GSettings) :
  let i := guint_of_gint (g_settings_get_enum settings "font-rgba-order") in
  let fs := get_font_gsettings settings in
  cairo_subpixel_order fs =
    match i with
    | 0 | 1 => CAIRO_SUBPIXEL_ORDER_RGB
    | 2 => CAIRO_SUBPIXEL_ORDER_BGR
    | 3 => CAIRO_SUBPIXEL_ORDER_VRGB
    | 4 => CAIRO_SUBPIXEL_ORDER_VBGR
    | _ => CAIRO_SUBPIXEL_ORDER_DEFAULT
    end
  /\ clutter_font_subpixel_order fs =
       if cairo_antialias_eqb (cairo_antialias fs) CAIRO_ANTIALIAS_GRAY
       then Some "none"%string
       else
         match i with
         | 0 | 1 => Some "rgb"%string
         | 2 => Some "bgr"%string
         | 3 => Some "vrgb"%string
         | 4 => Some "vbgr"%string
         | _ => None
         end.
Proof.
  intros i fs.
  assert (Hfs : cairo_subpixel_order fs
                  = fst (table_entry rgba_orders i (CAIRO_SUBPIXEL_ORDER_DEFAULT, None)) /\
                clutter_font_subpixel_order fs
                  = if cairo_antialias_eqb (cairo_antialias fs) CAIRO_ANTIALIAS_GRAY
                    then Some "none"%string
                    else snd (table_entry rgba_orders i (CAIRO_SUBPIXEL_ORDER_DEFAULT, None))).
  { subst fs i. split; reflexivity. }
  assert (Hi := guint_of_gint_range (g_settings_get_enum settings "font-rgba-order")).
  fold i in Hi. clearbody i. destruct Hfs as [-> ->]. clearbody fs.
  destruct (Z.lt_ge_cases i 5) as [Hlt | Hge].
  - destruct (small_index_cases i 5) as [-> | [-> | [-> | [-> | ->]]]];
      try lia; split; reflexivity.
  - rewrite table_entry_out_of_range by (cbn; lia).
    destruct i as [| p | p]; try lia.
    destruct p as [[[p | p |] | [p | p |] |] | [[p | p |] | [p | p |] |] |];
      try lia; split; reflexivity.
Qed.

(** X2.  The index is unsigned: an enum value that comes back negative
    (as every read through a [NULL] store does) is past the end of each
    table, not before its start.  With the three reads negative the
    translation is cairo's defaults, the antialias flag -1 and no
    labels. *)
Theorem get_font_gsettings_negative_reads (settings : option GSettings) :
  G_MININT <= g_settings_get_enum settings "font-hinting" < 0 ->
  G_MININT <= g_settings_get_enum settings "font-antialiasing" < 0 ->
  G_MININT <= g_settings_get_enum settings "font-rgba-order" < 0 ->
  get_font_gsettings settings =
    {| cairo_antialias := CAIRO_ANTIALIAS_DEFAULT;
       clutter_font_antialias := -1;
       cairo_hint_style := CAIRO_HINT_STYLE_DEFAULT;
       clutter_font_hint_style := None;
       cairo_subpixel_order := CAIRO_SUBPIXEL_ORDER_DEFAULT;
       clutter_font_subpixel_order := None |}.
Proof.
  intros Hh Ha Hr. unfold get_font_gsettings.
  apply guint_of_negative_gint in Hh, Ha, Hr.
  rewrite !table_entry_out_of_range by (cbn; lia).
  reflexivity.
Qed.

(** The translation of a store that answers -3, -1 and [G_MININT]. *)
Lemma get_font_gsettings_negative_store :
  get_font_gsettings (Some (font_store (-3) (-1) G_MININT)) =
    {| cairo_antialias := CAIRO_ANTIALIAS_DEFAULT;
       clutter_font_antialias := -1;
       cairo_hint_style := CAIRO_HINT_STYLE_DEFAULT;
       clutter_font_hint_style := None;
       cairo_subpixel_order := CAIRO_SUBPIXEL_ORDER_DEFAULT;
       clutter_font_subpixel_order := None |}.
Proof.
  apply (get_font_gsettings_negative_reads (Some (font_store (-3) (-1) G_MININT)));
    vm_compute; split; congruence.
Defined.

(* ------------------------------------------------------------------ *)
(** ** Writes and reads of the properties                             *)
(* ------------------------------------------------------------------ *)

(** One case per entry of the property table. *)
Ltac obj_props_cases Hin prop pspec :=
  cbn [obj_props In] in Hin;
  repeat (destruct Hin as [Hin | Hin];
          [inversion Hin; subst prop pspec; clear Hin |]);
  try contradiction.

(** The branch of the setter for a known [prop], run. *)
Ltac run_set_property self :=
  rewrite ?clutter_settings_set_property_run; cbv beta iota;
  rewrite ?settings_update_font_options_eq, ?settings_update_font_name_eq,
    ?settings_update_resolution_run;
  unfold object_of, events_of;
  cbn [written_field backend set_xft_antialias set_xft_hinting set_xft_hint_style
       set_xft_rgba set_font_name set_font_dpi];
  try settle_backend self.

(** X3.  The last write wins: two writes to the same property leave the
    object (fields, resolution and the backend's font options) as the
    second write alone does.  In particular the [GDK_DPI_SCALE] factor
    is applied to the DPI written, not on top of an earlier scaled
    resolution. *)
Theorem set_property_last_write_wins (env : Platform) (prop : prop_id)
    (v1 v2 : GValue) (self : ClutterSettings) :
  object_of (clutter_settings_set_property env prop v2
               (object_of (clutter_settings_set_property env prop v1 self)))
    = object_of (clutter_settings_set_property env prop v2 self).
Proof.
  set_property_cases prop; settle_backend self; reflexivity.
Qed.

(** X4.  Writes to two different properties commute on the object,
    except for font-dpi and unscaled-font-dpi, which write the same
    field: the derived state (resolution, the backend's font options)
    depends on the fields only, not on the order they were written in. *)
Theorem set_property_commutes (env : Platform) (p q : prop_id)
    (vp vq : GValue) (self : ClutterSettings) :
  same_field p q = false ->
  object_of (clutter_settings_set_property env q vq
               (object_of (clutter_settings_set_property env p vp self)))
    = object_of (clutter_settings_set_property env p vp
                   (object_of (clutter_settings_set_property env q vq self))).
Proof.
  intros Hpq.
  rewrite !clutter_settings_set_property_run.
  destruct p, q; try discriminate Hpq; clear Hpq;
    rewrite ?settings_update_font_options_eq, ?settings_update_font_name_eq,
      ?settings_update_resolution_run;
    unfold object_of, events_of, result_of;
    cbn [written_field backend set_double_click_time set_double_click_distance
         set_dnd_drag_threshold set_font_name set_xft_antialias set_font_dpi
         set_xft_hinting set_xft_hint_style set_xft_rgba set_long_press_duration
         set_password_hint_time set_resolution fst snd];
    settle_backend self; reflexivity.
Qed.

Lemma set_property_commutes_example :
  object_of (clutter_settings_set_property (bare_platform (Some "2.0"%string))
               PROP_FONT_DPI (G_INT 98304)
               (object_of (clutter_settings_set_property (bare_platform (Some "2.0"%string))
                             PROP_FONT_RGBA (G_STRING (Some "rgb"%string))
                             attached_settings)))
    = object_of (clutter_settings_set_property (bare_platform (Some "2.0"%string))
                   PROP_FONT_RGBA (G_STRING (Some "rgb"%string))
                   (object_of (clutter_settings_set_property
                                 (bare_platform (Some "2.0"%string))
                                 PROP_FONT_DPI (G_INT 98304) attached_settings))).
Proof.
  apply (set_property_commutes (bare_platform (Some "2.0"%string))
           PROP_FONT_RGBA PROP_FONT_DPI).
  reflexivity.
Defined.

(** X5.  A read after a write gives the value written, for every
    readable property but font-dpi, when the value is one GObject
    accepts for the property (its type and range). *)
Theorem property_read_after_write (env : Platform) (prop : prop_id) (pspec : GParamSpec)
    (value : GValue) (self : ClutterSettings) :
  In (prop, pspec) obj_props ->
  pspec_readable pspec = true ->
  prop <> PROP_FONT_DPI ->
  value_conforms pspec value = true ->
  property_value prop (object_of (clutter_settings_set_property env prop value self))
    = Some value.
Proof.
  intros Hin Hread Hdpi Hv.
  obj_props_cases Hin prop pspec; try congruence; try discriminate Hread;
    destruct value as [v | v | v]; try discriminate Hv;
    run_set_property self; reflexivity.
Qed.

Lemma property_read_after_write_example :
  property_value PROP_FONT_RGBA
    (object_of (clutter_settings_set_property (bare_platform None) PROP_FONT_RGBA
                  (G_STRING (Some "vbgr"%string)) attached_settings))
    = Some (G_STRING (Some "vbgr"%string)).
Proof.
  apply (property_read_after_write (bare_platform None) PROP_FONT_RGBA
           (g_param_spec_string "font-subpixel-order" None G_PARAM_READWRITE)).
  - cbn [obj_props In]. do 9 right. left. reflexivity.
  - reflexivity.
  - discriminate.
  - reflexivity.
Defined.

(** X6.  A write to one property changes what no other property reads:
    for two ids that do not write the same field, the read of the one
    is the same before and after a write to the other. *)
Theorem property_read_after_other_write (env : Platform) (p q : prop_id)
    (value : GValue) (self : ClutterSettings) :
  same_field p q = false ->
  property_value q (object_of (clutter_settings_set_property env p value self))
    = property_value q self.
Proof.
  intros Hpq.
  rewrite clutter_settings_set_property_run.
  destruct p, q; try discriminate Hpq; clear Hpq;
    run_set_property self; reflexivity.
Qed.

Lemma property_read_after_other_write_example :
  property_value PROP_FONT_NAME
    (object_of (clutter_settings_set_property (bare_platform None) PROP_FONT_HINTING
                  (G_INT 1) attached_settings))
    = Some (G_STRING (Some "Sans 12"%string)).
Proof.
  apply (property_read_after_other_write (bare_platform None)
           PROP_FONT_HINTING PROP_FONT_NAME (G_INT 1) attached_settings).
  reflexivity.
Defined.

(** X7.  A write of zero or of a negative DPI to either DPI property
    does not read back: with no [GDK_DPI_SCALE] factor in force (the
    variable unset, or parsing to zero) the resolution falls back to
    96.0 and font-dpi reads 98304 = 96 * 1024. *)
Theorem font_dpi_unset_reads_default (env : Platform) (self : ClutterSettings)
    (prop : prop_id) (dpi : Z) :
  prop = PROP_FONT_DPI \/ prop = PROP_UNSCALED_FONT_DPI ->
  dpi <= 0 ->
  match g_getenv env "GDK_DPI_SCALE" with
  | None => True
  | Some text => (g_ascii_strtod env text =? 0)%float = true
  end ->
  resolution (object_of (clutter_settings_set_property env prop (G_INT dpi) self))
    = 96%float /\
  property_value PROP_FONT_DPI
    (object_of (clutter_settings_set_property env prop (G_INT dpi) self))
    = Some (G_INT 98304).
Proof.
  intros Hprop Hdpi Hscale.
  assert (Hres : resolution (object_of (clutter_settings_set_property env prop
                                          (G_INT dpi) self)) = 96%float).
  { rewrite resolution_after_dpi_write by (unfold G_MAXINT; intuition lia).
    destruct (Z.gtb_spec dpi 0); [lia |].
    destruct (g_getenv env "GDK_DPI_SCALE") as [text |]; [| reflexivity].
    rewrite Hscale. reflexivity. }
  split; [exact Hres |].
  rewrite font_dpi_property_value, Hres. reflexivity.
Qed.

Lemma font_dpi_unset_reads_default_example :
  resolution (object_of (clutter_settings_set_property (bare_platform (Some "two"%string))
                           PROP_FONT_DPI (G_INT 0) attached_settings)) = 96%float /\
  property_value PROP_FONT_DPI
    (object_of (clutter_settings_set_property (bare_platform (Some "two"%string))
                  PROP_FONT_DPI (G_INT 0) attached_settings))
    = Some (G_INT 98304).
Proof.
  apply (font_dpi_unset_reads_default (bare_platform (Some "two"%string))
           attached_settings PROP_FONT_DPI 0).
  - left. reflexivity.
  - lia.
  - reflexivity.
Defined.

(** X8.  The property table and the two switches agree: the setter has
    a branch for every installed property (it never logs the
    invalid-id warning for one), the getter has a branch for every
    readable one, where it returns a value, logs nothing and leaves the
    object as it is; for the write-only unscaled-font-dpi the getter
    has no branch and warns. *)
Theorem installed_properties_are_handled (prop : prop_id) (pspec : GParamSpec) :
  In (prop, pspec) obj_props ->
  (forall env value self,
      existsb is_warning (events_of (clutter_settings_set_property env prop value self))
        = false) /\
  (forall self,
      if pspec_readable pspec
      then exists value, clutter_settings_get_property prop self = (Some value, self, [])
      else clutter_settings_get_property prop self
             = (None, self, [WARNING "invalid property id"])).
Proof.
  intros Hin.
  obj_props_cases Hin prop pspec;
    (split;
     [ intros env value self; run_set_property self; reflexivity
     | intros self; cbn [pspec_readable pspec_flags];
       first [eexists; reflexivity | reflexivity] ]).
Qed.

Lemma installed_properties_are_handled_example :
  existsb is_warning
    (events_of (clutter_settings_set_property (bare_platform None)
                  PROP_UNSCALED_FONT_DPI (G_INT 98304) attached_settings)) = false /\
  clutter_settings_get_property PROP_UNSCALED_FONT_DPI attached_settings
    = (None, attached_settings, [WARNING "invalid property id"]).
Proof.
  destruct (installed_properties_are_handled PROP_UNSCALED_FONT_DPI
              (g_param_spec_int "unscaled-font-dpi" (-1) (1024 * 1024) (-1)
                 G_PARAM_WRITABLE)) as [Hset Hget].
  - cbn [obj_props In]. do 6 right. left. reflexivity.
  - split; [apply Hset | apply (Hget attached_settings)].
Defined.

(** X9.  The object as created reads, for every readable property but
    font-name and font-dpi, the default its pspec declares. *)
Theorem clutter_settings_init_reads_defaults (prop : prop_id) (pspec : GParamSpec) :
  In (prop, pspec) obj_props ->
  pspec_readable pspec = true ->
  prop <> PROP_FONT_NAME ->
  prop <> PROP_FONT_DPI ->
  property_value prop clutter_settings_init = Some (pspec_default pspec).
Proof.
  intros Hin Hread Hname Hdpi.
  obj_props_cases Hin prop pspec; try congruence; try discriminate Hread; reflexivity.
Qed.

Lemma clutter_settings_init_reads_defaults_example :
  property_value PROP_DND_DRAG_THRESHOLD clutter_settings_init = Some (G_INT 8).
Proof.
  apply (clutter_settings_init_reads_defaults PROP_DND_DRAG_THRESHOLD
           (g_param_spec_int "dnd-drag-threshold" 1 G_MAXINT 8 G_PARAM_READWRITE)).
  - cbn [obj_props In]. do 2 right. left. reflexivity.
  - reflexivity.
  - discriminate.
  - discriminate.
Defined.

(* ------------------------------------------------------------------ *)
(** ** Invariants through [g_object_set]                              *)
(* ------------------------------------------------------------------ *)

Section Maintains.
Variable I : ClutterSettings -> Prop.
Variable P : event -> Prop.

Lemma maintains_ret {A : Type} (a : A) : maintains I P (ret a).
Proof. intros self H. split; [exact H | constructor]. Qed.

Lemma maintains_write (f : ClutterSettings -> ClutterSettings) :
  (forall self, I self -> I (f self)) -> maintains I P (write f).
Proof. intros Hf self H. split; [apply Hf, H | constructor]. Qed.

Lemma maintains_send (e : event) : P e -> maintains I P (send e).
Proof. intros He self H. split; [exact H | repeat constructor; exact He]. Qed.

Lemma maintains_bind {A B : Type} (m : M A) (k : A -> M B) :
  maintains I P m -> (forall a, maintains I P (k a)) -> maintains I P (bind m k).
Proof.
  intros Hm Hk self H. rewrite run_bind. cbn [object_of events_of fst snd].
  destruct (Hm self H) as [H1 E1].
  destruct (Hk (result_of (m self)) _ H1) as [H2 E2].
  split; [exact H2 | apply Forall_app; split; assumption].
Qed.

(** A read, then a continuation that may depend on what was read. *)
Lemma maintains_read_bind {A B : Type} (f : ClutterSettings -> A) (k : A -> M B) :
  (forall self, I self -> I (object_of (k (f self) self)) /\
                          Forall P (events_of (k (f self) self))) ->
  maintains I P (bind (read f) k).
Proof.
  intros Hk self H. rewrite run_bind. cbn [read result_of object_of events_of fst snd app].
  apply Hk, H.
Qed.

Lemma g_object_set_valist_maintains (env : Platform) (args : list (string * GValue)) :
  (forall name value prop pspec,
      In (name, value) args -> find_pspec name = Some (prop, pspec) ->
      value_conforms pspec value = true ->
      maintains I P (clutter_settings_set_property env prop value)) ->
  (forall msg, P (CRITICAL msg)) ->
  forall nqueue, maintains I P (g_object_set_valist env args nqueue).
Proof.
  intros Hset Hcrit.
  induction args as [| [name value] rest IH]; intros nqueue; [apply maintains_ret |].
  cbn [g_object_set_valist].
  destruct (find_pspec name) as [[prop pspec] |] eqn:Hfind.
  - apply maintains_bind.
    + unfold object_set_property.
      destruct (value_conforms pspec value) eqn:Hv; cbn [negb].
      * apply maintains_bind; [| intros; apply maintains_ret].
        apply (Hset name value prop pspec); [left; reflexivity | exact Hfind | exact Hv].
      * apply maintains_bind; [apply maintains_send, Hcrit | intros; apply maintains_ret].
    + intros nqueue'. apply IH.
      intros n v p ps Hin. apply Hset. right. exact Hin.
  - apply maintains_bind; [apply maintains_send, Hcrit | intros; apply maintains_ret].
Qed.

Lemma g_object_notify_queue_thaw_maintains (nqueue : list prop_id) :
  (forall pspec, P (EMIT_notify pspec)) ->
  (forall self, I self -> is_null (backend self) = false -> P EMIT_settings_changed) ->
  maintains I P (g_object_notify_queue_thaw nqueue).
Proof.
  intros Hnotify Hchanged self H.
  rewrite g_object_notify_queue_thaw_run. cbn [object_of events_of fst snd].
  split; [exact H |].
  destruct nqueue as [| q rest]; [constructor |].
  apply Forall_app. split.
  - apply Forall_forall. intros e He. apply in_map_iff in He.
    destruct He as (p & <- & _). apply Hnotify.
  - destruct (is_null (backend self)) eqn:Hb; [constructor |].
    repeat constructor. apply (Hchanged self H Hb).
Qed.

Lemma g_object_set_maintains (env : Platform) (args : list (string * GValue)) :
  (forall name value prop pspec,
      In (name, value) args -> find_pspec name = Some (prop, pspec) ->
      value_conforms pspec value = true ->
      maintains I P (clutter_settings_set_property env prop value)) ->
  (forall msg, P (CRITICAL msg)) ->
  (forall pspec, P (EMIT_notify pspec)) ->
  (forall self, I self -> is_null (backend self) = false -> P EMIT_settings_changed) ->
  maintains I P (g_object_set env args).
Proof.
  intros Hset Hcrit Hnotify Hchanged. unfold g_object_set.
  apply maintains_bind.
  - apply g_object_set_valist_maintains; assumption.
  - intros nqueue. apply g_object_notify_queue_thaw_maintains; assumption.
Qed.

End Maintains.

Lemma find_pspec_in (name : string) (prop : prop_id) (pspec : GParamSpec) :
  find_pspec name = Some (prop, pspec) -> In (prop, pspec) obj_props.
Proof. intros H. apply find_some in H. apply H. Qed.

Lemma Forall_any_event (trace : list event) : Forall any_event trace.
Proof. apply Forall_forall. intros; exact Logic.I. Qed.

Lemma Forall_existsb_false (f : event -> bool) (trace : list event) :
  Forall (fun e => f e = false) trace -> existsb f trace = false.
Proof.
  induction 1 as [| e rest He _ IH]; [reflexivity |].
  cbn [existsb]. rewrite He, IH. reflexivity.
Qed.

Lemma notices_silent (trace : list event) :
  Forall (fun e => notice_of_event e = []) trace -> notices trace = [].
Proof.
  induction 1 as [| e rest He _ IH]; [reflexivity |].
  unfold notices in *. cbn [flat_map]. rewrite He, IH. reflexivity.
Qed.

Lemma set_property_detached (env : Platform) (prop : prop_id) (value : GValue) :
  maintains (fun self => backend self = None) (fun e => notice_of_event e = [])
    (clutter_settings_set_property env prop value).
Proof.
  intros self Hb.
  set_property_cases prop; rewrite ?Hb; cbn [is_null fst snd backend set_resolution];
    (split; [first [exact Hb | reflexivity] | repeat constructor]).
Qed.

(** X10.  On an object with no backend a [g_object_set], whatever it
    writes, tells nobody outside the object: no font options are
    computed and none of "font-changed", "resolution-changed" and
    "settings-changed" is emitted; the object stays without a backend. *)
Theorem g_object_set_detached_is_silent
    (env : Platform) (args : list (string * GValue)) (self : ClutterSettings) :
  backend self = None ->
  backend (object_of (g_object_set env args self)) = None /\
  notices (events_of (g_object_set env args self)) = [].
Proof.
  intros Hb.
  destruct (g_object_set_maintains
              (fun self => backend self = None) (fun e => notice_of_event e = [])
              env args) with (self := self) as [Hobj Hev].
  - intros. apply set_property_detached.
  - reflexivity.
  - reflexivity.
  - intros s Hs Hnull. rewrite Hs in Hnull. discriminate.
  - exact Hb.
  - split; [exact Hobj | apply notices_silent, Hev].
Qed.

Lemma g_object_set_detached_example :
  backend (object_of (g_object_set (bare_platform None)
                        [("font-name"%string, G_STRING (Some "Serif 10"%string));
                         ("font-antialias"%string, G_INT 1);
                         ("font-dpi"%string, G_INT 98304)] clutter_settings_init)) = None /\
  notices (events_of (g_object_set (bare_platform None)
                        [("font-name"%string, G_STRING (Some "Serif 10"%string));
                         ("font-antialias"%string, G_INT 1);
                         ("font-dpi"%string, G_INT 98304)] clutter_settings_init)) = [].
Proof.
  apply (g_object_set_detached_is_silent (bare_platform None)). reflexivity.
Defined.

Lemma set_property_not_settings_changed (env : Platform) (prop : prop_id)
    (value : GValue) :
  maintains (fun _ => True) (fun e => is_settings_changed e = false)
    (clutter_settings_set_property env prop value).
Proof.
  intros self _. split; [exact Logic.I |].
  set_property_cases prop; settle_backend self; repeat constructor.
Qed.

(** X11.  Whatever a batch holds (accepted writes, values out of range,
    names the class does not have), one [g_object_set] emits
    "settings-changed" at most once, and then as its last event. *)
Theorem g_object_set_settings_changed_at_most_once
    (env : Platform) (args : list (string * GValue)) (self : ClutterSettings) :
  exists earlier,
    filter is_settings_changed earlier = [] /\
    (events_of (g_object_set env args self) = earlier \/
     events_of (g_object_set env args self) = earlier ++ [EMIT_settings_changed]).
Proof.
  unfold g_object_set. rewrite events_of_bind, g_object_notify_queue_thaw_run.
  cbn [events_of snd].
  assert (Hwrites : filter is_settings_changed
                      (events_of (g_object_set_valist env args [] self)) = []).
  { destruct (g_object_set_valist_maintains
                (fun _ => True) (fun e => is_settings_changed e = false) env args)
      with (nqueue := @nil prop_id) (self := self) as [_ Hev].
    - intros. apply set_property_not_settings_changed.
    - reflexivity.
    - exact Logic.I.
    - induction Hev as [| e rest He _ IH]; [reflexivity |].
      cbn [filter]. rewrite He. exact IH. }
  destruct (result_of (g_object_set_valist env args [] self)) as [| q queue].
  - exists (events_of (g_object_set_valist env args [] self)).
    split; [exact Hwrites |]. left. apply app_nil_r.
  - exists (events_of (g_object_set_valist env args [] self) ++ map EMIT_notify (q :: queue)).
    split.
    + rewrite filter_app, Hwrites, filter_settings_changed_notify. reflexivity.
    + destruct (is_null (backend (object_of (g_object_set_valist env args [] self)))).
      * left. rewrite app_nil_r. reflexivity.
      * right. rewrite app_assoc. reflexivity.
Qed.

(* ------------------------------------------------------------------ *)
(** ** The font change event                                          *)
(* ------------------------------------------------------------------ *)

(** A batch GObject accepts as a whole leaves the object of its
    writes, made one after the other. *)
Lemma g_object_set_valist_accepted_object (env : Platform)
    (args : list (string * GValue)) :
  forallb accepted_write args = true ->
  forall nqueue self,
    object_of (g_object_set_valist env args nqueue self)
      = fold_left (write_in_turn env) args self.
Proof.
  induction args as [| [name value] rest IH]; intros Hacc nqueue self; [reflexivity |].
  cbn [forallb] in Hacc. apply andb_prop in Hacc. destruct Hacc as [Hacc Hrest].
  unfold accepted_write in Hacc. cbn [fst snd] in Hacc.
  cbn [g_object_set_valist fold_left]. unfold write_in_turn at 2. cbn [fst snd].
  destruct (find_pspec name) as [[prop pspec] |]; [| discriminate].
  rewrite object_of_bind, object_set_property_run, Hacc.
  cbn [result_of object_of fst snd]. apply IH, Hrest.
Qed.

(** The object after a font change event: the four fields hold the
    translation and the backend, when there is one, holds the options
    computed from the four of them. *)
Lemma on_font_settings_change_event_object (env : Platform)
    (settings : option GSettings) (self : ClutterSettings) :
  let fs := get_font_gsettings settings in
  let fields :=
    set_xft_rgba (clutter_font_subpixel_order fs)
      (set_xft_antialias (clutter_font_antialias fs)
         (set_xft_hint_style (clutter_font_hint_style fs)
            (set_xft_hinting
               (if cairo_hint_style_eqb (cairo_hint_style fs) CAIRO_HINT_STYLE_NONE
                then 0 else 1) self))) in
  object_of (on_font_settings_change_event env settings self) =
    match backend self with
    | Some b =>
        set_backend (Some (backend_store_font_options (font_options_rule fields) b)) fields
    | None => fields
    end.
Proof.
  intros fs fields. unfold on_font_settings_change_event.
  rewrite object_of_bind. cbn [ret object_of fst snd].
  rewrite g_object_set_object.
  rewrite g_object_set_valist_accepted_object by apply font_watcher_batch_accepted.
  cbn [fold_left]. unfold write_in_turn. cbn [fst snd].
  change (find_pspec "font-hinting")
    with (Some (PROP_FONT_HINTING,
                g_param_spec_int "font-hinting" (-1) 1 (-1) G_PARAM_READWRITE)).
  change (find_pspec "font-hint-style")
    with (Some (PROP_FONT_HINT_STYLE,
                g_param_spec_string "font-hint-style" None G_PARAM_READWRITE)).
  change (find_pspec "font-antialias")
    with (Some (PROP_FONT_ANTIALIAS,
                g_param_spec_int "font-antialias" (-1) 1 (-1) G_PARAM_READWRITE)).
  change (find_pspec "font-subpixel-order")
    with (Some (PROP_FONT_RGBA,
                g_param_spec_string "font-subpixel-order" None G_PARAM_READWRITE)).
  cbv beta iota.
  rewrite !clutter_settings_set_property_run. cbv beta iota.
  rewrite !settings_update_font_options_eq.
  unfold object_of.
  cbn [written_field backend set_xft_antialias set_xft_hinting set_xft_hint_style
       set_xft_rgba g_value_get_int g_value_dup_string].
  destruct (backend self) as [b |] eqn:Hb;
    repeat progress
      (cbn [fst snd backend set_backend set_xft_antialias set_xft_hinting
            set_xft_hint_style set_xft_rgba];
       rewrite ?Hb);
    [| reflexivity].
  unfold backend_store_font_options. cbn [default_seat]. reflexivity.
Qed.

(** X12.  After a font change event the object holds the translation of
    the store the event came from: hinting is 0 when the style read is
    none and 1 otherwise, the hint-style and subpixel-order strings and
    the antialias flag are the translation's; and the backend, when
    there is one, holds the options computed from the four fields as
    they are at the end, not from a half-written state. *)
Theorem font_change_event_stores_translation (env : Platform)
    (settings : option GSettings) (self : ClutterSettings) :
  let fs := get_font_gsettings settings in
  let self' := object_of (on_font_settings_change_event env settings self) in
  xft_hinting self'
    = (if cairo_hint_style_eqb (cairo_hint_style fs) CAIRO_HINT_STYLE_NONE then 0 else 1) /\
  xft_hint_style self' = clutter_font_hint_style fs /\
  xft_antialias self' = clutter_font_antialias fs /\
  xft_rgba self' = clutter_font_subpixel_order fs /\
  backend_font_options self'
    = (if is_null (backend self) then None else Some (font_options_rule self')).
Proof.
  intros fs self'. subst self'.
  rewrite on_font_settings_change_event_object. fold fs.
  destruct (backend self) as [b |] eqn:Hb; cbn [is_null]; repeat split;
    unfold backend_font_options;
    cbn [backend set_backend set_xft_rgba set_xft_antialias set_xft_hint_style
         set_xft_hinting];
    rewrite ?Hb; reflexivity.
Qed.

(** The options computed from fields that hold a translation, in terms
    of the translation's cairo values. *)
Lemma font_options_rule_of_translation (settings : option GSettings)
    (self : ClutterSettings) :
  let fs := get_font_gsettings settings in
  xft_hinting self
    = (if cairo_hint_style_eqb (cairo_hint_style fs) CAIRO_HINT_STYLE_NONE then 0 else 1) ->
  xft_hint_style self = clutter_font_hint_style fs ->
  xft_antialias self = clutter_font_antialias fs ->
  xft_rgba self = clutter_font_subpixel_order fs ->
  font_options_rule self =
    {| hint_metrics := CAIRO_HINT_METRICS_ON;
       hint_style :=
         match cairo_hint_style fs with
         | CAIRO_HINT_STYLE_DEFAULT => CAIRO_HINT_STYLE_NONE
         | style => style
         end;
       subpixel_order :=
         if cairo_antialias_eqb (cairo_antialias fs) CAIRO_ANTIALIAS_GRAY
         then CAIRO_SUBPIXEL_ORDER_DEFAULT
         else cairo_subpixel_order fs;
       antialias :=
         match cairo_antialias fs with
         | CAIRO_ANTIALIAS_NONE => CAIRO_ANTIALIAS_NONE
         | CAIRO_ANTIALIAS_GRAY => CAIRO_ANTIALIAS_GRAY
         | _ =>
             if cairo_subpixel_order_eqb (cairo_subpixel_order fs)
                  CAIRO_SUBPIXEL_ORDER_DEFAULT
             then CAIRO_ANTIALIAS_GRAY
             else CAIRO_ANTIALIAS_SUBPIXEL
         end |}.
Proof.
  intros fs Hh Hs Ha Hr. unfold font_options_rule. rewrite Hh, Hs, Ha, Hr.
  subst fs. unfold get_font_gsettings.
  cbn [cairo_antialias clutter_font_antialias cairo_hint_style clutter_font_hint_style
       cairo_subpixel_order clutter_font_subpixel_order].
  pose proof (table_entry_in hintings
                (guint_of_gint (g_settings_get_enum settings "font-hinting"))
                (CAIRO_HINT_STYLE_DEFAULT, None)
                (proj1 (guint_of_gint_range _))) as Hhint.
  pose proof (table_entry_in antialiasings
                (guint_of_gint (g_settings_get_enum settings "font-antialiasing"))
                (CAIRO_ANTIALIAS_DEFAULT, -1)
                (proj1 (guint_of_gint_range _))) as Hanti.
  pose proof (table_entry_in rgba_orders
                (guint_of_gint (g_settings_get_enum settings "font-rgba-order"))
                (CAIRO_SUBPIXEL_ORDER_DEFAULT, None)
                (proj1 (guint_of_gint_range _))) as Hrgba.
  cbn [In hintings antialiasings rgba_orders] in Hhint, Hanti, Hrgba.
  repeat match goal with
         | H : _ \/ _ |- _ => destruct H as [H | H]
         | H : False |- _ => contradiction
         end;
    rewrite <- Hhint, <- Hanti, <- Hrgba; reflexivity.
Qed.

(** X13.  The options a backend holds after a font change event, in
    terms of what the platform store says: hint metrics on; the hint
    style read, with none for an index out of range; the subpixel order
    read, but cairo's default under grayscale antialiasing; antialias
    none or grayscale as read, and for subpixel (or an index out of
    range) subpixel only when the order read is not the default,
    grayscale otherwise. *)
Theorem font_change_event_bundle (env : Platform) (settings : option GSettings)
    (self : ClutterSettings) :
  is_null (backend self) = false ->
  let fs := get_font_gsettings settings in
  backend_font_options (object_of (on_font_settings_change_event env settings self)) =
    Some
      {| hint_metrics := CAIRO_HINT_METRICS_ON;
         hint_style :=
           match cairo_hint_style fs with
           | CAIRO_HINT_STYLE_DEFAULT => CAIRO_HINT_STYLE_NONE
           | style => style
           end;
         subpixel_order :=
           if cairo_antialias_eqb (cairo_antialias fs) CAIRO_ANTIALIAS_GRAY
           then CAIRO_SUBPIXEL_ORDER_DEFAULT
           else cairo_subpixel_order fs;
         antialias :=
           match cairo_antialias fs with
           | CAIRO_ANTIALIAS_NONE => CAIRO_ANTIALIAS_NONE
           | CAIRO_ANTIALIAS_GRAY => CAIRO_ANTIALIAS_GRAY
           | _ =>
               if cairo_subpixel_order_eqb (cairo_subpixel_order fs)
                    CAIRO_SUBPIXEL_ORDER_DEFAULT
               then CAIRO_ANTIALIAS_GRAY
               else CAIRO_ANTIALIAS_SUBPIXEL
           end |}.
Proof.
  intros Hb fs.
  rewrite on_font_settings_change_event_object. fold fs.
  destruct (backend self) as [b |]; [| discriminate Hb].
  unfold backend_font_options. cbn [backend set_backend font_options
    backend_store_font_options].
  f_equal. apply font_options_rule_of_translation; reflexivity.
Qed.

(** Subpixel antialiasing with the three other reads out of range: the
    backend is handed grayscale. *)
Lemma font_change_event_bundle_example :
  backend_font_options
    (object_of (on_font_settings_change_event (bare_platform None)
                  (Some (font_store 7 2 9)) attached_settings)) =
    Some {| hint_metrics := CAIRO_HINT_METRICS_ON;
            hint_style := CAIRO_HINT_STYLE_NONE;
            subpixel_order := CAIRO_SUBPIXEL_ORDER_DEFAULT;
            antialias := CAIRO_ANTIALIAS_GRAY |}.
Proof.
  apply (font_change_event_bundle (bare_platform None) (Some (font_store 7 2 9))
           attached_settings).
  reflexivity.
Defined.

(** X14.  Handling the same font change event a second time changes
    nothing: the object after two runs is the object after one. *)
Theorem font_change_event_idempotent (env : Platform) (settings : option GSettings)
    (self : ClutterSettings) :
  object_of (on_font_settings_change_event env settings
               (object_of (on_font_settings_change_event env settings self)))
    = object_of (on_font_settings_change_event env settings self).
Proof.
  rewrite !on_font_settings_change_event_object. cbv zeta.
  destruct (backend self) as [b |] eqn:Hb;
    cbn [backend set_backend set_xft_rgba set_xft_antialias set_xft_hint_style
         set_xft_hinting];
    rewrite ?Hb; reflexivity.
Qed.

(* ------------------------------------------------------------------ *)
(** ** The mouse options                                              *)
(* ------------------------------------------------------------------ *)

(** X15.  The mouse sync stores the platform's double-click time when
    it is not negative and its drag threshold when it is at least 1;
    a value outside the property's range is refused and the field
    keeps what it held.  Nothing else of the object changes.  With a
    backend, the backend hears "settings-changed" once when one of the
    two values at least was stored; when both were refused it hears it
    once where GObject queues a notification after a refused value,
    and nothing where it does not.  Without a backend it hears
    nothing. *)
Theorem sync_mouse_options_run (env : Platform) (self : ClutterSettings) :
  let double_click := g_settings_get_int (mouse_settings self) "double-click" in
  let drag_threshold := g_settings_get_int (mouse_settings self) "drag-threshold" in
  let time_ok := (0 <=? double_click) && (double_click <=? G_MAXINT) in
  let threshold_ok := (1 <=? drag_threshold) && (drag_threshold <=? G_MAXINT) in
  object_of (sync_mouse_options env self) =
    (if threshold_ok then set_dnd_drag_threshold drag_threshold else fun self => self)
      ((if time_ok then set_double_click_time double_click else fun self => self) self)
  /\ notices (events_of (sync_mouse_options env self)) =
       (if (time_ok || threshold_ok || glib_notify_after_refused_set env)
           && negb (is_null (backend self))
        then [NOTICE_settings_changed] else []).
Proof.
  intros double_click drag_threshold time_ok threshold_ok.
  unfold sync_mouse_options. rewrite run_bind.
  cbn [read result_of object_of events_of fst snd app].
  fold double_click drag_threshold.
  unfold g_object_set. rewrite run_bind. cbn [object_of events_of fst snd].
  rewrite g_object_notify_queue_thaw_run. cbn [object_of events_of fst snd].
  cbn [g_object_set_valist].
  change (find_pspec "double-click-time")
    with (Some (PROP_DOUBLE_CLICK_TIME,
                g_param_spec_int "double-click-time" 0 G_MAXINT 250 G_PARAM_READWRITE)).
  change (find_pspec "dnd-drag-threshold")
    with (Some (PROP_DND_DRAG_THRESHOLD,
                g_param_spec_int "dnd-drag-threshold" 1 G_MAXINT 8 G_PARAM_READWRITE)).
  cbv beta iota.
  rewrite !run_bind, !object_set_property_run.
  cbn [value_conforms pspec_readable pspec_flags]. fold time_ok.
  destruct time_ok; cbn [result_of object_of events_of fst snd];
    rewrite ?run_bind, ?object_set_property_run;
    cbn [value_conforms pspec_readable pspec_flags];
    fold threshold_ok; destruct threshold_ok;
    destruct (glib_notify_after_refused_set env);
    cbn [result_of object_of events_of fst snd ret app
         clutter_settings_set_property write g_value_get_int orb andb
         backend set_double_click_time set_dnd_drag_threshold
         g_object_notify_queue_add existsb prop_id_eqb];
    (split; [reflexivity |]);
    rewrite ?notices_app; cbn [notices flat_map notice_of_event map app];
    destruct (backend self); reflexivity.
Qed.

(** A store with a double-click time of 400 and a drag threshold of 0:
    the time is stored, the threshold is refused and stays 8. *)
Lemma sync_mouse_options_example :
  object_of (sync_mouse_options (bare_platform None)
               (set_mouse_settings
                  (Some {| get_enum := fun _ => 0;
                           get_int := fun key =>
                             if streq key "double-click" then 400 else 0;
                           get_boolean := fun _ => false;
                           get_double := fun _ => 0%float |})
                  attached_settings))
    = set_double_click_time 400
        (set_mouse_settings
           (Some {| get_enum := fun _ => 0;
                    get_int := fun key =>
                      if streq key "double-click" then 400 else 0;
                    get_boolean := fun _ => false;
                    get_double := fun _ => 0%float |})
           attached_settings).
Proof.
  exact (proj1 (sync_mouse_options_run (bare_platform None)
                  (set_mouse_settings
                     (Some {| get_enum := fun _ => 0;
                              get_int := fun key =>
                                if streq key "double-click" then 400 else 0;
                              get_boolean := fun _ => false;
                              get_double := fun _ => 0%float |})
                     attached_settings))).
Defined.

(* ------------------------------------------------------------------ *)
(** ** Start-up                                                       *)
(* ------------------------------------------------------------------ *)

Lemma load_initial_settings_parts (env : Platform) :
  load_initial_settings env =
    (load_font_settings env ;; load_mouse_settings env ;; load_mouse_a11y_settings env).
Proof. reflexivity. Qed.

Section Startup.
Variable I : ClutterSettings -> Prop.
Variable P : event -> Prop.
Variable env : Platform.
Hypothesis P_warning : forall msg, P (WARNING msg).
Hypothesis P_connect : forall h, P (CONNECT_change_event h).

Lemma load_font_settings_maintains :
  (forall st self, I self -> I (set_font_settings st self)) ->
  maintains I P init_font_options ->
  maintains I P (load_font_settings env).
Proof.
  intros I_store Hinit. unfold load_font_settings.
  destruct (g_settings_schema_source_lookup env font_settings_path) as [schema |];
    [| apply maintains_send, P_warning].
  apply maintains_bind; [apply maintains_write, I_store | intros _].
  apply maintains_read_bind. intros self H.
  destruct (font_settings self); cbn [is_null negb]; [| apply maintains_ret, H].
  apply maintains_bind; [exact Hinit | | exact H].
  intros _. apply maintains_send, P_connect.
Qed.

Lemma load_mouse_settings_maintains :
  (forall st self, I self -> I (set_mouse_settings st self)) ->
  maintains I P (sync_mouse_options env) ->
  maintains I P (load_mouse_settings env).
Proof.
  intros I_store Hsync. unfold load_mouse_settings.
  destruct (g_settings_schema_source_lookup env mouse_settings_path) as [schema |];
    [| apply maintains_send, P_warning].
  apply maintains_bind; [apply maintains_write, I_store | intros _].
  apply maintains_read_bind. intros self H.
  destruct (mouse_settings self); cbn [is_null negb]; [| apply maintains_ret, H].
  apply maintains_bind; [exact Hsync | | exact H].
  intros _. apply maintains_send, P_connect.
Qed.

Lemma load_mouse_a11y_settings_maintains :
  (forall st self, I self -> I (set_mouse_a11y_settings st self)) ->
  maintains I P (load_mouse_a11y_settings env).
Proof.
  intros I_store. unfold load_mouse_a11y_settings.
  destruct (g_settings_schema_source_lookup env mouse_a11y_settings_path) as [schema |];
    [| apply maintains_send, P_warning].
  apply maintains_bind; [apply maintains_write, I_store | intros _].
  apply maintains_send, P_connect.
Qed.

Lemma load_initial_settings_maintains :
  (forall st self, I self -> I (set_font_settings st self)) ->
  (forall st self, I self -> I (set_mouse_settings st self)) ->
  (forall st self, I self -> I (set_mouse_a11y_settings st self)) ->
  maintains I P init_font_options ->
  maintains I P (sync_mouse_options env) ->
  maintains I P (load_initial_settings env).
Proof.
  intros I_font I_mouse I_a11y Hinit Hsync. rewrite load_initial_settings_parts.
  apply maintains_bind; [apply load_font_settings_maintains; assumption | intros _].
  apply maintains_bind; [apply load_mouse_settings_maintains; assumption | intros _].
  apply load_mouse_a11y_settings_maintains; assumption.
Qed.

(** The mouse sync writes the two mouse properties only: it maintains
    what writes to these two maintain. *)
Lemma sync_mouse_options_maintains :
  (forall value, maintains I P
                   (clutter_settings_set_property env PROP_DOUBLE_CLICK_TIME value)) ->
  (forall value, maintains I P
                   (clutter_settings_set_property env PROP_DND_DRAG_THRESHOLD value)) ->
  (forall msg, P (CRITICAL msg)) ->
  (forall pspec, P (EMIT_notify pspec)) ->
  P EMIT_settings_changed ->
  maintains I P (sync_mouse_options env).
Proof.
  intros Htime Hthreshold Hcrit Hnotify Hchanged.
  unfold sync_mouse_options. apply maintains_read_bind. intros self H.
  apply g_object_set_maintains; try assumption; [| intros; assumption].
  intros name value prop pspec Hin Hfind _.
  assert (Hprop : prop = PROP_DOUBLE_CLICK_TIME \/ prop = PROP_DND_DRAG_THRESHOLD).
  { cbn [In] in Hin. destruct Hin as [Hin | [Hin | []]]; inversion Hin; subst name value;
      vm_compute in Hfind; inversion Hfind; auto. }
  destruct Hprop as [-> | ->]; [apply Htime | apply Hthreshold].
Qed.
End Startup.

Lemma init_font_options_run (self : ClutterSettings) :
  let fs := get_font_gsettings (font_settings self) in
  let options :=
    {| hint_metrics := CAIRO_HINT_METRICS_DEFAULT;
       hint_style := cairo_hint_style fs;
       subpixel_order := cairo_subpixel_order fs;
       antialias := cairo_antialias fs |} in
  init_font_options self =
    match backend self with
    | Some b =>
        (tt, set_backend (Some (backend_store_font_options options b)) self,
         [CALL_backend_set_font_options options])
    | None =>
        (tt, self,
         [CRITICAL "clutter_backend_set_font_options: CLUTTER_IS_BACKEND (backend)"])
    end.
Proof.
  unfold init_font_options, clutter_backend_set_font_options, bind, read, write, send, ret.
  destruct (backend self); reflexivity.
Qed.

Lemma mouse_write_keeps (I : ClutterSettings -> Prop) (P : event -> Prop)
    (env : Platform) (prop : prop_id) (value : GValue) :
  prop = PROP_DOUBLE_CLICK_TIME \/ prop = PROP_DND_DRAG_THRESHOLD ->
  (forall v self, I self -> I (set_double_click_time v self)) ->
  (forall v self, I self -> I (set_dnd_drag_threshold v self)) ->
  maintains I P (clutter_settings_set_property env prop value).
Proof.
  intros [-> | ->] Htime Hthreshold self H; (split; [| constructor]).
  - apply Htime, H.
  - apply Hthreshold, H.
Qed.

(** X16.  Attaching a backend hands it, when the font schema is
    installed and its store opens, the cairo values of the translation
    as they are: cairo's default hint metrics, and the hint style,
    subpixel order and antialias read (cairo's defaults for indices out
    of range), with no grayscale rule applied.  Without the schema or
    the store the backend keeps the options it came with.  The mouse
    part of the start-up does not touch the options. *)
Theorem set_backend_hands_over_translation (env : Platform) (b : ClutterBackend)
    (self : ClutterSettings) :
  backend_font_options (object_of (_clutter_settings_set_backend env b self)) =
    match g_settings_schema_source_lookup env font_settings_path with
    | Some schema =>
        match g_settings_new_full schema with
        | Some store =>
            let fs := get_font_gsettings (Some store) in
            Some {| hint_metrics := CAIRO_HINT_METRICS_DEFAULT;
                    hint_style := cairo_hint_style fs;
                    subpixel_order := cairo_subpixel_order fs;
                    antialias := cairo_antialias fs |}
        | None => font_options b
        end
    | None => font_options b
    end.
Proof.
  unfold _clutter_settings_set_backend. rewrite object_of_bind.
  cbn [write result_of object_of fst snd].
  rewrite load_initial_settings_parts, object_of_bind.
  match goal with |- _ = ?rhs => set (options := rhs) end.
  assert (Hfont : holds_font_options options
                    (object_of (load_font_settings env (set_backend (Some b) self)))).
  { subst options. unfold load_font_settings, holds_font_options.
    destruct (g_settings_schema_source_lookup env font_settings_path) as [schema |];
      [| reflexivity].
    rewrite object_of_bind. cbn [write result_of object_of fst snd].
    rewrite object_of_bind.
    cbn [read result_of object_of fst snd font_settings set_font_settings].
    destruct (g_settings_new_full schema) as [store |]; cbn [is_null negb];
      [| reflexivity].
    rewrite object_of_bind, init_font_options_run. reflexivity. }
  revert Hfont.
  generalize (object_of (load_font_settings env (set_backend (Some b) self))).
  intros s Hs.
  assert (Htail : maintains (holds_font_options options) any_event
                    (load_mouse_settings env ;; load_mouse_a11y_settings env)).
  { apply maintains_bind; [| intros _].
    - apply load_mouse_settings_maintains; try (intros; exact Logic.I).
      + intros st s0 H0. exact H0.
      + apply sync_mouse_options_maintains; try (intros; exact Logic.I);
          intros value s0 H0; (split; [exact H0 | constructor]).
    - apply load_mouse_a11y_settings_maintains; try (intros; exact Logic.I).
      intros st s0 H0. exact H0. }
  apply (proj1 (Htail s Hs)).
Qed.

(** Full hinting, grayscale and RGB order on the platform: the backend
    is handed the RGB order with grayscale. *)
Lemma set_backend_hands_over_translation_example :
  backend_font_options
    (object_of (_clutter_settings_set_backend (font_platform 3 1 1) fresh_backend
                  clutter_settings_init)) =
    Some {| hint_metrics := CAIRO_HINT_METRICS_DEFAULT;
            hint_style := CAIRO_HINT_STYLE_FULL;
            subpixel_order := CAIRO_SUBPIXEL_ORDER_RGB;
            antialias := CAIRO_ANTIALIAS_GRAY |}.
Proof.
  exact (set_backend_hands_over_translation (font_platform 3 1 1) fresh_backend
           clutter_settings_init).
Defined.

(** X17.  Attaching a backend reads the platform's font settings into
    the backend's font options only: the font fields (hinting, hint
    style, antialias, subpixel order), the font name, the DPI, the
    resolution, the double-click distance, the long-press duration and
    the password hint time are as before, neither "font-changed" nor
    "resolution-changed" is emitted and the seat is not called. *)
Theorem set_backend_keeps_font_state (env : Platform) (b : ClutterBackend)
    (self : ClutterSettings) :
  font_state_kept self (object_of (_clutter_settings_set_backend env b self)) /\
  forallb (fun e => negb (is_font_signal e) && negb (is_seat_call e))
    (events_of (_clutter_settings_set_backend env b self)) = true.
Proof.
  unfold _clutter_settings_set_backend. rewrite run_bind.
  cbn [write result_of object_of events_of fst snd app].
  destruct (load_initial_settings_maintains
              (font_state_kept self)
              (fun e => negb (is_font_signal e) && negb (is_seat_call e) = true) env)
    with (self := set_backend (Some b) self) as [Hobj Hev];
    try reflexivity; try (intros st s Hs; exact Hs).
  - intros s Hs. rewrite init_font_options_run. cbv zeta.
    destruct (backend s); (split; [exact Hs | repeat constructor]).
  - apply sync_mouse_options_maintains; try reflexivity;
      intros value s Hs; (split; [exact Hs | constructor]).
  - unfold font_state_kept. repeat split; reflexivity.
  - split; [exact Hobj |]. apply forallb_forall. apply Forall_forall. exact Hev.
Qed.

Lemma set_property_keeps_seat (env : Platform) (seat : ClutterSeat)
    (prop : prop_id) (value : GValue) :
  maintains (fun self => option_map default_seat (backend self) = Some seat)
    (fun e => is_seat_call e = false)
    (clutter_settings_set_property env prop value).
Proof.
  intros self H.
  set_property_cases prop; settle_backend self;
    (split; [first [exact H | discriminate H] | repeat constructor]).
Qed.

Lemma g_object_set_keeps_seat (env : Platform) (seat : ClutterSeat)
    (args : list (string * GValue)) :
  maintains (fun self => option_map default_seat (backend self) = Some seat)
    (fun e => is_seat_call e = false)
    (g_object_set env args).
Proof.
  apply g_object_set_maintains; try reflexivity.
  intros. apply set_property_keeps_seat.
Qed.

Lemma maintains_leaves_seat {A : Type} (seat : ClutterSeat) (m : M A)
    (self : ClutterSettings) :
  maintains (fun self => option_map default_seat (backend self) = Some seat)
    (fun e => is_seat_call e = false) m ->
  option_map default_seat (backend self) = Some seat ->
  leaves_seat seat (m self).
Proof.
  intros Hm H. destruct (Hm self H) as [Hobj Hev].
  split; [exact Hobj | apply Forall_existsb_false, Hev].
Qed.

(** X18.  Only the accessibility sync touches the seat.  Property
    writes, the font and the mouse change events and the start-up leave
    the backend attached, with the seat it had, and never call the
    seat. *)
Theorem seat_left_alone (env : Platform) (self : ClutterSettings) (b : ClutterBackend) :
  backend self = Some b ->
  (forall args, leaves_seat (default_seat b) (g_object_set env args self)) /\
  (forall settings,
      leaves_seat (default_seat b) (on_font_settings_change_event env settings self)) /\
  (forall settings,
      leaves_seat (default_seat b) (on_mouse_settings_change_event env settings self)) /\
  leaves_seat (default_seat b) (load_initial_settings env self).
Proof.
  intros Hb.
  assert (H : option_map default_seat (backend self) = Some (default_seat b))
    by (rewrite Hb; reflexivity).
  assert (Hsync : maintains
                    (fun self => option_map default_seat (backend self)
                                 = Some (default_seat b))
                    (fun e => is_seat_call e = false) (sync_mouse_options env)).
  { unfold sync_mouse_options. apply maintains_read_bind.
    intros s Hs. apply g_object_set_keeps_seat, Hs. }
  split; [| split; [| split]].
  - intros args. apply maintains_leaves_seat; [apply g_object_set_keeps_seat | exact H].
  - intros settings. apply maintains_leaves_seat; [| exact H].
    unfold on_font_settings_change_event.
    apply maintains_bind; [apply g_object_set_keeps_seat | intros; apply maintains_ret].
  - intros settings. apply maintains_leaves_seat; [| exact H].
    unfold on_mouse_settings_change_event.
    apply maintains_bind; [exact Hsync | intros; apply maintains_ret].
  - apply maintains_leaves_seat; [| exact H].
    apply load_initial_settings_maintains; try reflexivity;
      try (intros st s Hs; exact Hs); [| exact Hsync].
    intros s Hs. rewrite init_font_options_run. cbv zeta.
    destruct (backend s); cbn [object_of events_of fst snd backend set_backend];
      (split; [first [exact Hs | discriminate Hs] | repeat constructor]).
Qed.

Lemma seat_left_alone_example :
  leaves_seat busy_seat
    (load_initial_settings (font_platform 3 1 1)
       (set_backend (Some (backend_store_default_seat busy_seat fresh_backend))
          clutter_settings_init)).
Proof.
  exact (proj2 (proj2 (proj2
           (seat_left_alone (font_platform 3 1 1)
              (set_backend (Some (backend_store_default_seat busy_seat fresh_backend))
                 clutter_settings_init)
              (backend_store_default_seat busy_seat fresh_backend) eq_refl)))).
Defined.

(* ------------------------------------------------------------------ *)
(** ** The accessibility change event                                 *)
(* ------------------------------------------------------------------ *)



(* ------------------------------------------------------------------ *)
(** ** The declared ranges hold over the object's life                *)
(* ------------------------------------------------------------------ *)

Lemma value_conforms_int (name : string) (lo hi d : Z) (flags : GParamFlags)
    (value : GValue) :
  value_conforms (g_param_spec_int name lo hi d flags) value = true ->
  lo <= g_value_get_int value <= hi.
Proof.
  destruct value as [v | v | v]; cbn; try discriminate. lia.
Qed.

Lemma value_conforms_uint (name : string) (lo hi d : Z) (flags : GParamFlags)
    (value : GValue) :
  value_conforms (g_param_spec_uint name lo hi d flags) value = true ->
  lo <= g_value_get_uint value <= hi.
Proof.
  destruct value as [v | v | v]; cbn; try discriminate. lia.
Qed.

Lemma set_property_keeps_ranges (env : Platform) (prop : prop_id) (pspec : GParamSpec)
    (value : GValue) :
  In (prop, pspec) obj_props ->
  value_conforms pspec value = true ->
  maintains in_property_ranges any_event (clutter_settings_set_property env prop value).
Proof.
  intros Hin Hv self H. split; [| apply Forall_any_event].
  unfold in_property_ranges in *.
  cbn [obj_props In] in Hin.
  repeat (destruct Hin as [Hin | Hin];
          [inversion Hin; subst prop pspec; clear Hin;
           first [apply value_conforms_int in Hv | apply value_conforms_uint in Hv
                 | idtac] |]);
    try contradiction;
    run_set_property self;
    cbn [fst snd double_click_time double_click_distance
         dnd_drag_threshold xft_antialias font_dpi xft_hinting long_press_duration
         password_hint_time set_double_click_time set_double_click_distance
         set_dnd_drag_threshold set_font_name set_xft_antialias set_font_dpi
         set_xft_hinting set_xft_hint_style set_xft_rgba set_long_press_duration
         set_password_hint_time set_resolution set_backend];
    lia.
Qed.

Lemma g_object_set_keeps_ranges (env : Platform) (args : list (string * GValue)) :
  maintains in_property_ranges any_event (g_object_set env args).
Proof.
  apply g_object_set_maintains; try (intros; exact Logic.I).
  intros name value prop pspec _ Hfind Hv.
  apply (set_property_keeps_ranges env prop pspec value); [| exact Hv].
  apply find_pspec_in with (name := name), Hfind.
Qed.

Lemma sync_mouse_options_keeps_ranges (env : Platform) :
  maintains in_property_ranges any_event (sync_mouse_options env).
Proof.
  unfold sync_mouse_options.
  apply maintains_read_bind. intros self H. apply g_object_set_keeps_ranges, H.
Qed.

Lemma lifecycle_in_property_ranges (env : Platform) (self : ClutterSettings) :
  lifecycle env self -> in_property_ranges self.
Proof.
  induction 1 as [| self b _ IH | self args _ IH | self settings _ IH
                  | self settings _ IH | self settings _ IH | self seat _ IH].
  - unfold in_property_ranges, G_MAXINT, G_MAXUINT. cbn. lia.
  - unfold _clutter_settings_set_backend. rewrite object_of_bind.
    cbn [write result_of object_of fst snd].
    apply load_initial_settings_maintains with (P := any_event);
      try (intros; exact Logic.I); try (intros st s Hs; exact Hs).
    + intros s Hs. split; [| apply Forall_any_event].
      rewrite init_font_options_run. cbv zeta. destruct (backend s); exact Hs.
    + apply sync_mouse_options_keeps_ranges.
    + exact IH.
  - apply g_object_set_keeps_ranges, IH.
  - unfold on_font_settings_change_event. rewrite object_of_bind.
    cbn [ret object_of fst snd]. apply g_object_set_keeps_ranges, IH.
  - unfold on_mouse_settings_change_event. rewrite object_of_bind.
    cbn [ret object_of fst snd]. apply sync_mouse_options_keeps_ranges, IH.
  - unfold on_mouse_a11y_settings_change_event. rewrite object_of_bind.
    cbn [read result_of object_of fst snd].
    destruct (backend self) as [b |]; exact IH.
  - exact IH.
Qed.

(** X20.  Over the whole life of the object (creation, attaching a
    backend, property writes through [g_object_set], the three change
    events, the accessibility sync) every readable property but
    font-dpi reads a value inside the range its pspec declares, and the
    DPI field stays between -1 and 1024 * 1024: a platform value out of
    range never reaches a field. *)
Theorem lifecycle_reads_conform (env : Platform) (self : ClutterSettings) :
  lifecycle env self ->
  (forall prop pspec value,
      In (prop, pspec) obj_props -> prop <> PROP_FONT_DPI ->
      property_value prop self = Some value ->
      value_conforms pspec value = true) /\
  -1 <= font_dpi self <= 1024 * 1024.
Proof.
  intros H. apply lifecycle_in_property_ranges in H.
  unfold in_property_ranges in H.
  split; [| lia].
  intros prop pspec value Hin Hdpi Hread.
  obj_props_cases Hin prop pspec; try congruence;
    cbn in Hread; inversion Hread; subst value; cbn [value_conforms];
    try reflexivity;
    apply andb_true_intro; split; apply Z.leb_le; lia.
Qed.

(** A drag threshold of 0 is refused: the property still reads 8. *)
Lemma lifecycle_reads_conform_example :
  property_value PROP_DND_DRAG_THRESHOLD
    (object_of (g_object_set (bare_platform None)
                  [("dnd-drag-threshold"%string, G_INT 0);
                   ("font-antialias"%string, G_INT 1)] clutter_settings_init))
    = Some (G_INT 8) /\
  value_conforms (g_param_spec_int "dnd-drag-threshold" 1 G_MAXINT 8 G_PARAM_READWRITE)
    (G_INT 8) = true.
Proof.
  split; [reflexivity |].
  apply (proj1 (lifecycle_reads_conform (bare_platform None)
                  (object_of (g_object_set (bare_platform None)
                                [("dnd-drag-threshold"%string, G_INT 0);
                                 ("font-antialias"%string, G_INT 1)]
                                clutter_settings_init))
                  (lifecycle_set (bare_platform None) clutter_settings_init
                     [("dnd-drag-threshold"%string, G_INT 0);
                      ("font-antialias"%string, G_INT 1)]
                     (lifecycle_init (bare_platform None))))
           PROP_DND_DRAG_THRESHOLD).
  - cbn [obj_props In]. right. right. left. reflexivity.
  - discriminate.
  - reflexivity.
Defined.
